(** * Route planning by air-quality exposure: a shallow embedding

    This development models the route-ranking pipeline of the dashboard:
    [src/hooks/useRouteCalculation.ts] (geocoding, route fetching with a
    straight-line fallback, air-quality sampling along a path, averaging and
    sorting) and the selection logic of [src/pages/RoutePlanner.tsx]
    (cleanest route, relative premium shown next to every other route).

    Conventions.
    - A JavaScript [number] is modelled by the type [number] below: exact
      rationals extended with [NaN] and the two infinities.  Rounding of
      IEEE-754 doubles and the sign of zero are not modelled; a bound on a
      computed value is therefore stated closed wherever a double can round
      onto it, and a literal a draw of [Math.random] is compared with is the
      double it denotes.
    - The three HTTP services and [Math.random] are an environment [Env] whose
      answers may depend on the request and on the instant of the call; code
      that awaits them is written in a state monad that advances a clock and
      keeps a log of the calls performed.
    - [Promise.all] is modelled by running the promises one after the other, in
      array order; the array of results has that order in the source too. *)

From Stdlib Require Import QArith Qround ZArith List String Bool Arith.
From Stdlib Require Import Lia Lqa Permutation Sorted DecimalString.
From Stdlib Require Import DecimalNat FinFun.
Import ListNotations.

Local Open Scope Q_scope.

(** ** JavaScript numbers *)

Module JS.

Inductive number : Type :=
| NaN
| NegInf
| Num (q : Q)
| PosInf.

Definition is_nan (x : number) : bool :=
  match x with NaN => true | _ => false end.

Definition Qltb (a b : Q) : bool := negb (Qle_bool b a).

Definition neg (x : number) : number :=
  match x with
  | NaN => NaN
  | NegInf => PosInf
  | Num q => Num (- q)
  | PosInf => NegInf
  end.

(** [x + y] *)
Definition add (x y : number) : number :=
  match x, y with
  | NaN, _ | _, NaN => NaN
  | PosInf, NegInf | NegInf, PosInf => NaN
  | PosInf, _ | _, PosInf => PosInf
  | NegInf, _ | _, NegInf => NegInf
  | Num a, Num b => Num (a + b)
  end.

(** [x - y] *)
Definition sub (x y : number) : number := add x (neg y).

(** The infinity carrying the sign of [s * q]; [NaN] when [q] is zero. *)
Definition signed_inf (positive : bool) (q : Q) : number :=
  match q ?= 0 with
  | Eq => NaN
  | Gt => if positive then PosInf else NegInf
  | Lt => if positive then NegInf else PosInf
  end.

(** [x * y] *)
Definition mul (x y : number) : number :=
  match x, y with
  | NaN, _ | _, NaN => NaN
  | Num a, Num b => Num (a * b)
  | PosInf, PosInf | NegInf, NegInf => PosInf
  | PosInf, NegInf | NegInf, PosInf => NegInf
  | PosInf, Num q | Num q, PosInf => signed_inf true q
  | NegInf, Num q | Num q, NegInf => signed_inf false q
  end.

(** [x / y]; a zero divisor is taken as [+0]. *)
Definition div (x y : number) : number :=
  match x, y with
  | NaN, _ | _, NaN => NaN
  | Num a, Num b =>
      if Qeq_bool b 0 then signed_inf true a else Num (a / b)
  | Num _, (PosInf | NegInf) => Num 0
  | (PosInf | NegInf), (PosInf | NegInf) => NaN
  | PosInf, Num b => if Qltb b 0 then NegInf else PosInf
  | NegInf, Num b => if Qltb b 0 then PosInf else NegInf
  end.

(** [x < y] *)
Definition ltb (x y : number) : bool :=
  match x, y with
  | NaN, _ | _, NaN => false
  | _, NegInf => false
  | NegInf, _ => true
  | PosInf, _ => false
  | Num _, PosInf => true
  | Num a, Num b => Qltb a b
  end.

(** [x > y] *)
Definition gtb (x y : number) : bool := ltb y x.

(** [x <= y] *)
Definition leb (x y : number) : bool :=
  match x, y with
  | NaN, _ | _, NaN => false
  | NegInf, _ => true
  | _, PosInf => true
  | _, NegInf => false
  | PosInf, _ => false
  | Num a, Num b => Qle_bool a b
  end.

(** [x >= y] *)
Definition geb (x y : number) : bool := leb y x.

(** [x === y] on numbers *)
Definition eqb (x y : number) : bool :=
  match x, y with
  | NegInf, NegInf | PosInf, PosInf => true
  | Num a, Num b => Qeq_bool a b
  | _, _ => false
  end.

(** [Math.round]: the nearest integer, halves going up. *)
Definition Math_round (x : number) : number :=
  match x with
  | Num q => Num (inject_Z (Qfloor (q + (1 # 2))))
  | other => other
  end.

(** [Math.pow(x, 2)] *)
Definition Math_pow2 (x : number) : number := mul x x.

(** [Math.sqrt], over a square root [Qsqrt] of the non-negative rationals
    (a rounded one, as the runtime's is). *)
Definition Math_sqrt (Qsqrt : Q -> Q) (x : number) : number :=
  match x with
  | NaN | NegInf => NaN
  | PosInf => PosInf
  | Num q => if Qltb q 0 then NaN else Num (Qsqrt q)
  end.

(** [n] as a number, for array lengths. *)
Definition of_nat (n : nat) : number := Num (inject_Z (Z.of_nat n)).

(** [Array.prototype.sort(comparefn)] as ECMAScript specifies it: the sort is
    stable, [comparefn(a, b) > 0] asks for [a] after [b], and a [NaN] answer
    counts as [+0].  The order the elements are compared in is left to the
    engine; the model inserts each element, from the last to the first, into
    the sorted rest. *)
Section Sort.
Context {A : Type} (comparefn : A -> A -> number).

Definition goes_after (a b : A) : bool := gtb (comparefn a b) (Num 0).

Fixpoint insert (a : A) (l : list A) : list A :=
  match l with
  | [] => [a]
  | b :: l' => if goes_after a b then b :: insert a l' else a :: b :: l'
  end.

Fixpoint sort (l : list A) : list A :=
  match l with
  | [] => []
  | a :: l' => insert a (sort l')
  end.
End Sort.

(** [Array.prototype.reduce(callbackfn)] with no initial value: [None] stands
    for the [TypeError] raised on an empty array. *)
Definition reduce1 {A : Type} (callbackfn : A -> A -> A) (l : list A) : option A :=
  match l with
  | [] => None
  | a :: l' => Some (fold_left callbackfn l' a)
  end.

End JS.

Import JS.

(** ** Data model *)

(** [{ lat: number; lon: number }], the result of geocoding. *)
Record LatLon : Type := mkLatLon { ll_lat : number; ll_lon : number }.

(** [interface AQIData] *)
Record AQIData : Type := mkAQIData { lat : number; lon : number; aqi : number }.

(** The object returned by [getRouteFromORS]. *)
Record Route : Type := mkRoute {
  r_coordinates : list (number * number);
  r_distance : number;
  r_duration : number
}.

(** [interface RouteData] of [RoutePlanner.tsx] *)
Record RouteData : Type := mkRouteData {
  id : string;
  coordinates : list (number * number);
  distance : number;
  duration : number;
  avgAqi : number;
  aqiPoints : list AQIData
}.

(** ** The external services *)

(** Answer of the geocoding service: the [fetch] or the decoding of its body
    raises, or the body is an array of hits whose [lat] and [lon] have been
    read by [parseFloat].  A body that is no array behaves as the empty one. *)
Inductive GeoResponse : Type :=
| GeoRaises
| GeoJson (hits : list LatLon).

(** One entry of [measurements] in an air-quality answer. *)
Record Measurement : Type := mkMeasurement { parameter : string; value : number }.

(** Answer of the air-quality service: something in the [try] block raises
    (network failure, a body that is not JSON, a property read on [null]), or
    the body carries [results] (absent: [None]) whose first station carries
    [measurements] (absent: [None]). *)
Inductive AQResponse : Type :=
| AQRaises
| AQJson (results : option (list (option (list Measurement)))).

(** One entry of [features] in a routing answer.  [None] in a field stands for
    a property chain that raises a [TypeError] when read. *)
Record Feature : Type := mkFeature {
  geometry_coordinates : option (list (number * number));   (* [lon, lat] *)
  segments : option (list (number * number))                (* distance, duration *)
}.

(** Answer of the routing service. *)
Inductive ORSResponse : Type :=
| ORSFetchRaises                                  (* network failure *)
| ORSNotOk                                        (* [response.ok] is false *)
| ORSBodyRaises                                   (* decoding or reading the body raises *)
| ORSJson (features : option (list Feature)).     (* [data.features] *)

(** The world outside the program.  The last argument of every service is the
    instant of the call. *)
Record Env : Type := mkEnv {
  nominatim : string -> nat -> GeoResponse;
  openaq : number -> number -> nat -> AQResponse;
  openrouteservice : string -> LatLon -> LatLon -> nat -> ORSResponse;
  random : nat -> Q
}.

(** [Math.random()] answers in [0, 1). *)
Definition random_in_range (env : Env) : Prop :=
  forall t, 0 <= random env t /\ random env t < 1.

(** What the program did to the outside world. *)
Inductive Event : Type :=
| EvGeocode (location : string)
| EvAirQuality (lat lon : number)
| EvRoute (profile : string) (start end_ : LatLon)
| EvRandom.

Definition is_geocode (e : Event) : bool :=
  match e with EvGeocode _ => true | _ => false end.
Definition is_air_quality (e : Event) : bool :=
  match e with EvAirQuality _ _ => true | _ => false end.
Definition is_route (e : Event) : bool :=
  match e with EvRoute _ _ _ => true | _ => false end.

Record State : Type := mkState { clock : nat; log : list Event }.

Definition initial : State := mkState 0 [].

(** ** A state monad for the awaited calls *)

Definition M (A : Type) : Type := State -> A * State.

Definition ret {A : Type} (a : A) : M A := fun s => (a, s).

Definition bind {A B : Type} (m : M A) (k : A -> M B) : M B :=
  fun s => let (a, s') := m s in k a s'.

Declare Scope monad_scope.
Delimit Scope monad_scope with monad.
Notation "x <- m ;; k" := (bind m (fun x => k))
  (at level 61, m at next level, right associativity) : monad_scope.
Local Open Scope monad_scope.

(** Perform one external call: read the answer the environment gives now,
    let the clock advance and record the call. *)
Definition call {A : Type} (ev : Event) (answer : nat -> A) : M A :=
  fun s => (answer (clock s), mkState (S (clock s)) (log s ++ [ev])).

(** [Promise.all(xs.map(f))], where [f] also receives the index. *)
Fixpoint mapM_from {A B : Type} (f : A -> nat -> M B) (i : nat) (l : list A)
  : M (list B) :=
  match l with
  | [] => ret []
  | a :: l' =>
      b <- f a i ;;
      bs <- mapM_from f (S i) l' ;;
      ret (b :: bs)
  end.

Definition mapM {A B : Type} (f : A -> nat -> M B) (l : list A) : M (list B) :=
  mapM_from f 0%nat l.

(** ** The hook [useRouteCalculation] *)

(** What the hook exposes once [calculateRoutes] has settled. *)
Record Hook : Type := mkHook {
  routes : option (list RouteData);
  loading : bool;
  error : option string
}.

Definition could_not_find : string := "Could not find one or both locations".
Definition no_routes_found : string := "No routes found".

(** The template literal [`route-${index}`]. *)
Definition route_id (index : nat) : string :=
  ("route-" ++ NilEmpty.string_of_uint (Nat.to_uint index))%string.

Definition routeProfiles : list string := ["driving-car"; "cycling-regular"]%string.

Section Hook.

Variable env : Env.
Variable Qsqrt : Q -> Q.

Definition geocodeLocation (location : string) : M (option LatLon) :=
  data <- call (EvGeocode location) (nominatim env location) ;;
  match data with
  | GeoJson (hit :: _) => ret (Some (mkLatLon (ll_lat hit) (ll_lon hit)))
  | GeoJson [] => ret None
  | GeoRaises => ret None
  end.

(** The simulated index of the fallback branch, [50 + Math.random() * 100].
    The exact value stays below 150; in doubles the sum rounds to 150 for the
    largest draw, so statements about it use the closed range 50 to 150. *)
Definition simulatedAQI : M number :=
  r <- call EvRandom (random env) ;;
  ret (add (Num 50) (mul (Num r) (Num 100))).

Definition is_pm25 (m : Measurement) : bool := String.eqb (parameter m) "pm25".

Definition fetchAQIData (lat lon : number) : M number :=
  data <- call (EvAirQuality lat lon) (openaq env lat lon) ;;
  match data with
  | AQJson (Some (Some (m :: ms) :: _)) =>
      match find is_pm25 (m :: ms) with
      | Some pm25 => ret (mul (value pm25) (Num (417 # 100)))
      | None => simulatedAQI
      end
  | AQJson _ => simulatedAQI
  | AQRaises => ret (Num 75)
  end.

(** The route of the [catch] block: a straight line through the midpoint. *)
Definition fallbackRoute (start end_ : LatLon) : Route :=
  mkRoute
    [ (ll_lat start, ll_lon start);
      (div (add (ll_lat start) (ll_lat end_)) (Num 2),
       div (add (ll_lon start) (ll_lon end_)) (Num 2));
      (ll_lat end_, ll_lon end_) ]
    (mul (Math_sqrt Qsqrt
            (add (Math_pow2 (sub (ll_lat end_) (ll_lat start)))
                 (Math_pow2 (sub (ll_lon end_) (ll_lon start)))))
         (Num 111000))
    (Num 3600).

Definition getRouteFromORS (start end_ : LatLon) (profile : string)
  : M (option Route) :=
  response <- call (EvRoute profile start end_)
                   (openrouteservice env profile start end_) ;;
  match response with
  | ORSJson (Some (feature :: _)) =>
      match geometry_coordinates feature, segments feature with
      | Some coords, Some ((distance, duration) :: _) =>
          ret (Some (mkRoute (map (fun coord => (snd coord, fst coord)) coords)
                             distance duration))
      | _, _ => ret (Some (fallbackRoute start end_))
      end
  | ORSJson _ => ret None
  | ORSFetchRaises | ORSNotOk | ORSBodyRaises =>
      ret (Some (fallbackRoute start end_))
  end.

(** The [for] loop of [calculateAQIAlongRoute], entered at index [i]; every
    turn pushes one point, so the points are returned in pushing order.
    [fuel] bounds the number of turns. *)
Fixpoint sampleFrom (fuel : nat) (coordinates : list (number * number))
         (sampleInterval i : nat) : M (list AQIData) :=
  match fuel with
  | O => ret []
  | S fuel' =>
      match nth_error coordinates i with
      | None => ret []
      | Some coord =>
          aqi <- fetchAQIData (fst coord) (snd coord) ;;
          rest <- sampleFrom fuel' coordinates sampleInterval (i + sampleInterval) ;;
          ret (mkAQIData (fst coord) (snd coord) aqi :: rest)
      end
  end.

Definition sampleInterval_of (coordinates : list (number * number)) : nat :=
  Nat.max 1 (List.length coordinates / 10).

Definition calculateAQIAlongRoute (coordinates : list (number * number))
  : M (list AQIData) :=
  sampleFrom (List.length coordinates) coordinates (sampleInterval_of coordinates) 0.

(** [aqiPoints.reduce((sum, point) => sum + point.aqi, 0)] *)
Definition sumAqi (aqiPoints : list AQIData) : number :=
  fold_left (fun sum point => add sum (aqi point)) aqiPoints (Num 0).

(** The callback mapped over [validRoutes]. *)
Definition evaluateRoute (route : Route) (index : nat) : M RouteData :=
  aqiPoints <- calculateAQIAlongRoute (r_coordinates route) ;;
  let avgAqi := div (sumAqi aqiPoints) (of_nat (List.length aqiPoints)) in
  ret (mkRouteData (route_id index) (r_coordinates route) (r_distance route)
                   (r_duration route) avgAqi aqiPoints).

(** The comparator handed to [sort]. *)
Definition byAvgAqi (a b : RouteData) : number := sub (avgAqi a) (avgAqi b).

(** [routesWithAQI.sort((a, b) => a.avgAqi - b.avgAqi)] *)
Definition rank (routesWithAQI : list RouteData) : list RouteData :=
  sort byAvgAqi routesWithAQI.

(** [routeResults.filter(r => r !== null)] *)
Fixpoint nonNull {A : Type} (l : list (option A)) : list A :=
  match l with
  | [] => []
  | Some a :: l' => a :: nonNull l'
  | None :: l' => nonNull l'
  end.

Definition failed (message : string) : Hook := mkHook None false (Some message).

Definition calculateRoutes (startLocation endLocation : string) : M Hook :=
  start <- geocodeLocation startLocation ;;
  end_ <- geocodeLocation endLocation ;;
  match start, end_ with
  | Some start, Some end_ =>
      routeResults <- mapM (fun profile _ => getRouteFromORS start end_ profile)
                           routeProfiles ;;
      match nonNull routeResults with
      | [] => ret (failed no_routes_found)
      | validRoutes =>
          routesWithAQI <- mapM evaluateRoute validRoutes ;;
          ret (mkHook (Some (rank routesWithAQI)) false None)
      end
  | _, _ => ret (failed could_not_find)
  end.

End Hook.

(** ** The page [RoutePlanner] *)

Definition getCleanestRoute (routes : option (list RouteData)) : option RouteData :=
  match routes with
  | None | Some [] => None
  | Some routes =>
      reduce1 (fun prev current =>
                 if ltb (avgAqi current) (avgAqi prev) then current else prev)
              routes
  end.

(** [cleanerPercent], for one entry of the list of routes. *)
Definition cleanerPercent (cleanestRoute : option RouteData) (route : RouteData)
  : number :=
  match cleanestRoute with
  | Some cleanest =>
      Math_round (mul (div (sub (avgAqi route) (avgAqi cleanest))
                           (avgAqi cleanest))
                      (Num 100))
  | None => Num 0
  end.

(** [isCleanest] *)
Definition isCleanest (cleanestRoute : option RouteData) (route : RouteData) : bool :=
  match cleanestRoute with
  | Some cleanest => String.eqb (id route) (id cleanest)
  | None => false
  end.

(** The premium written next to a route, [+{cleanerPercent}% AQI], when the
    page writes one. *)
Definition shownPremium (cleanestRoute : option RouteData) (route : RouteData)
  : option number :=
  if negb (isCleanest cleanestRoute route)
     && gtb (cleanerPercent cleanestRoute route) (Num 0)
  then Some (cleanerPercent cleanestRoute route)
  else None.

(** ** Concrete environments, for examples *)

(** A rounded square root of the rationals: to six decimals, upwards. *)
Definition Qsqrt_up (q : Q) : Q :=
  inject_Z (Z.sqrt_up (Qceiling (q * 1000000000000))) / 1000000.

Definition bangalore : LatLon := mkLatLon (Num (1297 # 100)) (Num (7759 # 100)).
Definition mysore : LatLon := mkLatLon (Num (1230 # 100)) (Num (7665 # 100)).

(** Every place name but the empty one is found: Mysore, and Bangalore for
    any other name. *)
Definition nominatim_nonempty (location : string) (_ : nat) : GeoResponse :=
  if String.eqb location "" then GeoJson []
  else if String.eqb location "Mysore, India" then GeoJson [mysore]
  else GeoJson [bangalore].

(** All services are down. *)
Definition env_down : Env :=
  mkEnv (fun _ _ => GeoRaises) (fun _ _ _ => AQRaises)
        (fun _ _ _ _ => ORSFetchRaises) (fun _ => 1 # 2).

(** Geocoding works; routing answers with an empty list of features. *)
Definition env_no_features : Env :=
  mkEnv nominatim_nonempty (fun _ _ _ => AQRaises)
        (fun _ _ _ _ => ORSJson (Some [])) (fun _ => 1 # 2).

(** Geocoding works; routing is down; a station reports 200 for pm25. *)
Definition env_polluted : Env :=
  mkEnv nominatim_nonempty
        (fun _ _ _ => AQJson (Some [Some [mkMeasurement "pm25" (Num 200)]]))
        (fun _ _ _ _ => ORSNotOk) (fun _ => 1 # 2).

(** Geocoding works; routing is down; no station is near. *)
Definition env_no_station : Env :=
  mkEnv nominatim_nonempty (fun _ _ _ => AQJson (Some []))
        (fun _ _ _ _ => ORSNotOk) (fun _ => 1 # 2).

(** Geocoding works; a station reports 10 for pm25; the routing service
    answers the driving profile with a path of one point and the cycling
    profile with a feature whose path is empty. *)
Definition env_empty_path : Env :=
  mkEnv nominatim_nonempty
        (fun _ _ _ => AQJson (Some [Some [mkMeasurement "pm25" (Num 10)]]))
        (fun profile _ _ _ =>
           if String.eqb profile "driving-car"
           then ORSJson (Some [mkFeature (Some [(Num (7759 # 100), Num (1297 # 100))])
                                         (Some [(Num 1000, Num 600)])])
           else ORSJson (Some [mkFeature (Some []) (Some [(Num 1000, Num 600)])]))
        (fun _ => 1 # 2).

(** A path of [n] points going north along a meridian. *)
Definition meridian (n : nat) : list (number * number) :=
  map (fun k => (of_nat k, Num 0)) (seq 0 n).

(** ** Vocabulary of the statements *)

(** The events a computation adds to the log when started in [s]. *)
Definition emitted {A : Type} (m : M A) (s : State) : list Event :=
  skipn (List.length (log s)) (log (snd (m s))).

(** The number of calls of the sampler, one request to the air-quality
    service each. *)
Definition samplerCalls {A : Type} (m : M A) (s : State) : nat :=
  List.length (filter is_air_quality (emitted m s)).

(** [ceil (a / b)] on naturals. *)
Definition ceil_div (a b : nat) : nat := (a + b - 1) / b.

(** [m] started in [s] returns [a], emits [evs] and leaves [s']. *)
Definition runs {A : Type} (m : M A) (s : State) (a : A) (evs : list Event)
           (s' : State) : Prop :=
  m s = (a, s') /\ log s' = log s ++ evs.

(** The order on numbers: [x <= y] holds. *)
Definition le (x y : number) : Prop := leb x y = true.

(** The pm25 reading the sampler finds in an answer, if any. *)
Definition pm25_reading (answer : AQResponse) : option number :=
  match answer with
  | AQJson (Some (Some measurements :: _)) =>
      option_map value (find is_pm25 measurements)
  | _ => None
  end.

(** The routing call raises inside the [try] block: the request fails, the
    status is an error, or the body cannot be read as a route. *)
Definition ors_raises (answer : ORSResponse) : bool :=
  match answer with
  | ORSFetchRaises | ORSNotOk | ORSBodyRaises => true
  | ORSJson (Some (feature :: _)) =>
      match geometry_coordinates feature, segments feature with
      | Some _, Some (_ :: _) => false
      | _, _ => true
      end
  | ORSJson _ => false
  end.

(** The routing answer has no feature to read. *)
Definition ors_no_feature (answer : ORSResponse) : bool :=
  match answer with
  | ORSJson None | ORSJson (Some []) => true
  | _ => false
  end.

(** The midpoint of the fallback route. *)
Definition midpoint (start end_ : LatLon) : number * number :=
  (div (add (ll_lat start) (ll_lat end_)) (Num 2),
   div (add (ll_lon start) (ll_lon end_)) (Num 2)).

(** The mean of a route is a number, not [NaN]. *)
Definition numeric (r : RouteData) : Prop := is_nan (avgAqi r) = false.

(** The order of the ranking: [a.avgAqi <= b.avgAqi]. *)
Definition cleaner_or_equal (a b : RouteData) : Prop := le (avgAqi a) (avgAqi b).

(** The callback of the [reduce] in [getCleanestRoute]: the running
    minimum. *)
Definition cleaner (prev current : RouteData) : RouteData :=
  if ltb (avgAqi current) (avgAqi prev) then current else prev.

(** The routes of a list whose mean is identical to [m], in list order. *)
Definition withMean (m : number) (l : list RouteData) : list RouteData :=
  filter (fun r => eqb (avgAqi r) m) l.

(** An evaluated route with one sample, for examples. *)
Definition routeWithMean (index : nat) (mean : Q) : RouteData :=
  mkRouteData (route_id index) [(Num 0, Num 0)] (Num 1000) (Num 600)
              (Num mean) [mkAQIData (Num 0) (Num 0) (Num mean)].

Definition example_routes : list RouteData :=
  [routeWithMean 0 120; routeWithMean 1 60; routeWithMean 2 120; routeWithMean 3 90].

(** The evaluation of a route whose path is empty: no sample, and the mean
    [0 / 0]. *)
Definition routeWithoutSamples (index : nat) : RouteData :=
  mkRouteData (route_id index) [] (Num 1000) (Num 600) NaN [].

(** ** The rest of the page [RoutePlanner] and the map [RouteMap] *)

(** A string is truthy when it is not empty. *)
Definition truthy (text : string) : bool := negb (String.eqb text "").

(** [handleFindRoutes], the handler of the button: [hook] is what the hook
    exposed before the click. *)
Definition handleFindRoutes (env : Env) (Qsqrt : Q -> Q) (hook : Hook)
           (startLocation endLocation : string) : M Hook :=
  if truthy startLocation && truthy endLocation
  then calculateRoutes env Qsqrt startLocation endLocation
  else ret hook.

(** [getAqiColor] *)
Definition getAqiColor (aqi : number) : string :=
  if leb aqi (Num 50) then "health-good"
  else if leb aqi (Num 100) then "health-moderate"
  else if leb aqi (Num 150) then "health-unhealthy"
  else "health-hazardous".

Module RouteMap.

(** The colour of a route's line, by its mean. *)
Definition color (avgAqi : number) : string :=
  if leb avgAqi (Num 50) then "#22c55e"
  else if leb avgAqi (Num 100) then "#eab308"
  else if leb avgAqi (Num 150) then "#f97316"
  else "#ef4444".

(** What the map draws for one route: the line, its style, whether its
    popup says "Recommended", and the start and end markers. *)
Record Layer : Type := mkLayer {
  layer_id : string;
  path : list (number * number);
  line_color : string;
  weight : number;
  opacity : number;
  recommended : bool;
  markers : option ((number * number) * (number * number))
}.

(** The markers of a route: its first and last coordinate, when it has
    any. *)
Definition routeMarkers (coordinates : list (number * number))
  : option ((number * number) * (number * number)) :=
  match coordinates with
  | [] => None
  | startCoord :: _ => Some (startCoord, last coordinates startCoord)
  end.

(** The effect that updates the routes on the map; an empty list of routes
    leaves the map as it is, [None]. *)
Definition layers (routes : list RouteData) (selectedRouteId : option string)
  : option (list Layer) :=
  match routes,
        reduce1 (fun prev current =>
                   if ltb (avgAqi current) (avgAqi prev) then current else prev)
                routes with
  | [], _ | _, None => None
  | _, Some cleanestRoute =>
      Some (map (fun route =>
                   let isSelected :=
                     match selectedRouteId with
                     | Some selected => String.eqb (id route) selected
                     | None => false
                     end in
                   let isCleanest := String.eqb (id route) (id cleanestRoute) in
                   mkLayer (id route) (coordinates route) (color (avgAqi route))
                           (if isSelected then Num 6 else Num 4)
                           (if isSelected then Num 1 else Num (6 # 10))
                           isCleanest (routeMarkers (coordinates route)))
                routes)
  end.

End RouteMap.

(** ** The sampler of the second hook, with the NASA function

    [src/hooks/usePermissions.tsx] carries a second [useRouteCalculation]
    whose [fetchAQIData] asks two services at once and clamps its result. *)

Module Enhanced.

(** [Math.max(x, y)] and [Math.min(x, y)]: [NaN] when an argument is. *)
Definition Math_max (x y : number) : number :=
  if is_nan x || is_nan y then NaN else if ltb x y then y else x.

Definition Math_min (x y : number) : number :=
  if is_nan x || is_nan y then NaN else if ltb y x then y else x.

(** One result of [Promise.allSettled]: the promise is rejected (the request
    fails or its body is not JSON), or fulfilled with a value; the value
    [None] is a body, [null], whose properties cannot be read. *)
Inductive Settled (A : Type) : Type :=
| Rejected
| Fulfilled (value : option A).
Arguments Rejected {A}.
Arguments Fulfilled {A} value.

(** The [power] field of the function's answer, when truthy: whether it
    carries [parameters]. *)
Record PowerData : Type := mkPowerData { has_parameters : bool }.

(** The body the NASA function answers with, as far as the sampler reads
    it. *)
Record NasaBody : Type := mkNasaBody { power : option PowerData }.

(** The two services, as one sampler call meets them. *)
Record Services : Type := mkServices {
  openaq_latest : number -> number -> Settled (option (list (option (list Measurement))));
  nasa_function : number -> number -> Settled NasaBody
}.

(** The body of the [try] block after the [await]; [None] stands for a
    [TypeError]. *)
Definition estimate (openaqData : Settled (option (list (option (list Measurement)))))
           (nasaData : Settled NasaBody) : option number :=
  let afterOpenaq : option number :=
    match openaqData with
    | Rejected => Some (Num 75)
    | Fulfilled None => None
    | Fulfilled (Some (Some (Some (m :: ms) :: _))) =>
        match find is_pm25 (m :: ms) with
        | Some pm25 => Some (mul (value pm25) (Num (417 # 100)))
        | None => Some (Num 75)
        end
    | Fulfilled (Some _) => Some (Num 75)
    end in
  match afterOpenaq with
  | None => None
  | Some aqi =>
      let afterNasa : option number :=
        match nasaData with
        | Rejected => Some aqi
        | Fulfilled None => None
        | Fulfilled (Some body) =>
            match power body with
            | Some params =>
                if has_parameters params then Some (mul aqi (Num 1)) else Some aqi
            | None => Some aqi
            end
        end in
      match afterNasa with
      | None => None
      | Some aqi => Some (Math_min (Num 500) (Math_max (Num 0) aqi))
      end
  end.

Definition fetchAQIData (services : Services) (lat lon : number) : number :=
  match estimate (openaq_latest services lat lon) (nasa_function services lat lon) with
  | Some aqi => aqi
  | None => Num 75
  end.

(** The pm25 reading the sampler finds in the first answer, if any. *)
Definition reading (openaqData : Settled (option (list (option (list Measurement)))))
  : option number :=
  match openaqData with
  | Fulfilled (Some (Some (Some measurements :: _))) =>
      option_map value (find is_pm25 measurements)
  | _ => None
  end.

End Enhanced.

(** ** The NASA function [supabase/functions/fetch-nasa-data]

    JSON bodies the function only passes on are kept as text. *)

Module NasaFunction.

(** A number read from the request body is truthy unless it is zero or
    [NaN]; a missing or [null] field is [None]. *)
Definition truthy_number (x : option number) : option number :=
  match x with
  | Some (Num q) => if Qeq_bool q 0 then None else Some (Num q)
  | Some NaN | None => None
  | Some infinite => Some infinite
  end.

(** The request: its method and what [req.json()] gives, the fields [lat] and
    [lon] of the body, or the message of the error it raises. *)
Record Request : Type := mkRequest {
  method : string;
  json : string + (option number * option number)
}.

(** The answer of the POWER service: the request or the decoding of its body
    raises, with a message, or a body arrives, whatever the status [ok]. *)
Inductive PowerAnswer : Type :=
| PowerRaises (message : string)
| PowerJson (ok : bool) (data : string).

(** The answer of the EarthData service; [data] is [None] when the body is
    not JSON. *)
Inductive EarthAnswer : Type :=
| EarthRaises
| EarthResponse (ok : bool) (data : option string).

Record World : Type := mkWorld {
  NASA_API_KEY : option string;
  power_api : number -> number -> PowerAnswer;
  earthdata_api : number -> number -> string -> EarthAnswer;
  now : string
}.

Inductive Outbound : Type :=
| ToPower (lat lon : number)
| ToEarthData (lat lon : number) (key : string).

Inductive Content : Type :=
| Ok
| Failure (error : string)
| Result (location : number * number) (power : string)
         (earthData : option string) (timestamp : string).

Record Response : Type := mkResponse { status : nat; content : Content }.

(** The handler given to [serve]: the response, and the requests made on the
    way, in order. *)
Definition handler (world : World) (req : Request) : Response * list Outbound :=
  if String.eqb (method req) "OPTIONS" then (mkResponse 200 Ok, [])
  else
    match json req with
    | inl message => (mkResponse 400 (Failure message), [])
    | inr (lat, lon) =>
        match truthy_number lat, truthy_number lon with
        | Some lat, Some lon =>
            match power_api world lat lon with
            | PowerRaises message =>
                (mkResponse 400 (Failure message), [ToPower lat lon])
            | PowerJson _ powerData =>
                match NASA_API_KEY world with
                | Some key =>
                    if String.eqb key "" then
                      (mkResponse 200 (Result (lat, lon) powerData None (now world)),
                       [ToPower lat lon])
                    else
                      let earthData :=
                        match earthdata_api world lat lon key with
                        | EarthResponse true (Some data) => Some data
                        | _ => None
                        end in
                      (mkResponse 200 (Result (lat, lon) powerData earthData
                                              (now world)),
                       [ToPower lat lon; ToEarthData lat lon key])
                | None =>
                    (mkResponse 200 (Result (lat, lon) powerData None (now world)),
                     [ToPower lat lon])
                end
            end
        | _, _ =>
            (mkResponse 400 (Failure "Latitude and longitude are required"), [])
        end
    end.

End NasaFunction.

(** ** The page [Index]: saved locations *)

Module Index.

(** [interface LocationData] *)
Record LocationData : Type := mkLocationData {
  id : string;
  name : string;
  lat : number;
  lon : number;
  timestamp : number
}.

Record Toast : Type := mkToast { title : string; description : string }.

(** The item [smartwellbeing-locations] of [localStorage]: a text that
    [JSON.parse] refuses, or the list a text encodes. *)
Inductive Item : Type :=
| Unparsable
| Stored (locations : list LocationData).

(** The state of the page, the item of [localStorage] and the toasts shown so
    far. *)
Record Page : Type := mkPage {
  selectedLocation : option LocationData;
  savedLocations : list LocationData;
  storage : option Item;
  toasts : list Toast
}.

(** The effect that loads the saved locations when the page mounts. *)
Definition load (page : Page) : Page :=
  match storage page with
  | Some (Stored locations) =>
      mkPage (selectedLocation page) locations (storage page) (toasts page)
  | Some Unparsable | None => page
  end.

(** The page as it mounts over a given [localStorage]: the initial state,
    then the loading effect. *)
Definition mount (item : option Item) : Page := load (mkPage None [] item []).

Definition handleSaveLocation (location : LocationData) (page : Page) : Page :=
  match find (fun loc => String.eqb (id loc) (id location)) (savedLocations page) with
  | Some _ => page
  | None =>
      let updated := savedLocations page ++ [location] in
      mkPage (selectedLocation page) updated (Some (Stored updated))
             (toasts page
              ++ [mkToast "Location Saved"
                          (name location
                           ++ " has been added to your saved locations.")])
  end.

Definition handleRemoveLocation (locationId : string) (page : Page) : Page :=
  let updated :=
    filter (fun loc => negb (String.eqb (id loc) locationId)) (savedLocations page) in
  mkPage (selectedLocation page) updated (Some (Stored updated))
         (toasts page
          ++ [mkToast "Location Removed"
                      "Location has been removed from your saved locations."]).

Definition handleLocationSelect (location : LocationData) (page : Page) : Page :=
  mkPage (Some location) (savedLocations page) (storage page)
         (toasts page
          ++ [mkToast "Location Selected"
                      ("Now showing environmental data for " ++ name location)]).

(** What a user does on the page. *)
Inductive Action : Type :=
| Save (location : LocationData)
| Remove (locationId : string)
| Select (location : LocationData)
| Reload.

Definition step (page : Page) (action : Action) : Page :=
  match action with
  | Save location => handleSaveLocation location page
  | Remove locationId => handleRemoveLocation locationId page
  | Select location => handleLocationSelect location page
  | Reload => mount (storage page)
  end.

(** No two saved locations share an identifier, on the page and in the
    stored list. *)
Definition distinct_ids (page : Page) : Prop :=
  NoDup (map id (savedLocations page))
  /\ match storage page with
     | Some (Stored locations) => NoDup (map id locations)
     | _ => True
     end.

End Index.

(** ** The feedback form [FeedbackForm] *)

Module Feedback.

(** A [File], as far as the form reads it. *)
Record File : Type := mkFile { file_name : string; size : N }.

(** [interface FeedbackFormData] *)
Record FeedbackFormData : Type := mkFormData {
  name : string;
  email : string;
  location : string;
  category : string;
  description : string;
  files : list File
}.

Record Toast : Type := mkToast {
  title : string;
  toast_description : string;
  destructive : bool
}.

Record Form : Type := mkForm {
  formData : FeedbackFormData;
  isSubmitting : bool;
  submitted : bool;
  toasts : list Toast
}.

Definition emptyForm : FeedbackFormData := mkFormData "" "" "" "" "" [].

Definition maxFiles : nat := 5.
Definition maxSize : N := (10 * 1024 * 1024)%N.

Definition with_files (data : FeedbackFormData) (files : list File)
  : FeedbackFormData :=
  mkFormData (name data) (email data) (location data) (category data)
             (description data) files.

(** The callback of the [filter] in [handleFileUpload]: whether the file is
    kept, and the toast raised when it is not. *)
Definition tooLarge (file : File) : bool := N.ltb maxSize (size file).

Definition tooLargeToast (file : File) : Toast :=
  mkToast "File too large" (file_name file ++ " exceeds 10MB limit") true.

Definition handleFileUpload (selected : list File) (form : Form) : Form :=
  let validFiles := filter (fun file => negb (tooLarge file)) selected in
  let rejected := map tooLargeToast (filter tooLarge selected) in
  let totalFiles := (List.length (files (formData form)) + List.length validFiles)%nat in
  if Nat.ltb maxFiles totalFiles then
    mkForm (formData form) (isSubmitting form) (submitted form)
           (toasts form ++ rejected
            ++ [mkToast "Too many files" "Maximum 5 files allowed" true])
  else
    mkForm (with_files (formData form) (files (formData form) ++ validFiles))
           (isSubmitting form) (submitted form) (toasts form ++ rejected).

(** [prev.files.filter((_, i) => i !== index)] *)
Fixpoint removeAt {A : Type} (index : nat) (l : list A) : list A :=
  match l, index with
  | [], _ => []
  | _ :: l', O => l'
  | a :: l', S index' => a :: removeAt index' l'
  end.

Definition removeFile (index : nat) (form : Form) : Form :=
  mkForm (with_files (formData form) (removeAt index (files (formData form))))
         (isSubmitting form) (submitted form) (toasts form).

(** The storage and the table behind the form: an upload gives the path of
    the stored file or an error, an insertion succeeds or not. *)
Record Row : Type := mkRow {
  row_name : string;
  row_email : string;
  row_location : string;
  row_category : string;
  row_description : string;
  file_urls : list string
}.

Record Backend : Type := mkBackend {
  upload : string -> File -> option string;
  insert : Row -> bool;
  now : nat -> nat                (* [Date.now()], read for the i-th file *)
}.

Inductive Request : Type :=
| Upload (fileName : string) (file : File)
| Insert (row : Row).

(** The name the file of index [i] is stored under. *)
Definition storedName (backend : Backend) (i : nat) (file : File) : string :=
  "feedback/" ++ NilEmpty.string_of_uint (Nat.to_uint (now backend i))
  ++ "-" ++ file_name file.

(** The files with their index in the array. *)
Definition indexed (files : list File) : list (nat * File) :=
  combine (seq 0 (List.length files)) files.

(** [uploadFiles]: every upload is started; the paths, in order, when all
    succeed. *)
Fixpoint allPaths (results : list (option string)) : option (list string) :=
  match results with
  | [] => Some []
  | Some path :: rest =>
      match allPaths rest with
      | Some paths => Some (path :: paths)
      | None => None
      end
  | None :: _ => None
  end.

Definition uploadFiles (backend : Backend) (files : list File)
  : option (list string) * list Request :=
  (allPaths (map (fun entry =>
                    upload backend (storedName backend (fst entry) (snd entry))
                           (snd entry))
                 (indexed files)),
   map (fun entry => Upload (storedName backend (fst entry) (snd entry)) (snd entry))
       (indexed files)).

Definition failure : Toast :=
  mkToast "Submission failed" "Please try again later or contact support." true.

Definition handleSubmit (backend : Backend) (form : Form) : Form * list Request :=
  let data := formData form in
  if String.eqb (name data) "" || String.eqb (email data) ""
     || String.eqb (description data) ""
  then
    (mkForm data (isSubmitting form) (submitted form)
            (toasts form
             ++ [mkToast "Missing required fields"
                         "Please fill in all required fields" true]),
     [])
  else
    let (fileUrls, uploads) :=
      match files data with
      | [] => (Some [], [])
      | _ => uploadFiles backend (files data)
      end in
    match fileUrls with
    | None => (mkForm data false (submitted form) (toasts form ++ [failure]), uploads)
    | Some fileUrls =>
        let row := mkRow (name data) (email data) (location data) (category data)
                         (description data) fileUrls in
        if insert backend row then
          (mkForm emptyForm false true
                  (toasts form
                   ++ [mkToast "Feedback submitted successfully!"
                               "Thank you for helping us improve urban health monitoring."
                               false]),
           uploads ++ [Insert row])
        else
          (mkForm data false (submitted form) (toasts form ++ [failure]),
           uploads ++ [Insert row])
    end.

(** What a user does with the list of files. *)
Inductive Action : Type :=
| Choose (selected : list File)
| Discard (index : nat).

Definition step (form : Form) (action : Action) : Form :=
  match action with
  | Choose selected => handleFileUpload selected form
  | Discard index => removeFile index form
  end.

(** At most five files, none above the size limit. *)
Definition within_limits (form : Form) : Prop :=
  (List.length (files (formData form)) <= maxFiles)%nat
  /\ Forall (fun file => (size file <= maxSize)%N) (files (formData form)).

End Feedback.

(** ** The tips carousel [EducationalTips] and the alerts [HealthAlerts] *)

Module Tips.

(** [tips.length]: the array holds seven tips. *)
Definition tips_length : Z := 7.

Record Carousel : Type := mkCarousel {
  currentTipIndex : Z;
  isAutoPlaying : bool
}.

Definition nextTip (c : Carousel) : Carousel :=
  mkCarousel (Z.rem (currentTipIndex c + 1) tips_length) false.

Definition prevTip (c : Carousel) : Carousel :=
  mkCarousel (Z.rem (currentTipIndex c - 1 + tips_length) tips_length) false.

(** One tick of the ten-second interval, which exists only while the
    carousel plays by itself. *)
Definition tick (c : Carousel) : Carousel :=
  if isAutoPlaying c
  then mkCarousel (Z.rem (currentTipIndex c + 1) tips_length) true
  else c.

(** What happens to the carousel. *)
Inductive Action : Type := Next | Prev | Tick.

Definition step (c : Carousel) (action : Action) : Carousel :=
  match action with
  | Next => nextTip c
  | Prev => prevTip c
  | Tick => tick c
  end.

End Tips.

Module Alerts.

Record HealthAlert : Type := mkAlert {
  id : string;
  type : string;
  title : string;
  message : string;
  timestamp : nat;
  severity : string
}.

(** The identifier of an alert: a prefix and a reading of [Date.now()]. *)
Definition alertId (prefix : string) (now : nat) : string :=
  prefix ++ NilEmpty.string_of_uint (Nat.to_uint now).

(** [newAlerts.push({...})]: the alerts so far with the number of clock
    readings made; a push reads the clock twice, for the identifier and for
    the timestamp. *)
Definition push (clock : nat -> nat) (prefix type title message severity : string)
           (acc : list HealthAlert * nat) : list HealthAlert * nat :=
  (fst acc ++ [mkAlert (alertId prefix (clock (snd acc))) type title message
                       (clock (S (snd acc))) severity],
   S (S (snd acc))).

(** The doubles the literals [0.7], [0.6] and [0.8] denote: a draw of
    [Math.random] is a double, and [>] compares it with these exactly. *)
Definition literal_0_7 : Q := 3152519739159347 # 4503599627370496.
Definition literal_0_6 : Q := 5404319552844595 # 9007199254740992.
Definition literal_0_8 : Q := 3602879701896397 # 4503599627370496.

(** [generateAlerts], from the three draws of [Math.random] and the
    successive readings of the clock. *)
Definition generateAlerts (pollen aqi uv : Q) (clock : nat -> nat)
  : list HealthAlert :=
  let shouldShowPollen := Qltb literal_0_7 pollen in
  let shouldShowAQI := Qltb literal_0_6 aqi in
  let shouldShowUV := Qltb literal_0_8 uv in
  let acc := ([], 0%nat) in
  let acc :=
    if shouldShowPollen
    then push clock "pollen-" "warning" "High Pollen Count"
              "Pollen levels are elevated in your area. Consider limiting outdoor activities if you have allergies."
              "moderate" acc
    else acc in
  let acc :=
    if shouldShowAQI
    then push clock "aqi-" "danger" "Poor Air Quality"
              "Air quality index exceeds healthy levels. Sensitive groups should avoid outdoor exercise."
              "high" acc
    else acc in
  let acc :=
    if shouldShowUV
    then push clock "uv-" "info" "High UV Index"
              "UV radiation is high today. Use sunscreen and protective clothing when outdoors."
              "moderate" acc
    else acc in
  let acc :=
    match fst acc with
    | [] => push clock "good-" "info" "Good Environmental Conditions"
                 "Air quality and weather conditions are favorable for outdoor activities."
                 "low" acc
    | _ => acc
    end in
  fst acc.

(** [getAlertVariant] *)
Definition getAlertVariant (type severity : string) : string :=
  if String.eqb type "danger" || String.eqb severity "extreme" then "destructive"
  else if String.eqb type "warning" || String.eqb severity "high" then "secondary"
  else "default".

End Alerts.

(** ** The simulated dashboard: [AirQualityData] and [WeatherData] *)

(** [Math.floor] *)
Definition Math_floor (x : number) : number :=
  match x with
  | Num q => Num (inject_Z (Qfloor q))
  | other => other
  end.

(** [String(x)] for a number holding an integer. *)
Definition integer_toString (x : number) : string :=
  match x with
  | NaN => "NaN"
  | NegInf => "-Infinity"
  | PosInf => "Infinity"
  | Num q => NilEmpty.string_of_int (Z.to_int (Qfloor q))
  end.

Module AirQuality.

(** The object [getAQIInfo] returns. *)
Record AQIInfo : Type := mkAQIInfo {
  category : string;
  healthMessage : string;
  color : string;
  bgColor : string;
  textColor : string;
  icon : string;
  recommendations : list string
}.

Definition getAQIInfo (aqi : number) : AQIInfo :=
  if leb aqi (Num 50) then
    mkAQIInfo "Good"
      "Air quality is satisfactory, and air pollution poses little or no risk."
      "health-good" "bg-health-good" "text-health-good-foreground" "CheckCircle"
      ["Perfect conditions for outdoor activities";
       "Enjoy your time outside";
       "All groups can be active outdoors"]%string
  else if leb aqi (Num 100) then
    mkAQIInfo "Moderate"
      "Air quality is acceptable. However, there may be a risk for some people, particularly those who are unusually sensitive to air pollution."
      "health-moderate" "bg-health-moderate" "text-health-moderate-foreground"
      "AlertTriangle"
      ["Unusually sensitive people should limit outdoor exertion";
       "Consider reducing time spent outdoors if experiencing symptoms";
       "Generally safe for most people"]%string
  else if leb aqi (Num 150) then
    mkAQIInfo "Unhealthy for Sensitive Groups"
      "Members of sensitive groups may experience health effects. The general public is less likely to be affected."
      "health-unhealthy-sensitive" "bg-health-unhealthy-sensitive"
      "text-health-unhealthy-sensitive-foreground" "AlertTriangle"
      ["Sensitive groups should limit outdoor exertion";
       "People with heart or lung disease should reduce outdoor activities";
       "Watch for symptoms like coughing or shortness of breath"]%string
  else if leb aqi (Num 200) then
    mkAQIInfo "Unhealthy"
      "Some members of the general public may experience health effects; members of sensitive groups may experience more serious health effects."
      "health-unhealthy" "bg-health-unhealthy" "text-health-unhealthy-foreground"
      "XCircle"
      ["Everyone should limit outdoor exertion";
       "Sensitive groups should avoid outdoor activities";
       "Consider staying indoors with windows closed"]%string
  else
    mkAQIInfo "Hazardous"
      "Health alert: The risk of health effects is increased for everyone."
      "health-hazardous" "bg-health-hazardous" "text-health-hazardous-foreground"
      "XCircle"
      ["Everyone should avoid outdoor activities";
       "Stay indoors with air filtration if possible";
       "Seek medical attention if experiencing symptoms"]%string.

Record Pollutants : Type := mkPollutants {
  pm25 : number; pm10 : number; no2 : number; o3 : number; so2 : number; co : number
}.

(** [interface AirQualityInfo] *)
Record AirQualityInfo : Type := mkAirQualityInfo {
  aqi : number;
  info_category : string;
  info_healthMessage : string;
  pollutants : Pollutants;
  info_recommendations : list string
}.

Record Toast : Type := mkToast {
  title : string;
  description : string;
  variant : string
}.

(** [Math.round(x * 10) / 10] and [Math.round(x * 100) / 100] *)
Definition round1 (x : number) : number :=
  div (Math_round (mul x (Num 10))) (Num 10).
Definition round2 (x : number) : number :=
  div (Math_round (mul x (Num 100))) (Num 100).

(** The simulated data [fetchAirQualityData] builds from seven draws of
    [Math.random], and the toast it raises. *)
Definition fetchAirQualityData (r0 r1 r2 r3 r4 r5 r6 : Q) : AirQualityInfo * Toast :=
  let baseAQI := add (Num 30) (mul (Num r0) (Num 120)) in
  let aqi := Math_round baseAQI in
  let aqiInfo := getAQIInfo aqi in
  (mkAirQualityInfo aqi (category aqiInfo) (healthMessage aqiInfo)
     (mkPollutants
        (round1 (add (Num 10) (mul (Num r1) (Num 40))))
        (round1 (add (Num 15) (mul (Num r2) (Num 50))))
        (round1 (add (Num 20) (mul (Num r3) (Num 60))))
        (round1 (add (Num 80) (mul (Num r4) (Num 40))))
        (round1 (add (Num 5) (mul (Num r5) (Num 20))))
        (round2 (add (Num (5 # 10)) (mul (Num r6) (Num 2)))))
     (recommendations aqiInfo),
   mkToast "Air Quality Updated"
           ("Current AQI: " ++ integer_toString aqi ++ " (" ++ category aqiInfo ++ ")")
           (if gtb aqi (Num 100) then "destructive" else "default")).

End AirQuality.

Module Weather.

(** [interface WeatherInfo]; [description] is [None] when the index read in
    the array of descriptions is out of it. *)
Record WeatherInfo : Type := mkWeatherInfo {
  temperature : number;
  humidity : number;
  description : option string;
  windSpeed : number;
  visibility : number;
  pressure : number;
  feelsLike : number;
  icon : string
}.

Definition descriptions : list string :=
  ["Clear sky"; "Few clouds"; "Partly cloudy"; "Overcast"]%string.

(** [array[index]] for a number used as index. *)
Definition at_index (array : list string) (index : number) : option string :=
  match index with
  | Num q =>
      if Qeq_bool q (inject_Z (Qfloor q)) && Qle_bool 0 q
      then nth_error array (Z.to_nat (Qfloor q))
      else None
  | _ => None
  end.

(** The simulated data [fetchWeatherData] builds from the latitude and
    seven draws of [Math.random].  The exact argument of the last
    [Math.round] stays below 42.5 for a latitude of at most 90; in doubles it
    rounds to 42.5 for the largest draws, so statements about [feelsLike] use
    the bound 43. *)
Definition fetchWeatherData (lat : number) (r0 r1 r2 r3 r4 r5 r6 : Q) : WeatherInfo :=
  let tempVariation := mul (div lat (Num 90)) (Num 15) in
  let baseTemp :=
    add (add (Num 20) tempVariation) (mul (sub (Num r0) (Num (5 # 10))) (Num 10)) in
  mkWeatherInfo
    (Math_round baseTemp)
    (Math_round (add (Num 40) (mul (Num r1) (Num 40))))
    (at_index descriptions (Math_floor (mul (Num r2) (Num 4))))
    (AirQuality.round1 (add (mul (Num r3) (Num 15)) (Num 2)))
    (AirQuality.round1 (add (Num 8) (mul (Num r4) (Num 7))))
    (Math_round (add (Num 1000) (mul (Num r5) (Num 40))))
    (Math_round (add baseTemp (mul (sub (Num r6) (Num (5 # 10))) (Num 5))))
    "01d".

Definition getTemperatureColor (temp : number) : string :=
  if ltb temp (Num 0) then "text-blue-600"
  else if ltb temp (Num 10) then "text-blue-500"
  else if ltb temp (Num 20) then "text-green-500"
  else if ltb temp (Num 30) then "text-yellow-500"
  else "text-red-500".

(** The label and the variant of [getTemperatureStatus]. *)
Definition getTemperatureStatus (temp : number) : string * string :=
  if ltb temp (Num 0) then ("Very Cold"%string, "secondary"%string)
  else if ltb temp (Num 10) then ("Cold"%string, "secondary"%string)
  else if ltb temp (Num 20) then ("Cool"%string, "default"%string)
  else if ltb temp (Num 25) then ("Comfortable"%string, "default"%string)
  else if ltb temp (Num 30) then ("Warm"%string, "secondary"%string)
  else ("Hot"%string, "destructive"%string).

End Weather.

(** ** More vocabulary *)

(** The results and the events of the calls [Promise.all] makes for the
    elements of a list, each call satisfying [R] with its index. *)
Inductive mapped {A B : Type} (R : A -> nat -> B -> list Event -> Prop)
  : nat -> list A -> list B -> list Event -> Prop :=
| mapped_nil (i : nat) : mapped R i [] [] []
| mapped_cons (i : nat) (a : A) (l : list A) (b : B) (bs : list B)
              (evs rest : list Event) :
    R a i b evs -> mapped R (S i) l bs rest ->
    mapped R i (a :: l) (b :: bs) (evs ++ rest).

(** [b] and [evs] are the result and the events of [f a i], run in some
    state. *)
Definition called {A B : Type} (f : A -> nat -> M B) (a : A) (i : nat) (b : B)
           (evs : list Event) : Prop :=
  exists st, b = fst (f a i st) /\ evs = emitted (f a i) st.

(** The mean of [current] is strictly below the mean of [other]. *)
Definition strictly_cleaner (current other : RouteData) : Prop :=
  ltb (avgAqi current) (avgAqi other) = true.

(** The fallback path between two endpoints. *)
Definition straight_line (start end_ : LatLon) : list (number * number) :=
  [(ll_lat start, ll_lon start); midpoint start end_; (ll_lat end_, ll_lon end_)].

(** ** Running computations *)

Lemma runs_ret {A : Type} (a : A) (s : State) : runs (ret a) s a [] s.
Proof. split; [reflexivity | now rewrite app_nil_r]. Qed.

Lemma runs_bind {A B : Type} (m : M A) (k : A -> M B) s a e1 s1 b e2 s2 :
  runs m s a e1 s1 -> runs (k a) s1 b e2 s2 ->
  runs (x <- m ;; k x) s b (e1 ++ e2) s2.
Proof.
  intros [Hm Hl1] [Hk Hl2]. split.
  - unfold bind. now rewrite Hm.
  - now rewrite Hl2, Hl1, app_assoc.
Qed.

Lemma runs_call {A : Type} (ev : Event) (answer : nat -> A) (s : State) :
  runs (call ev answer) s (answer (clock s)) [ev]
       (mkState (S (clock s)) (log s ++ [ev])).
Proof. split; reflexivity. Qed.

Lemma runs_emitted {A : Type} (m : M A) s a evs s' :
  runs m s a evs s' -> emitted m s = evs.
Proof.
  intros [Hm Hl]. unfold emitted. rewrite Hm. cbn [snd]. rewrite Hl.
  rewrite skipn_app, Nat.sub_diag, skipn_all. reflexivity.
Qed.

Lemma runs_result {A : Type} (m : M A) s a evs s' :
  runs m s a evs s' -> fst (m s) = a.
Proof. intros [Hm _]. now rewrite Hm. Qed.

(** ** Ceiling division *)

Lemma ceil_div_0 (b : nat) : (1 <= b)%nat -> ceil_div 0 b = 0%nat.
Proof.
  intros Hb. unfold ceil_div. apply Nat.div_small. lia.
Qed.

Lemma ceil_div_step (a b : nat) :
  (1 <= b)%nat -> (1 <= a)%nat -> ceil_div a b = S (ceil_div (a - b) b).
Proof.
  intros Hb Ha. unfold ceil_div.
  destruct (Nat.le_gt_cases b a) as [Hle | Hgt].
  - replace (a + b - 1)%nat with ((a - b + b - 1) + 1 * b)%nat by lia.
    rewrite Nat.div_add by lia. lia.
  - replace (a - b)%nat with 0%nat by lia.
    replace (0 + b - 1)%nat with (b - 1)%nat by lia.
    rewrite (Nat.div_small (b - 1) b) by lia.
    replace (a + b - 1)%nat with ((a - 1) + 1 * b)%nat by lia.
    rewrite Nat.div_add by lia.
    rewrite Nat.div_small by lia. reflexivity.
Qed.

Lemma ceil_div_spec (a b : nat) :
  (1 <= b)%nat -> (a <= ceil_div a b * b /\ ceil_div a b * b < a + b)%nat.
Proof.
  intros Hb. unfold ceil_div.
  pose proof (Nat.div_mod_eq (a + b - 1) b) as E.
  pose proof (Nat.mod_upper_bound (a + b - 1) b) as U.
  nia.
Qed.

Lemma stride_positive (coordinates : list (number * number)) :
  (1 <= sampleInterval_of coordinates)%nat.
Proof. unfold sampleInterval_of. lia. Qed.

Lemma sample_count_bound (L : nat) :
  (ceil_div L (Nat.max 1 (L / 10)) <= 19)%nat.
Proof.
  pose proof (Nat.div_mod_eq L 10) as E.
  pose proof (Nat.mod_upper_bound L 10) as U.
  destruct (Nat.eq_dec (L / 10) 0) as [Hq | Hq].
  - rewrite Hq. cbn [Nat.max]. unfold ceil_div.
    rewrite Nat.div_1_r. lia.
  - replace (Nat.max 1 (L / 10)) with (L / 10)%nat by lia.
    unfold ceil_div.
    assert (H : ((L + L / 10 - 1) / (L / 10) < 20)%nat).
    { apply Nat.Div0.div_lt_upper_bound; lia. }
    lia.
Qed.

(** ** The sampler and the sampling loop *)

Section Sampling.

Variable env : Env.

Lemma simulatedAQI_runs (s : State) :
  exists s',
    runs (simulatedAQI env) s
         (Num (50 + random env (clock s) * 100)) [EvRandom] s'
    /\ clock s' = S (clock s).
Proof.
  eexists. split.
  - unfold simulatedAQI.
    change [EvRandom] with ([EvRandom] ++ []).
    eapply runs_bind; [apply runs_call | apply runs_ret].
  - reflexivity.
Qed.

(** One call of the sampler is one request to the air-quality service,
    followed by at most one draw of [Math.random]. *)
Lemma fetchAQIData_runs (lat lon : number) (s : State) :
  exists v evs s',
    runs (fetchAQIData env lat lon) s v (EvAirQuality lat lon :: evs) s'
    /\ (evs = [] \/ evs = [EvRandom]).
Proof.
  unfold fetchAQIData.
  assert (Hsim : forall s1, exists v s',
             runs (simulatedAQI env) s1 v [EvRandom] s').
  { intros s1. destruct (simulatedAQI_runs s1) as (s' & H & _). eauto. }
  pose proof (runs_call (EvAirQuality lat lon) (openaq env lat lon) s) as Hc.
  set (s1 := mkState (S (clock s)) (log s ++ [EvAirQuality lat lon])) in *.
  destruct (Hsim s1) as (vr & sr & Hr).
  assert (Hfallback :
            forall k : AQResponse -> M number,
              k (openaq env lat lon (clock s)) = simulatedAQI env ->
              exists v evs s',
                runs (x <- call (EvAirQuality lat lon) (openaq env lat lon) ;; k x)
                     s v (EvAirQuality lat lon :: evs) s'
                /\ (evs = [] \/ evs = [EvRandom])).
  { intros k Hk. exists vr, [EvRandom], sr. split; [| now right].
    change (EvAirQuality lat lon :: [EvRandom])
      with ([EvAirQuality lat lon] ++ [EvRandom]).
    eapply runs_bind; [exact Hc |]. rewrite Hk. exact Hr. }
  assert (Hdirect :
            forall (k : AQResponse -> M number) v,
              k (openaq env lat lon (clock s)) = ret v ->
              exists v evs s',
                runs (x <- call (EvAirQuality lat lon) (openaq env lat lon) ;; k x)
                     s v (EvAirQuality lat lon :: evs) s'
                /\ (evs = [] \/ evs = [EvRandom])).
  { intros k v Hk. exists v, [], s1. split; [| now left].
    change [EvAirQuality lat lon] with ([EvAirQuality lat lon] ++ []).
    eapply runs_bind; [exact Hc |]. rewrite Hk. apply runs_ret. }
  clear Hc Hr Hsim.
  destruct (openaq env lat lon (clock s)) as [| results].
  - eapply Hdirect. reflexivity.
  - destruct results as [[| [[| m ms] |] stations] |];
      try (apply Hfallback; reflexivity).
    destruct (find is_pm25 (m :: ms)) as [pm25 |] eqn:Hf.
    + eapply Hdirect. cbv beta iota. rewrite Hf. reflexivity.
    + apply Hfallback. cbv beta iota. rewrite Hf. reflexivity.
Qed.

Variable coordinates : list (number * number).
Variable stride : nat.
Hypothesis stride_pos : (1 <= stride)%nat.

(** The loop entered at index [i] with enough fuel: it leaves through its
    guard, returns one point per index [i], [i + stride], ... below the
    length, each at the coordinate of its index, and calls the sampler
    once per point and no other service. *)
Lemma sampleFrom_runs (fuel i : nat) (s : State) :
  (List.length coordinates - i <= fuel)%nat ->
  exists pts evs s',
    runs (sampleFrom env fuel coordinates stride i) s pts evs s'
    /\ List.length pts = ceil_div (List.length coordinates - i) stride
    /\ filter is_air_quality evs
       = map (fun p => EvAirQuality (lat p) (lon p)) pts
    /\ filter is_route evs = []
    /\ filter is_geocode evs = []
    /\ (forall k p, nth_error pts k = Some p ->
          nth_error coordinates (i + k * stride) = Some (lat p, lon p)).
Proof.
  revert i s. induction fuel as [| fuel IH]; intros i s Hfuel.
  - exists [], [], s. cbn [sampleFrom].
    replace (List.length coordinates - i)%nat with 0%nat by lia.
    rewrite ceil_div_0 by exact stride_pos.
    split; [apply runs_ret |].
    do 4 (split; [reflexivity |]).
    intros [| k] p Hp; discriminate Hp.
  - cbn [sampleFrom].
    destruct (nth_error coordinates i) as [coord |] eqn:Hi.
    + assert (Hlt : (i < List.length coordinates)%nat).
      { apply nth_error_Some. congruence. }
      destruct (fetchAQIData_runs (fst coord) (snd coord) s)
        as (v & e1 & s1 & Hrun1 & He1).
      destruct (IH (i + stride)%nat s1 ltac:(lia))
        as (pts & e2 & s2 & Hrun2 & Hlen & Haq & Hroute & Hgeo & Hnth).
      exists (mkAQIData (fst coord) (snd coord) v :: pts),
             ((EvAirQuality (fst coord) (snd coord) :: e1) ++ e2 ++ []), s2.
      split; [| split; [| split; [| split; [| split]]]].
      * eapply runs_bind; [exact Hrun1 |].
        eapply runs_bind; [exact Hrun2 | apply runs_ret].
      * cbn [List.length]. rewrite Hlen.
        rewrite (ceil_div_step (List.length coordinates - i) stride) by lia.
        f_equal. f_equal. lia.
      * rewrite app_nil_r. cbn [app filter is_air_quality map lat lon].
        rewrite filter_app, Haq. f_equal.
        destruct He1 as [-> | ->]; reflexivity.
      * rewrite app_nil_r. cbn [app filter is_route].
        rewrite filter_app, Hroute.
        destruct He1 as [-> | ->]; reflexivity.
      * rewrite app_nil_r. cbn [app filter is_geocode].
        rewrite filter_app, Hgeo.
        destruct He1 as [-> | ->]; reflexivity.
      * intros [| k] p Hp.
        -- injection Hp as <-. cbn [lat lon].
           rewrite Nat.mul_0_l, Nat.add_0_r, Hi. now destruct coord.
        -- cbn [nth_error] in Hp. apply Hnth in Hp.
           rewrite <- Hp. f_equal. lia.
    + apply nth_error_None in Hi.
      exists [], [], s.
      replace (List.length coordinates - i)%nat with 0%nat by lia.
      rewrite ceil_div_0 by exact stride_pos.
      split; [apply runs_ret |].
      do 4 (split; [reflexivity |]).
      intros [| k] p Hp; discriminate Hp.
Qed.

End Sampling.

(** The whole loop, as [calculateAQIAlongRoute] runs it. *)
Lemma calculateAQIAlongRoute_runs (env : Env) (coordinates : list (number * number))
      (s : State) :
  exists pts evs s',
    runs (calculateAQIAlongRoute env coordinates) s pts evs s'
    /\ List.length pts
       = ceil_div (List.length coordinates) (sampleInterval_of coordinates)
    /\ filter is_air_quality evs = map (fun p => EvAirQuality (lat p) (lon p)) pts
    /\ filter is_route evs = []
    /\ filter is_geocode evs = []
    /\ (forall k p, nth_error pts k = Some p ->
          nth_error coordinates (k * sampleInterval_of coordinates)
          = Some (lat p, lon p)).
Proof.
  unfold calculateAQIAlongRoute.
  destruct (sampleFrom_runs env coordinates (sampleInterval_of coordinates)
              (stride_positive coordinates) (List.length coordinates) 0 s
              ltac:(lia))
    as (pts & evs & s' & Hrun & Hlen & Haq & Hroute & Hgeo & Hnth).
  exists pts, evs, s'. rewrite Nat.sub_0_r in Hlen.
  do 5 (split; [assumption |]). exact Hnth.
Qed.

(** ** C1: the number of sampler calls *)

Example calculateAQIAlongRoute_1000 :
  samplerCalls (calculateAQIAlongRoute env_down (meridian 1000)) initial = 10%nat.
Proof. vm_compute. reflexivity. Qed.

Example calculateAQIAlongRoute_5 :
  samplerCalls (calculateAQIAlongRoute env_down (meridian 5)) initial = 5%nat.
Proof. vm_compute. reflexivity. Qed.

Example calculateAQIAlongRoute_19 :
  samplerCalls (calculateAQIAlongRoute env_down (meridian 19)) initial = 19%nat.
Proof. vm_compute. reflexivity. Qed.

(** C1, as stated, fails: a path of 19 coordinates has stride
    [max 1 (19 / 10) = 1], so the loop calls the sampler 19 times, more than
    11. *)
Lemma sampling_cap_11_fails :
  ~ (forall (env : Env) (coordinates : list (number * number)) (s : State),
        (1 <= List.length coordinates)%nat ->
        samplerCalls (calculateAQIAlongRoute env coordinates) s
        = ceil_div (List.length coordinates)
                   (Nat.max 1 (List.length coordinates / 10))
        /\ (samplerCalls (calculateAQIAlongRoute env coordinates) s <= 11)%nat).
Proof.
  intros H.
  destruct (H env_down (meridian 19) initial) as [_ Hcap].
  - vm_compute. lia.
  - rewrite calculateAQIAlongRoute_19 in Hcap. lia.
Qed.

(** C1, amended: for every coordinate path, of length [L], the sampling loop
    of [calculateAQIAlongRoute] performs exactly [ceil (L / stride)] sampler
    calls, where [stride = max 1 (floor (L / 10))], and this number of calls
    never exceeds 19. *)
Theorem sampling_call_count
        (env : Env) (coordinates : list (number * number)) (s : State) :
  samplerCalls (calculateAQIAlongRoute env coordinates) s
  = ceil_div (List.length coordinates) (Nat.max 1 (List.length coordinates / 10))
  /\ (samplerCalls (calculateAQIAlongRoute env coordinates) s <= 19)%nat.
Proof.
  destruct (calculateAQIAlongRoute_runs env coordinates s)
    as (pts & evs & s' & Hrun & Hlen & Haq & _).
  assert (Hcalls : samplerCalls (calculateAQIAlongRoute env coordinates) s
                   = List.length pts).
  { unfold samplerCalls. rewrite (runs_emitted _ _ _ _ _ Hrun), Haq.
    apply length_map. }
  rewrite Hcalls, Hlen. unfold sampleInterval_of.
  split; [reflexivity | apply sample_count_bound].
Qed.

(** ** C3: the values the sampler returns *)

Lemma random_half_in_range (env : Env) :
  (forall t, random env t = 1 # 2) -> random_in_range env.
Proof. intros H t. rewrite H. split; lra. Qed.

Example fetchAQIData_polluted :
  fst (fetchAQIData env_polluted (Num 0) (Num 0) initial)
  = Num (200 * (417 # 100)).
Proof. reflexivity. Qed.

(** The sampler of this hook does not keep its result within 0 to 500: a
    station reporting 200 for pm25 makes it return [200 * 4.17 = 834]. *)
Lemma sampler_clamp_fails :
  ~ (forall (env : Env) (lat lon : number) (s : State),
        random_in_range env ->
        leb (Num 0) (fst (fetchAQIData env lat lon s)) = true
        /\ leb (fst (fetchAQIData env lat lon s)) (Num 500) = true).
Proof.
  intros H.
  destruct (H env_polluted (Num 0) (Num 0) initial) as [_ Hmax].
  - apply random_half_in_range. reflexivity.
  - vm_compute in Hmax. discriminate Hmax.
Qed.

(** For every coordinate and every outcome of the air-quality lookup,
    [fetchAQIData] does not raise: it returns 75 when the lookup fails, a
    simulated value from 50 to 150 when no pm25 measurement is found, and 4.17
    times the reading when one is found. *)
Lemma sampler_values
        (env : Env) (lat lon : number) (s : State)
        (Hrandom : random_in_range env) :
  let v := fst (fetchAQIData env lat lon s) in
  match openaq env lat lon (clock s) with
  | AQRaises => v = Num 75
  | answer =>
      match pm25_reading answer with
      | Some reading => v = mul reading (Num (417 # 100))
      | None => exists q, v = Num q /\ 50 <= q /\ q <= 150
      end
  end.
Proof.
  assert (Hsim : forall s1, exists q,
             fst (simulatedAQI env s1) = Num q /\ 50 <= q /\ q <= 150).
  { intros s1. exists (50 + random env (clock s1) * 100). split.
    - reflexivity.
    - destruct (Hrandom (clock s1)). split; lra. }
  unfold fetchAQIData, bind, call. cbn [fst snd clock].
  destruct (openaq env lat lon (clock s)) as [| results]; [reflexivity |].
  destruct results as [[| [measurements |] stations] |]; cbn [pm25_reading];
    try apply Hsim.
  destruct measurements as [| m ms]; [apply Hsim |].
  destruct (find is_pm25 (m :: ms)) as [pm25 |]; cbn [option_map].
  - reflexivity.
  - apply Hsim.
Qed.

Lemma sampler_values_witness :
  random_in_range env_no_station
  /\ exists q, fst (fetchAQIData env_no_station (Num 0) (Num 0) initial) = Num q
               /\ 50 <= q /\ q <= 150.
Proof.
  assert (H : random_in_range env_no_station).
  { apply random_half_in_range. reflexivity. }
  split; [exact H |].
  exact (sampler_values env_no_station (Num 0) (Num 0) initial H).
Defined.

(** ** C2: the fallback of the route source *)

Lemma Qsqrt_up_nonneg (q : Q) : 0 <= Qsqrt_up q.
Proof.
  unfold Qsqrt_up.
  assert (H : inject_Z 0 <= inject_Z (Z.sqrt_up (Qceiling (q * 1000000000000)))).
  { rewrite <- Zle_Qle. apply Z.sqrt_up_nonneg. }
  change (inject_Z 0) with 0 in H.
  apply Qle_shift_div_l; [reflexivity | lra].
Qed.

Lemma Qsqrt_up_pos (q : Q) : 0 < q -> 0 < Qsqrt_up q.
Proof.
  intros Hq. unfold Qsqrt_up.
  assert (H : inject_Z 0 < inject_Z (Z.sqrt_up (Qceiling (q * 1000000000000)))).
  { rewrite <- Zlt_Qlt. apply Z.sqrt_up_pos.
    assert (H : inject_Z 0 < inject_Z (Qceiling (q * 1000000000000))).
    { eapply Qlt_le_trans; [| apply Qle_ceiling].
      change (inject_Z 0) with 0. lra. }
    now rewrite <- Zlt_Qlt in H. }
  change (inject_Z 0) with 0 in H.
  apply Qlt_shift_div_l; [reflexivity | lra].
Qed.

Lemma Qsquare_nonneg (x : Q) : 0 <= x * x.
Proof. nra. Qed.

Lemma Qsum_squares_nonneg (x y : Q) : 0 <= x * x + y * y.
Proof.
  pose proof (Qsquare_nonneg x). pose proof (Qsquare_nonneg y). lra.
Qed.

Lemma Qsquare_pos (x : Q) : ~ x == 0 -> 0 < x * x.
Proof.
  intros Hx. destruct (Q_dec x 0) as [[H | H] | H]; [nra | nra | contradiction].
Qed.

Lemma Qltb_false_iff (a b : Q) : Qltb a b = false <-> b <= a.
Proof.
  unfold Qltb. rewrite negb_false_iff. apply Qle_bool_iff.
Qed.

Lemma Qltb_true_iff (a b : Q) : Qltb a b = true <-> a < b.
Proof.
  unfold Qltb. rewrite negb_true_iff. split.
  - intros H. apply Qnot_le_lt. intros Hle.
    apply Qle_bool_iff in Hle. congruence.
  - intros H. destruct (Qle_bool b a) eqn:E; [| reflexivity].
    apply Qle_bool_iff in E. lra.
Qed.

(** The straight-line route between two finite endpoints. *)
Lemma fallbackRoute_distance (Qsqrt : Q -> Q) (a b c d : Q) :
  r_distance (fallbackRoute Qsqrt (mkLatLon (Num a) (Num b)) (mkLatLon (Num c) (Num d)))
  = Num (Qsqrt ((c + - a) * (c + - a) + (d + - b) * (d + - b)) * 111000).
Proof.
  unfold fallbackRoute, Math_pow2, sub. cbn.
  assert (H : Qltb ((c + - a) * (c + - a) + (d + - b) * (d + - b)) 0 = false).
  { apply Qltb_false_iff. apply Qsum_squares_nonneg. }
  now rewrite H.
Qed.

Example getRouteFromORS_no_features :
  fst (getRouteFromORS env_no_features Qsqrt_up bangalore mysore "driving-car" initial)
  = None.
Proof. reflexivity. Qed.

Example fallbackRoute_same_place :
  fst (getRouteFromORS env_down Qsqrt_up bangalore bangalore "driving-car" initial)
  = Some (mkRoute [ (Num (1297 # 100), Num (7759 # 100));
                    (Num (((1297 # 100) + (1297 # 100)) / 2),
                     Num (((7759 # 100) + (7759 # 100)) / 2));
                    (Num (1297 # 100), Num (7759 # 100)) ]
                  (Num (0 / 1000000 * 111000)) (Num 3600)).
Proof. reflexivity. Qed.

(** C2, as stated, fails: when the routing service answers with an empty list
    of features, [getRouteFromORS] returns [null], not a fallback route. *)
Lemma fallback_on_every_failure_fails :
  ~ (forall (env : Env) (Qsqrt : Q -> Q) (start end_ : LatLon) (profile : string)
            (s : State),
        (forall q, 0 < q -> 0 < Qsqrt q) ->
        ors_raises (openrouteservice env profile start end_ (clock s))
        || ors_no_feature (openrouteservice env profile start end_ (clock s))
        = true ->
        exists r,
          fst (getRouteFromORS env Qsqrt start end_ profile s) = Some r
          /\ r_coordinates r
             = [(ll_lat start, ll_lon start); midpoint start end_;
                (ll_lat end_, ll_lon end_)]
          /\ gtb (r_distance r) (Num 0) = true
          /\ gtb (r_duration r) (Num 0) = true).
Proof.
  intros H.
  destruct (H env_no_features Qsqrt_up bangalore mysore "driving-car"%string
              initial Qsqrt_up_pos eq_refl) as (r & Hr & _).
  rewrite getRouteFromORS_no_features in Hr. discriminate Hr.
Qed.

(** C2, amended: for every origin, destination and profile, whenever the
    routing call raises (request failure, HTTP error status, or a payload that
    cannot be read as a route), [getRouteFromORS] returns a non-null fallback
    route whose path is exactly the three points origin, midpoint, destination,
    whose duration is 3600, and whose distance, for finite endpoints, is
    non-negative, and positive when the endpoints differ (rounding aside); the
    failure is not propagated.  When the answer carries no feature (absent or
    empty list), [getRouteFromORS] returns [null]. *)
Theorem route_fallback
        (env : Env) (Qsqrt : Q -> Q) (start end_ : LatLon) (profile : string)
        (s : State)
        (Qsqrt_nonneg : forall q, 0 <= q -> 0 <= Qsqrt q)
        (Qsqrt_pos : forall q, 0 < q -> 0 < Qsqrt q) :
  let answer := openrouteservice env profile start end_ (clock s) in
  let result := fst (getRouteFromORS env Qsqrt start end_ profile s) in
  (ors_raises answer = true ->
   exists r,
     result = Some r
     /\ r_coordinates r
        = [(ll_lat start, ll_lon start); midpoint start end_;
           (ll_lat end_, ll_lon end_)]
     /\ r_duration r = Num 3600
     /\ forall a b c d,
          start = mkLatLon (Num a) (Num b) -> end_ = mkLatLon (Num c) (Num d) ->
          exists dist,
            r_distance r = Num dist
            /\ 0 <= dist
            /\ (~ (a == c /\ b == d) -> 0 < dist))
  /\ (ors_no_feature answer = true -> result = None).
Proof.
  cbv zeta. unfold getRouteFromORS, bind, call. cbn [fst snd clock].
  assert (Hfallback :
            exists r,
              Some (fallbackRoute Qsqrt start end_) = Some r
              /\ r_coordinates r
                 = [(ll_lat start, ll_lon start); midpoint start end_;
                    (ll_lat end_, ll_lon end_)]
              /\ r_duration r = Num 3600
              /\ forall a b c d,
                   start = mkLatLon (Num a) (Num b) ->
                   end_ = mkLatLon (Num c) (Num d) ->
                   exists dist,
                     r_distance r = Num dist
                     /\ 0 <= dist
                     /\ (~ (a == c /\ b == d) -> 0 < dist)).
  { exists (fallbackRoute Qsqrt start end_).
    split; [reflexivity |]. split; [reflexivity |]. split; [reflexivity |].
    intros a b c d -> ->. rewrite fallbackRoute_distance.
    eexists. split; [reflexivity |].
    set (q := (c + - a) * (c + - a) + (d + - b) * (d + - b)).
    assert (Hq : 0 <= q) by apply Qsum_squares_nonneg.
    split.
    - specialize (Qsqrt_nonneg q Hq). lra.
    - intros Hdiff.
      assert (Hq' : 0 < q).
      { destruct (Qeq_dec a c) as [Hac | Hac].
        - destruct (Qeq_dec b d) as [Hbd | Hbd]; [tauto |].
          assert (0 < (d + - b) * (d + - b)) by (apply Qsquare_pos; lra).
          pose proof (Qsquare_nonneg (c + - a)). unfold q. lra.
        - assert (0 < (c + - a) * (c + - a)) by (apply Qsquare_pos; lra).
          pose proof (Qsquare_nonneg (d + - b)). unfold q. lra. }
      specialize (Qsqrt_pos q Hq'). lra. }
  destruct (openrouteservice env profile start end_ (clock s))
    as [| | | [[| feature features] |]]; cbn [ors_raises ors_no_feature];
    try (split; [intros _; exact Hfallback | discriminate]);
    try (split; [discriminate | reflexivity]).
  destruct (geometry_coordinates feature) as [coords |];
    [destruct (segments feature) as [[| [distance duration] rest] |] |];
    try (split; [intros _; exact Hfallback | discriminate]).
  split; discriminate.
Qed.

Lemma route_fallback_witness :
  (forall q, 0 <= q -> 0 <= Qsqrt_up q)
  /\ (forall q, 0 < q -> 0 < Qsqrt_up q)
  /\ exists r,
       fst (getRouteFromORS env_down Qsqrt_up bangalore mysore "driving-car" initial)
       = Some r
       /\ List.length (r_coordinates r) = 3%nat
       /\ r_duration r = Num 3600
       /\ exists dist, r_distance r = Num dist /\ 0 < dist.
Proof.
  split; [intros q _; apply Qsqrt_up_nonneg |].
  split; [exact Qsqrt_up_pos |].
  destruct (route_fallback env_down Qsqrt_up bangalore mysore "driving-car"%string
              initial (fun q _ => Qsqrt_up_nonneg q) Qsqrt_up_pos)
    as [Hraises _].
  destruct (Hraises eq_refl) as (r & Hr & Hpath & Hduration & Hdistance).
  exists r. split; [exact Hr |]. split; [now rewrite Hpath |].
  split; [exact Hduration |].
  destruct (Hdistance _ _ _ _ eq_refl eq_refl) as (dist & Hd & _ & Hpos).
  exists dist. split; [exact Hd |]. apply Hpos.
  intros [Hlat _]. vm_compute in Hlat. discriminate Hlat.
Defined.

(** ** The order on numbers and the comparator of the ranking *)

Lemma le_trans (x y z : number) : le x y -> le y z -> le x z.
Proof.
  unfold le. destruct x, y, z; cbn; try congruence.
  rewrite !Qle_bool_iff. apply Qle_trans.
Qed.

Lemma le_refl (x : number) : is_nan x = false -> le x x.
Proof.
  unfold le. destruct x; cbn; try congruence.
  intros _. apply Qle_bool_iff. apply Qle_refl.
Qed.

Lemma le_not_ltb (x y : number) : le x y -> ltb y x = false.
Proof.
  unfold le. destruct x, y; cbn; try congruence.
  rewrite Qle_bool_iff, Qltb_false_iff. trivial.
Qed.

Lemma ltb_le (x y : number) : ltb x y = true -> le x y.
Proof.
  unfold le. destruct x, y; cbn; try congruence.
  rewrite Qltb_true_iff, Qle_bool_iff. apply Qlt_le_weak.
Qed.

Lemma not_ltb_le (x y : number) :
  is_nan x = false -> is_nan y = false -> ltb y x = false -> le x y.
Proof.
  unfold le. destruct x, y; cbn; try congruence.
  intros _ _. rewrite Qltb_false_iff, Qle_bool_iff. trivial.
Qed.

(** A positive difference [x - y] means [y <= x] ... *)
Lemma difference_positive (x y : number) :
  gtb (sub x y) (Num 0) = true -> le y x.
Proof.
  unfold le, gtb, sub. destruct x, y; cbn; try congruence.
  rewrite Qltb_true_iff, Qle_bool_iff. intros H. lra.
Qed.

(** ... and, between numbers, a difference that is not positive means
    [x <= y]. *)
Lemma difference_not_positive (x y : number) :
  is_nan x = false -> is_nan y = false ->
  gtb (sub x y) (Num 0) = false -> le x y.
Proof.
  unfold le, gtb, sub. destruct x, y; cbn; try congruence.
  intros _ _. rewrite Qltb_false_iff, Qle_bool_iff. intros H. lra.
Qed.

(** Two numbers identical to a third have no positive difference. *)
Lemma difference_of_identical (x y m : number) :
  eqb x m = true -> eqb y m = true -> gtb (sub x y) (Num 0) = false.
Proof.
  unfold gtb, sub. destruct x, y, m; cbn; try congruence.
  rewrite !Qeq_bool_iff, Qltb_false_iff. intros H1 H2. lra.
Qed.

(** ** Insertion and sorting *)

Section SortFacts.

Context {A : Type} (comparefn : A -> A -> number).

Lemma insert_permutation (a : A) (l : list A) :
  Permutation (a :: l) (insert comparefn a l).
Proof.
  induction l as [| b l IH]; cbn [insert].
  - apply Permutation_refl.
  - destruct (goes_after comparefn a b).
    + eapply Permutation_trans; [apply perm_swap |].
      apply perm_skip. exact IH.
    + apply Permutation_refl.
Qed.

Lemma sort_permutation (l : list A) : Permutation l (sort comparefn l).
Proof.
  induction l as [| a l IH]; cbn [sort].
  - apply perm_nil.
  - eapply Permutation_trans; [| apply insert_permutation].
    apply perm_skip. exact IH.
Qed.

Lemma insert_Forall (P : A -> Prop) (a : A) (l : list A) :
  P a -> Forall P l -> Forall P (insert comparefn a l).
Proof.
  intros Ha Hl.
  eapply Permutation_Forall; [apply insert_permutation |].
  now constructor.
Qed.

Lemma sort_Forall (P : A -> Prop) (l : list A) :
  Forall P l -> Forall P (sort comparefn l).
Proof. apply Permutation_Forall, sort_permutation. Qed.

(** Filtering commutes with insertion when the inserted element jumps over
    no element the filter keeps. *)
Lemma filter_insert (keep : A -> bool) (a : A) (l : list A) :
  (forall b, keep a = true -> keep b = true -> goes_after comparefn a b = false) ->
  filter keep (insert comparefn a l) = filter keep (a :: l).
Proof.
  intros Hkeep. induction l as [| b l IH]; cbn [insert]; [reflexivity |].
  destruct (goes_after comparefn a b) eqn:Hab; [| reflexivity].
  cbn [filter] in *. rewrite IH.
  destruct (keep a) eqn:Ka; [| reflexivity].
  destruct (keep b) eqn:Kb; [| reflexivity].
  rewrite (Hkeep b eq_refl Kb) in Hab. discriminate Hab.
Qed.

Lemma filter_sort (keep : A -> bool) (l : list A) :
  (forall a b, keep a = true -> keep b = true -> goes_after comparefn a b = false) ->
  filter keep (sort comparefn l) = filter keep l.
Proof.
  intros Hkeep. induction l as [| a l IH]; cbn [sort]; [reflexivity |].
  rewrite filter_insert by (intros b; apply Hkeep).
  cbn [filter]. now rewrite IH.
Qed.

End SortFacts.

Lemma insert_sorted (a : RouteData) (l : list RouteData) :
  numeric a -> Forall numeric l ->
  StronglySorted cleaner_or_equal l ->
  StronglySorted cleaner_or_equal (insert byAvgAqi a l).
Proof.
  intros Ha Hl Hsorted. induction Hsorted as [| b l Hs IH Hb]; cbn [insert].
  - constructor; constructor.
  - apply Forall_cons_iff in Hl. destruct Hl as [Hnb Hl].
    destruct (goes_after byAvgAqi a b) eqn:Hab.
    + constructor; [now apply IH |].
      apply insert_Forall; [| exact Hb].
      apply difference_positive. exact Hab.
    + assert (Hle : cleaner_or_equal a b).
      { apply difference_not_positive; assumption. }
      constructor; [now constructor |].
      constructor; [exact Hle |].
      eapply Forall_impl; [| exact Hb].
      intros c Hc. eapply le_trans; eassumption.
Qed.

Lemma rank_strongly_sorted (l : list RouteData) :
  Forall numeric l -> StronglySorted cleaner_or_equal (rank l).
Proof.
  unfold rank. induction l as [| a l IH]; intros Hl; cbn [sort].
  - constructor.
  - apply Forall_cons_iff in Hl. destruct Hl as [Ha Hl].
    apply insert_sorted; [exact Ha | now apply sort_Forall | now apply IH].
Qed.

Lemma sorted_by_index (l : list RouteData) :
  StronglySorted cleaner_or_equal l ->
  forall i j a b, (i < j)%nat ->
    nth_error l i = Some a -> nth_error l j = Some b -> cleaner_or_equal a b.
Proof.
  induction 1 as [| c l Hs IH Hc]; intros i j a b Hij Hi Hj.
  - destruct i; discriminate Hi.
  - destruct j as [| j]; [lia |]. cbn [nth_error] in Hj.
    destruct i as [| i].
    + injection Hi as <-. rewrite Forall_forall in Hc.
      apply Hc. eapply nth_error_In. exact Hj.
    + cbn [nth_error] in Hi. eapply (IH i j); [lia | eassumption | eassumption].
Qed.

Lemma getCleanestRoute_cons (a : RouteData) (l : list RouteData) :
  getCleanestRoute (Some (a :: l)) = Some (fold_left cleaner l a).
Proof. reflexivity. Qed.

Lemma fold_cleaner_head (a : RouteData) (l : list RouteData) :
  Forall (cleaner_or_equal a) l -> fold_left cleaner l a = a.
Proof.
  induction 1 as [| b l Hb Hl IH]; cbn [fold_left]; [reflexivity |].
  unfold cleaner at 2. rewrite (le_not_ltb _ _ Hb). exact IH.
Qed.

Lemma fold_cleaner_minimum (l : list RouteData) (a : RouteData) :
  numeric a -> Forall numeric l ->
  In (fold_left cleaner l a) (a :: l)
  /\ Forall (cleaner_or_equal (fold_left cleaner l a)) (a :: l).
Proof.
  revert a. induction l as [| b l IH]; intros a Ha Hl; cbn [fold_left].
  - split; [now left |]. constructor; [now apply le_refl | constructor].
  - apply Forall_cons_iff in Hl. destruct Hl as [Hb Hl].
    assert (Hnext : numeric (cleaner a b)
                    /\ cleaner_or_equal (cleaner a b) a
                    /\ cleaner_or_equal (cleaner a b) b
                    /\ (cleaner a b = a \/ cleaner a b = b)).
    { unfold cleaner. destruct (ltb (avgAqi b) (avgAqi a)) eqn:Hlt.
      - split; [exact Hb |]. split; [now apply ltb_le |].
        split; [now apply le_refl | now right].
      - split; [exact Ha |]. split; [now apply le_refl |].
        split; [now apply not_ltb_le | now left]. }
    destruct Hnext as (Hn & Hna & Hnb & Hin).
    destruct (IH (cleaner a b) Hn Hl) as [HIn HAll].
    apply Forall_cons_iff in HAll. destruct HAll as [Hc HAll].
    split.
    + destruct HIn as [Heq | HIn].
      * rewrite <- Heq. destruct Hin as [-> | ->]; [now left | right; now left].
      * right. now right.
    + constructor; [eapply le_trans; eassumption |].
      constructor; [eapply le_trans; eassumption | exact HAll].
Qed.

(** ** C4: the ranking is sorted, cleanest first *)

Example rank_example :
  map id (rank example_routes) = ["route-1"; "route-3"; "route-0"; "route-2"]%string.
Proof. vm_compute. reflexivity. Qed.

(** C4: for every finite sequence of evaluated routes with numeric means, the
    sort of [calculateRoutes] returns the same routes, each as often as in the
    input, in ascending order of mean: for all positions [i < j] the mean at
    [i] is at most the mean at [j].  When the input is not empty the output
    has a first route; it is a route of the input, its mean is at most the
    mean of every route of the input, and it is the one [getCleanestRoute]
    picks. *)
Theorem rank_sorted_ascending
        (routesWithAQI : list RouteData)
        (Hnumeric : Forall numeric routesWithAQI) :
  let result := rank routesWithAQI in
  Permutation routesWithAQI result
  /\ (forall i j a b, (i < j)%nat ->
        nth_error result i = Some a -> nth_error result j = Some b ->
        le (avgAqi a) (avgAqi b))
  /\ (routesWithAQI <> [] ->
      exists first,
        hd_error result = Some first
        /\ In first routesWithAQI
        /\ forall r, In r routesWithAQI -> le (avgAqi first) (avgAqi r))
  /\ (forall first, hd_error result = Some first ->
        forall r, In r routesWithAQI -> le (avgAqi first) (avgAqi r))
  /\ getCleanestRoute (Some result) = hd_error result.
Proof.
  cbv zeta.
  pose proof (rank_strongly_sorted routesWithAQI Hnumeric) as Hsorted.
  pose proof (sort_permutation byAvgAqi routesWithAQI) as Hperm.
  fold (rank routesWithAQI) in Hperm.
  assert (Hnum : Forall numeric (rank routesWithAQI)).
  { unfold rank. now apply sort_Forall. }
  assert (Hmin : forall first, hd_error (rank routesWithAQI) = Some first ->
                   forall r, In r routesWithAQI -> le (avgAqi first) (avgAqi r)).
  { intros first Hfirst r Hr.
    assert (Hin : In r (rank routesWithAQI)).
    { eapply Permutation_in; [exact Hperm | exact Hr]. }
    destruct (rank routesWithAQI) as [| c l]; [discriminate Hfirst |].
    injection Hfirst as ->.
    apply StronglySorted_inv in Hsorted. destruct Hsorted as [_ Hc].
    destruct Hin as [<- | Hin].
    + apply le_refl. now apply Forall_inv in Hnum.
    + rewrite Forall_forall in Hc. now apply Hc. }
  split; [exact Hperm |].
  split; [| split; [| split]].
  - intros i j a b Hij Hi Hj.
    exact (sorted_by_index _ Hsorted i j a b Hij Hi Hj).
  - intros Hnonempty.
    destruct (rank routesWithAQI) as [| first l] eqn:Hrank.
    + apply Permutation_sym, Permutation_nil in Hperm. contradiction.
    + exists first. split; [reflexivity |]. split.
      * eapply Permutation_in; [apply Permutation_sym; exact Hperm | now left].
      * now apply Hmin.
  - exact Hmin.
  - destruct (rank routesWithAQI) as [| c l]; [reflexivity |].
    rewrite getCleanestRoute_cons. cbn [hd_error]. f_equal.
    apply fold_cleaner_head.
    apply StronglySorted_inv in Hsorted. now destruct Hsorted.
Qed.

Lemma rank_sorted_ascending_witness :
  Forall numeric example_routes
  /\ Permutation example_routes (rank example_routes)
  /\ (forall i j a b, (i < j)%nat ->
        nth_error (rank example_routes) i = Some a ->
        nth_error (rank example_routes) j = Some b ->
        le (avgAqi a) (avgAqi b))
  /\ getCleanestRoute (Some (rank example_routes)) = hd_error (rank example_routes).
Proof.
  assert (H : Forall numeric example_routes).
  { repeat constructor. }
  split; [exact H |].
  destruct (rank_sorted_ascending example_routes H)
    as (Hperm & Hsorted & _ & _ & Hfirst).
  split; [exact Hperm |]. split; [exact Hsorted | exact Hfirst].
Defined.

(** ** C5: the ranking is stable *)

Example rank_keeps_ties :
  map id (withMean (Num 120) (rank example_routes)) = ["route-0"; "route-2"]%string.
Proof. vm_compute. reflexivity. Qed.

(** C5: for every input sequence of evaluated routes and every mean [m], the
    routes whose mean is identical to [m] appear in the output of the sort in
    the order they have in the input: routes with identical means keep their
    relative order. *)
Theorem rank_stable (routesWithAQI : list RouteData) (m : number) :
  withMean m (rank routesWithAQI) = withMean m routesWithAQI.
Proof.
  unfold withMean, rank. apply filter_sort.
  intros a b Ha Hb. unfold goes_after, byAvgAqi.
  eapply difference_of_identical; eassumption.
Qed.

(** ** C9: the ranking only reorders *)

(** C9: for every input sequence of evaluated routes, the output of the sort
    is a permutation of its input: the same route records, hence with their
    mean, their samples, their coordinates, distance and duration unchanged,
    in a new order. *)
Theorem rank_permutation (routesWithAQI : list RouteData) :
  Permutation routesWithAQI (rank routesWithAQI)
  /\ (forall r, In r (rank routesWithAQI) <-> In r routesWithAQI)
  /\ List.length (rank routesWithAQI) = List.length routesWithAQI.
Proof.
  pose proof (sort_permutation byAvgAqi routesWithAQI) as Hperm.
  fold (rank routesWithAQI) in Hperm.
  split; [exact Hperm |]. split.
  - intros r. split; intros Hr.
    + eapply Permutation_in; [apply Permutation_sym, Hperm | exact Hr].
    + eapply Permutation_in; [exact Hperm | exact Hr].
  - symmetry. now apply Permutation_length.
Qed.

(** ** C6: the premium of the other routes *)

Example cleanerPercent_example :
  getCleanestRoute (Some example_routes) = Some (routeWithMean 1 60)
  /\ map (cleanerPercent (Some (routeWithMean 1 60))) example_routes
     = [Num 100; Num 0; Num 100; Num 50]
  /\ map (shownPremium (Some (routeWithMean 1 60))) example_routes
     = [Some (Num 100); None; Some (Num 100); Some (Num 50)].
Proof. vm_compute. repeat split. Qed.

Lemma Math_round_nonneg (q : Q) :
  0 <= q -> geb (Math_round (Num q)) (Num 0) = true.
Proof.
  intros Hq. unfold geb, Math_round. cbn [leb]. apply Qle_bool_iff.
  change 0 with (inject_Z 0). rewrite <- Zle_Qle.
  rewrite <- (Qfloor_Z 0). apply Qfloor_resp_le.
  change (inject_Z 0) with 0. lra.
Qed.

Lemma premium_of_numbers (r c : Q) :
  0 < c -> c <= r ->
  geb (Math_round (mul (div (sub (Num r) (Num c)) (Num c)) (Num 100))) (Num 0)
  = true.
Proof.
  intros Hc Hr. unfold sub. cbn [neg add div].
  assert (Hz : Qeq_bool c 0 = false).
  { destruct (Qeq_bool c 0) eqn:E; [| reflexivity].
    apply Qeq_bool_iff in E. lra. }
  rewrite Hz. cbn [mul]. apply Math_round_nonneg.
  apply Qmult_le_0_compat; [| lra].
  unfold Qdiv. apply Qmult_le_0_compat; [lra |].
  apply Qlt_le_weak, Qinv_lt_0_compat. exact Hc.
Qed.

Lemma premium_of_infinity (c : Q) :
  0 < c ->
  geb (Math_round (mul (div (sub PosInf (Num c)) (Num c)) (Num 100))) (Num 0)
  = true.
Proof.
  intros Hc. unfold sub. cbn [neg add div].
  assert (Hz : Qltb c 0 = false) by (apply Qltb_false_iff; lra).
  rewrite Hz. reflexivity.
Qed.

Lemma cleaner_cases (a b : RouteData) :
  is_nan (avgAqi a) = false ->
  is_nan (avgAqi (cleaner a b)) = false
  /\ le (avgAqi (cleaner a b)) (avgAqi a)
  /\ (is_nan (avgAqi b) = false -> le (avgAqi (cleaner a b)) (avgAqi b)).
Proof.
  intros Ha. unfold cleaner. destruct (ltb (avgAqi b) (avgAqi a)) eqn:Hlt.
  - assert (Hb : is_nan (avgAqi b) = false).
    { destruct (avgAqi b); [discriminate Hlt | reflexivity ..]. }
    split; [exact Hb |]. split; [now apply ltb_le | intros _; now apply le_refl].
  - split; [exact Ha |]. split; [now apply le_refl |].
    intros Hb. now apply not_ltb_le.
Qed.

(** The [reduce] of [getCleanestRoute] never leaves a first route whose mean
    is [NaN] ... *)
Lemma fold_cleaner_nan (l : list RouteData) (a : RouteData) :
  is_nan (avgAqi a) = true -> fold_left cleaner l a = a.
Proof.
  intros Ha. induction l as [| b l IH]; cbn [fold_left]; [reflexivity |].
  assert (Hstay : cleaner a b = a).
  { unfold cleaner. destruct (avgAqi a); try discriminate Ha.
    now destruct (avgAqi b). }
  rewrite Hstay. exact IH.
Qed.

(** ... and from a first route whose mean is a number it picks a route that is
    at most every route whose mean is a number. *)
Lemma fold_cleaner_lower (l : list RouteData) (a : RouteData) :
  is_nan (avgAqi a) = false ->
  is_nan (avgAqi (fold_left cleaner l a)) = false
  /\ forall r, In r (a :: l) -> is_nan (avgAqi r) = false ->
       le (avgAqi (fold_left cleaner l a)) (avgAqi r).
Proof.
  revert a. induction l as [| b l IH]; intros a Ha; cbn [fold_left].
  - split; [exact Ha |]. intros r [<- | []] _. now apply le_refl.
  - destruct (cleaner_cases a b Ha) as (Hc & Hca & Hcb).
    destruct (IH (cleaner a b) Hc) as [Hnan Hlow].
    split; [exact Hnan |].
    assert (Hfc : le (avgAqi (fold_left cleaner l (cleaner a b)))
                     (avgAqi (cleaner a b))).
    { apply Hlow; [now left | exact Hc]. }
    intros r [<- | [<- | Hr]] Hnum.
    + eapply le_trans; [exact Hfc | exact Hca].
    + eapply le_trans; [exact Hfc | now apply Hcb].
    + apply Hlow; [now right | exact Hnum].
Qed.

Example evaluateRoute_empty_path (env : Env) (index : nat) (s : State) :
  fst (evaluateRoute env (mkRoute [] (Num 1000) (Num 600)) index s)
  = routeWithoutSamples index.
Proof. reflexivity. Qed.

(** A planning request whose second route comes with an empty path: the plan
    holds a route of mean 41.7 and a route of mean [NaN]. *)
Example calculateRoutes_empty_path :
  routes (fst (calculateRoutes env_empty_path Qsqrt_up "Bangalore" "Mysore, India"
                               initial))
  = Some [mkRouteData (route_id 0) [(Num (1297 # 100), Num (7759 # 100))]
                      (Num 1000) (Num 600) (Num (4170 # 100))
                      [mkAQIData (Num (1297 # 100)) (Num (7759 # 100))
                                 (Num (4170 # 100))];
          routeWithoutSamples 1].
Proof. vm_compute. reflexivity. Qed.

(** When every mean is infinite the recommended mean is above 0 and the
    premium of the other route is [NaN]. *)
Example premium_of_infinite_means :
  let plan := [mkRouteData (route_id 0) [] (Num 1) (Num 1) PosInf [];
               mkRouteData (route_id 1) [] (Num 1) (Num 1) PosInf []] in
  option_map avgAqi (getCleanestRoute (Some plan)) = Some PosInf
  /\ map (cleanerPercent (getCleanestRoute (Some plan))) plan = [NaN; NaN].
Proof. vm_compute. split; reflexivity. Qed.

(** C6, as stated, fails: the plan [calculateRoutes] returns when the second
    route comes with an empty path has a recommended route of mean 41.7,
    above 0, and a second route of mean [NaN = 0 / 0], whose premium is [NaN],
    which is not at least 0. *)
Lemma premium_nonnegative_fails :
  ~ (forall (env : Env) (startLocation endLocation : string)
            (plan : list RouteData) (cleanest route : RouteData),
        routes (fst (calculateRoutes env Qsqrt_up startLocation endLocation initial))
        = Some plan ->
        getCleanestRoute (Some plan) = Some cleanest ->
        gtb (avgAqi cleanest) (Num 0) = true ->
        In route plan ->
        isCleanest (Some cleanest) route = false ->
        geb (cleanerPercent (Some cleanest) route) (Num 0) = true).
Proof.
  intros H.
  specialize (H env_empty_path "Bangalore"%string "Mysore, India"%string _ _
                (routeWithoutSamples 1) calculateRoutes_empty_path
                eq_refl eq_refl (or_intror (or_introl eq_refl)) eq_refl).
  vm_compute in H. discriminate H.
Qed.

(** C6, amended: for every plan whose recommended route, the one
    [getCleanestRoute] picks, has a finite mean above 0, the premium
    [cleanerPercent] computed for every route of the plan whose mean is a
    number, so for every such non-recommended one, is at least 0; a route
    whose mean is [NaN] has the premium [NaN], and the page writes no premium
    next to it; and a premium the page writes next to a route is above 0,
    never negative. *)
Theorem premium_nonnegative
        (plan : list RouteData) (cleanest : RouteData) (c : Q)
        (Hcleanest : getCleanestRoute (Some plan) = Some cleanest)
        (Hmean : avgAqi cleanest = Num c)
        (Hpositive : 0 < c) :
  forall route, In route plan ->
    (is_nan (avgAqi route) = false ->
     geb (cleanerPercent (Some cleanest) route) (Num 0) = true)
    /\ (is_nan (avgAqi route) = true ->
        cleanerPercent (Some cleanest) route = NaN
        /\ shownPremium (Some cleanest) route = None)
    /\ forall shown, shownPremium (Some cleanest) route = Some shown ->
                     gtb shown (Num 0) = true.
Proof.
  intros route Hroute. split; [| split].
  - intros Hnumber.
    destruct plan as [| a l]; [destruct Hroute |].
    rewrite getCleanestRoute_cons in Hcleanest. injection Hcleanest as Hc.
    assert (Ha : is_nan (avgAqi a) = false).
    { destruct (is_nan (avgAqi a)) eqn:Ha; [| reflexivity].
      rewrite (fold_cleaner_nan l a Ha) in Hc. subst a.
      rewrite Hmean in Ha. discriminate Ha. }
    destruct (fold_cleaner_lower l a Ha) as [_ Hmin].
    rewrite Hc in Hmin.
    specialize (Hmin route Hroute Hnumber). unfold le in Hmin.
    unfold cleanerPercent. rewrite Hmean in *.
    destruct (avgAqi route) as [| | r |]; cbn [leb] in Hmin;
      try discriminate Hmin.
    + apply premium_of_numbers; [exact Hpositive |].
      now apply Qle_bool_iff.
    + now apply premium_of_infinity.
  - intros Hnan.
    assert (Hpercent : cleanerPercent (Some cleanest) route = NaN).
    { unfold cleanerPercent. rewrite Hmean.
      destruct (avgAqi route); try discriminate Hnan. reflexivity. }
    split; [exact Hpercent |].
    unfold shownPremium. rewrite Hpercent.
    now destruct (negb (isCleanest (Some cleanest) route)).
  - intros shown. unfold shownPremium.
    destruct (negb (isCleanest (Some cleanest) route)); cbn [andb];
      [| discriminate].
    destruct (gtb (cleanerPercent (Some cleanest) route) (Num 0)) eqn:Hgt;
      [| discriminate].
    intros [= <-]. exact Hgt.
Qed.

Lemma premium_nonnegative_witness :
  getCleanestRoute (Some (example_routes ++ [routeWithoutSamples 4]))
  = Some (routeWithMean 1 60)
  /\ 0 < 60
  /\ geb (cleanerPercent (Some (routeWithMean 1 60)) (routeWithMean 3 90)) (Num 0)
     = true
  /\ shownPremium (Some (routeWithMean 1 60)) (routeWithoutSamples 4) = None.
Proof.
  assert (Hpick : getCleanestRoute (Some (example_routes ++ [routeWithoutSamples 4]))
                  = Some (routeWithMean 1 60)) by reflexivity.
  assert (Hpos : 0 < 60) by reflexivity.
  split; [exact Hpick |]. split; [exact Hpos |].
  split.
  - apply (premium_nonnegative (example_routes ++ [routeWithoutSamples 4])
                               (routeWithMean 1 60) 60
                               Hpick eq_refl Hpos (routeWithMean 3 90)).
    + right. right. right. left. reflexivity.
    + reflexivity.
  - apply (premium_nonnegative (example_routes ++ [routeWithoutSamples 4])
                               (routeWithMean 1 60) 60
                               Hpick eq_refl Hpos (routeWithoutSamples 4)).
    + right. right. right. right. left. reflexivity.
    + reflexivity.
Defined.

(** ** Evaluating one route *)

Lemma evaluateRoute_runs (env : Env) (route : Route) (index : nat) (s : State) :
  exists pts evs s',
    runs (evaluateRoute env route index) s
         (mkRouteData (route_id index) (r_coordinates route) (r_distance route)
                      (r_duration route)
                      (div (sumAqi pts) (of_nat (List.length pts))) pts)
         evs s'
    /\ List.length pts
       = ceil_div (List.length (r_coordinates route))
                  (sampleInterval_of (r_coordinates route))
    /\ filter is_air_quality evs = map (fun p => EvAirQuality (lat p) (lon p)) pts
    /\ filter is_route evs = []
    /\ filter is_geocode evs = []
    /\ (forall k p, nth_error pts k = Some p ->
          nth_error (r_coordinates route)
                    (k * sampleInterval_of (r_coordinates route))
          = Some (lat p, lon p)).
Proof.
  destruct (calculateAQIAlongRoute_runs env (r_coordinates route) s)
    as (pts & evs & s' & Hrun & Hrest).
  exists pts, evs, s'. split; [| exact Hrest].
  unfold evaluateRoute. rewrite <- (app_nil_r evs).
  eapply runs_bind; [exact Hrun | apply runs_ret].
Qed.

Lemma sumAqi_finite (pts : list AQIData) (qs : list Q) :
  map aqi pts = map Num qs -> sumAqi pts = Num (fold_left Qplus qs 0).
Proof.
  unfold sumAqi. generalize 0 as acc. revert qs.
  induction pts as [| p pts IH]; intros [| q qs] acc Hmap;
    try discriminate Hmap; [reflexivity |].
  cbn [map] in Hmap. injection Hmap as Hp Hmap.
  cbn [fold_left]. rewrite Hp. cbn [add]. now apply IH.
Qed.

Lemma div_by_length (x : Q) (n : nat) :
  (1 <= n)%nat -> div (Num x) (of_nat n) = Num (x / inject_Z (Z.of_nat n)).
Proof.
  intros Hn. unfold of_nat. cbn [div].
  destruct (Qeq_bool (inject_Z (Z.of_nat n)) 0) eqn:E; [| reflexivity].
  apply Qeq_bool_iff in E. unfold Qeq in E. cbn in E. lia.
Qed.

(** ** C8: at least one sample, and the mean of the samples *)


(** ** C8: at least one sample, and the mean of the samples *)

Example evaluateRoute_polluted :
  let evaluated :=
    fst (evaluateRoute env_polluted (fallbackRoute Qsqrt_up bangalore mysore)
                       0 initial) in
  map (fun p => eqb (aqi p) (Num 834)) (aqiPoints evaluated) = [true; true; true]
  /\ eqb (avgAqi evaluated) (Num 834) = true.
Proof. vm_compute. split; reflexivity. Qed.



(** ** C10: evaluation keeps the route and samples along the path *)

(** C10: for every route, its evaluation carries the route's coordinate
    sequence, distance and duration unchanged, and the [k]-th sample, counting
    from 0, has the coordinate the path has at index [k * stride], with
    [stride >= 1]: every sample sits at the index it was sampled at, and the
    samples follow the order of the path. *)
Theorem evaluation_keeps_route
        (env : Env) (route : Route) (index : nat) (s : State) :
  let evaluated := fst (evaluateRoute env route index s) in
  coordinates evaluated = r_coordinates route
  /\ distance evaluated = r_distance route
  /\ duration evaluated = r_duration route
  /\ (1 <= sampleInterval_of (r_coordinates route))%nat
  /\ forall k p, nth_error (aqiPoints evaluated) k = Some p ->
       nth_error (coordinates evaluated)
                 (k * sampleInterval_of (r_coordinates route))
       = Some (lat p, lon p).
Proof.
  cbv zeta.
  destruct (evaluateRoute_runs env route index s)
    as (pts & evs & s' & Hrun & _ & _ & _ & _ & Hnth).
  rewrite (runs_result _ _ _ _ _ Hrun).
  cbn [coordinates distance duration aqiPoints].
  repeat (split; [reflexivity |]).
  split; [apply stride_positive | exact Hnth].
Qed.

(** ** C7: endpoints that cannot be resolved *)

Lemma geocodeLocation_runs (env : Env) (location : string) (s : State) :
  runs (geocodeLocation env location) s
       (fst (geocodeLocation env location s)) [EvGeocode location]
       (snd (geocodeLocation env location s)).
Proof.
  unfold geocodeLocation, bind, call, runs.
  destruct (nominatim env location (clock s)) as [| [| hit hits]];
    split; reflexivity.
Qed.

Lemma getRouteFromORS_null
      (env : Env) (Qsqrt : Q -> Q) (start end_ : LatLon) (profile : string)
      (s : State) :
  ors_no_feature (openrouteservice env profile start end_ (clock s)) = true ->
  getRouteFromORS env Qsqrt start end_ profile s
  = (None, mkState (S (clock s)) (log s ++ [EvRoute profile start end_])).
Proof.
  unfold getRouteFromORS, bind, call.
  destruct (openrouteservice env profile start end_ (clock s))
    as [| | | [[| feature features] |]]; cbn [ors_no_feature];
    try discriminate; reflexivity.
Qed.

(** When both endpoints resolve and no profile yields a route, the hook
    reports that no routes were found. *)
Lemma calculateRoutes_no_routes
      (env : Env) (Qsqrt : Q -> Q) (startLocation endLocation : string)
      (s : State) (start end_ : LatLon) :
  fst (geocodeLocation env startLocation s) = Some start ->
  fst (geocodeLocation env endLocation (snd (geocodeLocation env startLocation s)))
  = Some end_ ->
  (forall profile t,
      ors_no_feature (openrouteservice env profile start end_ t) = true) ->
  fst (calculateRoutes env Qsqrt startLocation endLocation s)
  = failed no_routes_found.
Proof.
  intros Hstart Hend Hnone. unfold calculateRoutes.
  unfold bind at 1. destruct (geocodeLocation env startLocation s) as [r1 s1].
  cbn [fst snd] in *. subst r1.
  unfold bind at 1. destruct (geocodeLocation env endLocation s1) as [r2 s2].
  cbn [fst] in *. subst r2.
  unfold mapM, routeProfiles. cbn [mapM_from]. unfold bind, ret.
  rewrite getRouteFromORS_null by apply Hnone.
  rewrite getRouteFromORS_null by apply Hnone.
  reflexivity.
Qed.

Example calculateRoutes_empty_origin :
  fst (calculateRoutes env_polluted Qsqrt_up "" "Mysore, India" initial)
  = mkHook None false (Some "Could not find one or both locations"%string)
  /\ emitted (calculateRoutes env_polluted Qsqrt_up "" "Mysore, India") initial
     = [EvGeocode ""; EvGeocode "Mysore, India"].
Proof. vm_compute. split; reflexivity. Qed.

Example calculateRoutes_no_features :
  fst (calculateRoutes env_no_features Qsqrt_up "Bangalore, India" "Mysore, India"
                       initial)
  = mkHook None false (Some "No routes found"%string).
Proof. vm_compute. reflexivity. Qed.

Example calculateRoutes_polluted :
  option_map (map id)
    (routes (fst (calculateRoutes env_polluted Qsqrt_up "Bangalore, India"
                                  "Mysore, India" initial)))
  = Some ["route-0"; "route-1"]%string
  /\ samplerCalls (calculateRoutes env_polluted Qsqrt_up "Bangalore, India"
                                   "Mysore, India") initial = 6%nat.
Proof. vm_compute. split; reflexivity. Qed.

(** C7: for every pair of input texts, if geocoding the origin or the
    destination yields not-found (as for an empty origin text the service
    finds nothing for), [calculateRoutes] ends with the error "Could not find
    one or both locations" and no routes; it has only made the two geocoding
    requests: no route fetch, no sampling.  That error differs from "No routes
    found", the error of a request whose endpoints resolve and whose profiles
    all yield no route. *)
Theorem endpoint_resolution_error
        (env : Env) (Qsqrt : Q -> Q) (startLocation endLocation : string)
        (s : State)
        (Hnotfound :
           fst (geocodeLocation env startLocation s) = None
           \/ fst (geocodeLocation env endLocation
                                   (snd (geocodeLocation env startLocation s)))
              = None) :
  let run := calculateRoutes env Qsqrt startLocation endLocation in
  fst (run s) = mkHook None false (Some could_not_find)
  /\ emitted run s = [EvGeocode startLocation; EvGeocode endLocation]
  /\ filter is_route (emitted run s) = []
  /\ samplerCalls run s = 0%nat
  /\ could_not_find <> no_routes_found
  /\ forall env' Qsqrt' startLocation' endLocation' s' start end_,
       fst (geocodeLocation env' startLocation' s') = Some start ->
       fst (geocodeLocation env' endLocation'
                            (snd (geocodeLocation env' startLocation' s')))
       = Some end_ ->
       (forall profile t,
           ors_no_feature (openrouteservice env' profile start end_ t) = true) ->
       fst (calculateRoutes env' Qsqrt' startLocation' endLocation' s')
       = mkHook None false (Some no_routes_found).
Proof.
  cbv zeta.
  assert (Hrun : runs (calculateRoutes env Qsqrt startLocation endLocation) s
                      (failed could_not_find)
                      ([EvGeocode startLocation] ++ [EvGeocode endLocation] ++ [])
                      (snd (geocodeLocation env endLocation
                              (snd (geocodeLocation env startLocation s))))).
  { unfold calculateRoutes.
    eapply runs_bind; [apply geocodeLocation_runs |].
    eapply runs_bind; [apply geocodeLocation_runs |].
    destruct Hnotfound as [-> | ->].
    - apply runs_ret.
    - destruct (fst (geocodeLocation env startLocation s)); apply runs_ret. }
  cbn [app] in Hrun. unfold samplerCalls.
  rewrite (runs_emitted _ _ _ _ _ Hrun), (runs_result _ _ _ _ _ Hrun).
  split; [reflexivity |]. split; [reflexivity |]. split; [reflexivity |].
  split; [reflexivity |]. split; [discriminate |].
  intros env' Qsqrt' startLocation' endLocation' s' start end_.
  apply calculateRoutes_no_routes.
Qed.

Lemma endpoint_resolution_error_witness :
  fst (geocodeLocation env_polluted "" initial) = None
  /\ fst (calculateRoutes env_polluted Qsqrt_up "" "Mysore, India" initial)
     = mkHook None false (Some could_not_find)
  /\ filter is_route
       (emitted (calculateRoutes env_polluted Qsqrt_up "" "Mysore, India") initial)
     = []
  /\ samplerCalls (calculateRoutes env_polluted Qsqrt_up "" "Mysore, India") initial
     = 0%nat.
Proof.
  assert (H : fst (geocodeLocation env_polluted "" initial) = None) by reflexivity.
  split; [exact H |].
  destruct (endpoint_resolution_error env_polluted Qsqrt_up ""%string
              "Mysore, India"%string initial (or_introl H))
    as (Hhook & _ & Hroute & Hcalls & _).
  split; [exact Hhook |]. split; [exact Hroute | exact Hcalls].
Defined.

(** ** Calls mapped over a list *)

Lemma runs_canonical {A : Type} (m : M A) s a evs s' :
  runs m s a evs s' -> runs m s (fst (m s)) (emitted m s) (snd (m s)).
Proof.
  intros H. rewrite (runs_emitted _ _ _ _ _ H), (runs_result _ _ _ _ _ H).
  destruct H as [Hm Hl]. unfold runs. rewrite Hm. cbn [snd]. now split.
Qed.

Lemma mapM_from_mapped {A B : Type} (f : A -> nat -> M B) :
  (forall a i s, exists b evs s', runs (f a i) s b evs s') ->
  forall l i s,
  exists bs evs s',
    runs (mapM_from f i l) s bs evs s' /\ mapped (called f) i l bs evs.
Proof.
  intros Hf. induction l as [| a l IH]; intros i s; cbn [mapM_from].
  - exists [], [], s. split; [apply runs_ret | constructor].
  - destruct (Hf a i s) as (b & e1 & s1 & Hrun1).
    destruct (IH (S i) s1) as (bs & e2 & s2 & Hrun2 & Hmapped).
    exists (b :: bs), (e1 ++ e2), s2. split.
    + eapply runs_bind; [exact Hrun1 |].
      rewrite <- (app_nil_r e2).
      eapply runs_bind; [exact Hrun2 | apply runs_ret].
    + constructor; [| exact Hmapped].
      exists s. split.
      * symmetry. eapply runs_result. exact Hrun1.
      * symmetry. eapply runs_emitted. exact Hrun1.
Qed.

Section Mapped.

Context {A B : Type} (R : A -> nat -> B -> list Event -> Prop).

Lemma mapped_length i l bs evs :
  mapped R i l bs evs -> List.length bs = List.length l.
Proof. induction 1; cbn; congruence. Qed.

Lemma mapped_Forall (P : B -> Prop) i l bs evs :
  (forall a j b e, In a l -> R a j b e -> P b) ->
  mapped R i l bs evs -> Forall P bs.
Proof.
  intros HP H. induction H as [| i a l b bs e rest HR Hm IH]; constructor.
  - eapply HP; [now left | exact HR].
  - apply IH. intros a' j b' e' Hin. apply HP. now right.
Qed.

Lemma mapped_index (g : B -> string) i l bs evs :
  (forall a j b e, R a j b e -> g b = route_id j) ->
  mapped R i l bs evs -> map g bs = map route_id (seq i (List.length l)).
Proof.
  intros Hg H. induction H as [| i a l b bs e rest HR Hm IH]; [reflexivity |].
  cbn [map List.length seq]. rewrite (Hg _ _ _ _ HR), IH. reflexivity.
Qed.

Lemma mapped_filter_nil (p : Event -> bool) i l bs evs :
  (forall a j b e, R a j b e -> filter p e = []) ->
  mapped R i l bs evs -> filter p evs = [].
Proof.
  intros Hp H. induction H as [| i a l b bs e rest HR Hm IH]; [reflexivity |].
  rewrite filter_app, (Hp _ _ _ _ HR), IH. reflexivity.
Qed.

Lemma mapped_count_le (p : Event -> bool) (n : nat) i l bs evs :
  (forall a j b e, R a j b e -> (List.length (filter p e) <= n)%nat) ->
  mapped R i l bs evs ->
  (List.length (filter p evs) <= n * List.length l)%nat.
Proof.
  intros Hp H. induction H as [| i a l b bs e rest HR Hm IH]; [cbn; lia |].
  rewrite filter_app, length_app. specialize (Hp _ _ _ _ HR).
  cbn [List.length]. lia.
Qed.

Lemma mapped_count (p : Event -> bool) (count : B -> nat) i l bs evs :
  (forall a j b e, R a j b e -> List.length (filter p e) = count b) ->
  mapped R i l bs evs ->
  List.length (filter p evs) = list_sum (map count bs).
Proof.
  intros Hp H. induction H as [| i a l b bs e rest HR Hm IH]; [reflexivity |].
  rewrite filter_app, length_app, (Hp _ _ _ _ HR), IH. reflexivity.
Qed.

End Mapped.

(** ** The identifiers of the routes *)

Lemma route_id_injective (i j : nat) : route_id i = route_id j -> i = j.
Proof.
  unfold route_id. cbn [append]. intros H. injection H as H.
  apply DecimalNat.Unsigned.to_uint_inj.
  assert (E : Some (Nat.to_uint i) = Some (Nat.to_uint j)).
  { rewrite <- !NilEmpty.usu. now rewrite H. }
  now injection E.
Qed.

Lemma route_ids_distinct (i n : nat) : NoDup (map route_id (seq i n)).
Proof.
  apply Injective_map_NoDup; [| apply seq_NoDup].
  intros a b. apply route_id_injective.
Qed.

(** ** The structure of a planning request *)

Lemma mapped_In {A B : Type} (R : A -> nat -> B -> list Event -> Prop)
      i l bs evs (a : A) :
  mapped R i l bs evs -> In a l -> exists j b e, In b bs /\ R a j b e.
Proof.
  induction 1 as [| i a' l b bs e rest HR Hm IH]; intros Hin; [destruct Hin |].
  destruct Hin as [-> | Hin].
  - exists i, b, e. split; [now left | exact HR].
  - destruct (IH Hin) as (j & b' & e' & Hb & HR').
    exists j, b', e'. split; [now right | exact HR'].
Qed.

Lemma nonNull_length {A : Type} (l : list (option A)) :
  (List.length (nonNull l) <= List.length l)%nat.
Proof.
  induction l as [| [a |] l IH]; cbn [nonNull List.length] in *; lia.
Qed.

Lemma nonNull_In {A : Type} (l : list (option A)) (a : A) :
  In a (nonNull l) <-> In (Some a) l.
Proof.
  induction l as [| [b |] l IH]; cbn; [tauto | |].
  - rewrite IH. split; intros [H | H]; auto; left; congruence.
  - rewrite IH. split; [auto | intros [H | H]; [discriminate | exact H]].
Qed.

Lemma list_sum_permutation (l l' : list nat) :
  Permutation l l' -> list_sum l = list_sum l'.
Proof.
  induction 1 as [| x l l' H IH | x y l | l l' l'' H1 IH1 H2 IH2];
    unfold list_sum in *; cbn [fold_right]; lia.
Qed.

Section Request.

Variable env : Env.
Variable Qsqrt : Q -> Q.

(** The route source answers once, whatever it is asked. *)
Lemma getRouteFromORS_runs (start end_ : LatLon) (profile : string) (s : State) :
  exists r,
    runs (getRouteFromORS env Qsqrt start end_ profile) s r
         [EvRoute profile start end_]
         (mkState (S (clock s)) (log s ++ [EvRoute profile start end_]))
    /\ (r = None <->
        ors_no_feature (openrouteservice env profile start end_ (clock s)) = true)
    /\ (ors_raises (openrouteservice env profile start end_ (clock s)) = true ->
        r = Some (fallbackRoute Qsqrt start end_)).
Proof.
  unfold getRouteFromORS, bind, call, runs. cbn [fst snd clock log].
  destruct (openrouteservice env profile start end_ (clock s))
    as [| | | [[| feature features] |]]; cbn [ors_no_feature ors_raises];
    try (eexists; split; [split; reflexivity |];
         split; [split; [discriminate | discriminate] | reflexivity]);
    try (eexists; split; [split; reflexivity |];
         split; [split; reflexivity | discriminate]).
  destruct (geometry_coordinates feature) as [coords |];
    [destruct (segments feature) as [[| [dist dur] rest] |] |];
    eexists; (split; [split; reflexivity |]);
    (split; [split; discriminate |]); try reflexivity.
  discriminate.
Qed.

Lemma getRouteFromORS_called (start end_ : LatLon) (profile : string) (i : nat)
      (r : option Route) (evs : list Event) :
  called (fun profile _ => getRouteFromORS env Qsqrt start end_ profile)
         profile i r evs ->
  evs = [EvRoute profile start end_]
  /\ exists t,
       (r = None <->
        ors_no_feature (openrouteservice env profile start end_ t) = true)
       /\ (ors_raises (openrouteservice env profile start end_ t) = true ->
           r = Some (fallbackRoute Qsqrt start end_)).
Proof.
  intros (st & -> & ->).
  destruct (getRouteFromORS_runs start end_ profile st) as (r & Hrun & Hnull & Hraise).
  rewrite (runs_emitted _ _ _ _ _ Hrun), (runs_result _ _ _ _ _ Hrun).
  split; [reflexivity |]. exists (clock st). now split.
Qed.

Lemma evaluateRoute_called (route : Route) (i : nat) (rd : RouteData)
      (evs : list Event) :
  called (evaluateRoute env) route i rd evs ->
  id rd = route_id i
  /\ coordinates rd = r_coordinates route
  /\ distance rd = r_distance route
  /\ duration rd = r_duration route
  /\ List.length (aqiPoints rd)
     = ceil_div (List.length (r_coordinates route))
                (sampleInterval_of (r_coordinates route))
  /\ filter is_air_quality evs
     = map (fun p => EvAirQuality (lat p) (lon p)) (aqiPoints rd)
  /\ filter is_route evs = []
  /\ filter is_geocode evs = [].
Proof.
  intros (st & -> & ->).
  destruct (evaluateRoute_runs env route i st)
    as (pts & evs & s' & Hrun & Hlen & Haq & Hroute & Hgeo & _).
  rewrite (runs_emitted _ _ _ _ _ Hrun), (runs_result _ _ _ _ _ Hrun).
  cbn [id coordinates distance duration aqiPoints].
  repeat (split; [reflexivity || assumption |]). assumption.
Qed.

(** A request geocodes both texts; it stops there when one is not found;
    else it asks a route for every profile, stops when none is returned, and
    else evaluates the routes returned and ranks them. *)
Lemma calculateRoutes_structure (startLocation endLocation : string) (s : State) :
  exists hook evs s',
    runs (calculateRoutes env Qsqrt startLocation endLocation) s hook evs s'
    /\ match fst (geocodeLocation env startLocation s),
             fst (geocodeLocation env endLocation
                                  (snd (geocodeLocation env startLocation s))) with
       | Some start, Some end_ =>
           exists results revs,
             mapped (called (fun profile _ =>
                               getRouteFromORS env Qsqrt start end_ profile))
                    0 routeProfiles results revs
             /\ match nonNull results with
                | [] =>
                    hook = failed no_routes_found
                    /\ evs = [EvGeocode startLocation; EvGeocode endLocation] ++ revs
                | validRoutes =>
                    exists evaluated eevs,
                      mapped (called (evaluateRoute env)) 0 validRoutes evaluated eevs
                      /\ hook = mkHook (Some (rank evaluated)) false None
                      /\ evs = [EvGeocode startLocation; EvGeocode endLocation]
                               ++ revs ++ eevs
                end
       | _, _ =>
           hook = failed could_not_find
           /\ evs = [EvGeocode startLocation; EvGeocode endLocation]
       end.
Proof.
  pose proof (geocodeLocation_runs env startLocation s) as H1.
  set (r1 := fst (geocodeLocation env startLocation s)) in *.
  set (s1 := snd (geocodeLocation env startLocation s)) in *.
  pose proof (geocodeLocation_runs env endLocation s1) as H2.
  set (r2 := fst (geocodeLocation env endLocation s1)) in *.
  set (s2 := snd (geocodeLocation env endLocation s1)) in *.
  assert (Hstop : forall hook,
             (forall start end_, r1 = Some start -> r2 = Some end_ -> False) ->
             hook = failed could_not_find ->
             runs (calculateRoutes env Qsqrt startLocation endLocation) s hook
                  [EvGeocode startLocation; EvGeocode endLocation] s2).
  { intros hook Hno ->. unfold calculateRoutes.
    change [EvGeocode startLocation; EvGeocode endLocation]
      with ([EvGeocode startLocation] ++ [EvGeocode endLocation] ++ []).
    eapply runs_bind; [exact H1 |]. eapply runs_bind; [exact H2 |].
    destruct r1 as [start |]; [destruct r2 as [end_ |] |]; try apply runs_ret.
    exfalso. eapply Hno; reflexivity. }
  destruct r1 as [start |] eqn:E1; [destruct r2 as [end_ |] eqn:E2 |].
  - clear Hstop.
    destruct (mapM_from_mapped
                (fun profile (_ : nat) => getRouteFromORS env Qsqrt start end_ profile)
                (fun profile _ st =>
                   let (r, H) := getRouteFromORS_runs start end_ profile st in
                   ex_intro _ r (ex_intro _ _ (ex_intro _ _ (proj1 H))))
                routeProfiles 0%nat s2)
      as (results & revs & s3 & Hrun3 & Hm3).
    destruct (nonNull results) as [| route validRoutes] eqn:Hvalid.
    + exists (failed no_routes_found),
        ([EvGeocode startLocation] ++ [EvGeocode endLocation] ++ revs ++ []), s3.
      split.
      * unfold calculateRoutes.
        eapply runs_bind; [exact H1 |]. eapply runs_bind; [exact H2 |].
        eapply runs_bind; [exact Hrun3 |]. rewrite Hvalid. apply runs_ret.
      * exists results, revs. split; [exact Hm3 |].
        rewrite Hvalid. split; [reflexivity |]. now rewrite app_nil_r.
    + destruct (mapM_from_mapped (evaluateRoute env)
                  (fun route i st =>
                     let (pts, H) := evaluateRoute_runs env route i st in
                     let (evs, H) := H in
                     let (s', H) := H in
                     ex_intro _ _ (ex_intro _ evs (ex_intro _ s' (proj1 H))))
                  (route :: validRoutes) 0%nat s3)
        as (evaluated & eevs & s4 & Hrun4 & Hm4).
      exists (mkHook (Some (rank evaluated)) false None),
        ([EvGeocode startLocation] ++ [EvGeocode endLocation]
           ++ revs ++ eevs ++ []), s4.
      split.
      * unfold calculateRoutes.
        eapply runs_bind; [exact H1 |]. eapply runs_bind; [exact H2 |].
        eapply runs_bind; [exact Hrun3 |]. rewrite Hvalid.
        eapply runs_bind; [exact Hrun4 | apply runs_ret].
      * exists results, revs. split; [exact Hm3 |].
        rewrite Hvalid. exists evaluated, eevs.
        split; [exact Hm4 |]. split; [reflexivity |]. now rewrite app_nil_r.
  - exists (failed could_not_find), [EvGeocode startLocation; EvGeocode endLocation], s2.
    split; [| now split]. apply Hstop; [congruence | reflexivity].
  - exists (failed could_not_find), [EvGeocode startLocation; EvGeocode endLocation], s2.
    split; [| now split]. apply Hstop; [congruence | reflexivity].
Qed.

End Request.

Lemma list_sum_bound (n : nat) (l : list nat) :
  Forall (fun x => (x <= n)%nat) l -> (list_sum l <= n * List.length l)%nat.
Proof.
  induction 1 as [| x l Hx Hl IH]; unfold list_sum in *;
    cbn [fold_right List.length]; lia.
Qed.

Section RequestFacts.

Variable env : Env.
Variable Qsqrt : Q -> Q.

Lemma route_events (start end_ : LatLon) i l results revs :
  mapped (called (fun profile _ => getRouteFromORS env Qsqrt start end_ profile))
         i l results revs ->
  revs = map (fun profile => EvRoute profile start end_) l
  /\ List.length results = List.length l.
Proof.
  induction 1 as [| i a l b bs e rest HR Hm [IH1 IH2]]; [now split |].
  apply getRouteFromORS_called in HR. destruct HR as [-> _].
  cbn [map app List.length]. now rewrite IH1, IH2.
Qed.

Lemma evaluation_facts i validRoutes evaluated eevs :
  mapped (called (evaluateRoute env)) i validRoutes evaluated eevs ->
  List.length evaluated = List.length validRoutes
  /\ map id evaluated = map route_id (seq i (List.length validRoutes))
  /\ filter is_geocode eevs = []
  /\ filter is_route eevs = []
  /\ List.length (filter is_air_quality eevs)
     = list_sum (map (fun r => List.length (aqiPoints r)) evaluated)
  /\ Forall (fun r => (List.length (aqiPoints r) <= 19)%nat) evaluated.
Proof.
  intros H. split; [eapply mapped_length; exact H |].
  split; [eapply mapped_index; [| exact H];
          intros a j b e HR; now apply evaluateRoute_called in HR |].
  split; [eapply mapped_filter_nil; [| exact H];
          intros a j b e HR; now apply evaluateRoute_called in HR |].
  split; [eapply mapped_filter_nil; [| exact H];
          intros a j b e HR; now apply evaluateRoute_called in HR |].
  split.
  - eapply mapped_count; [| exact H].
    intros a j b e HR. apply evaluateRoute_called in HR.
    destruct HR as (_ & _ & _ & _ & _ & Haq & _). rewrite Haq. apply length_map.
  - eapply mapped_Forall; [| exact H].
    intros a j b e _ HR. apply evaluateRoute_called in HR.
    destruct HR as (_ & _ & _ & _ & Hlen & _). rewrite Hlen.
    apply sample_count_bound.
Qed.

Lemma ranked_facts (evaluated : list RouteData) :
  NoDup (map id evaluated) ->
  NoDup (map id (rank evaluated))
  /\ Permutation (map id evaluated) (map id (rank evaluated))
  /\ list_sum (map (fun r => List.length (aqiPoints r)) (rank evaluated))
     = list_sum (map (fun r => List.length (aqiPoints r)) evaluated)
  /\ List.length (rank evaluated) = List.length evaluated.
Proof.
  intros Hnodup.
  pose proof (sort_permutation byAvgAqi evaluated) as Hperm.
  fold (rank evaluated) in Hperm.
  split; [eapply Permutation_NoDup; [apply Permutation_map; exact Hperm | exact Hnodup] |].
  split; [apply Permutation_map; exact Hperm |].
  split; [symmetry; apply list_sum_permutation, Permutation_map; exact Hperm |].
  symmetry. now apply Permutation_length.
Qed.

End RequestFacts.

(** ** X1: how a planning request ends *)

(** X1: whatever the services answer, [calculateRoutes] settles with
    [loading] false and in exactly one of three ways: the error "Could not find
    one or both locations" and no routes, when an endpoint is not found; the
    error "No routes found" and no routes, when both are found; or no error
    and a list of one or two routes, with distinct identifiers, holding one
    sample per sampler call made. *)
Theorem calculateRoutes_outcome
        (env : Env) (Qsqrt : Q -> Q) (startLocation endLocation : string)
        (s : State) :
  let run := calculateRoutes env Qsqrt startLocation endLocation in
  let start := fst (geocodeLocation env startLocation s) in
  let end_ := fst (geocodeLocation env endLocation
                                   (snd (geocodeLocation env startLocation s))) in
  let hook := fst (run s) in
  loading hook = false
  /\ ((routes hook = None /\ error hook = Some could_not_find
       /\ (start = None \/ end_ = None))
      \/ (routes hook = None /\ error hook = Some no_routes_found
          /\ start <> None /\ end_ <> None)
      \/ (exists l,
            routes hook = Some l /\ error hook = None
            /\ start <> None /\ end_ <> None
            /\ (1 <= List.length l <= 2)%nat
            /\ NoDup (map id l)
            /\ samplerCalls run s
               = list_sum (map (fun r => List.length (aqiPoints r)) l))).
Proof.
  cbv zeta.
  destruct (calculateRoutes_structure env Qsqrt startLocation endLocation s)
    as (hook & evs & s' & Hrun & Hcases).
  unfold samplerCalls.
  rewrite (runs_emitted _ _ _ _ _ Hrun), (runs_result _ _ _ _ _ Hrun).
  destruct (fst (geocodeLocation env startLocation s)) as [start |];
    [destruct (fst (geocodeLocation env endLocation
                      (snd (geocodeLocation env startLocation s)))) as [end_ |] |].
  - destruct Hcases as (results & revs & Hm & Hcases).
    destruct (route_events env Qsqrt start end_ _ _ _ _ Hm) as [Hrevs Hlen].
    pose proof (nonNull_length results) as Hvalid. rewrite Hlen in Hvalid.
    cbn [routeProfiles List.length] in Hvalid.
    destruct (nonNull results) as [| route validRoutes].
    + destruct Hcases as [-> ->]. split; [reflexivity |].
      right. left. repeat split; discriminate.
    + destruct Hcases as (evaluated & eevs & Hm' & -> & ->).
      destruct (evaluation_facts env _ _ _ _ Hm')
        as (Hlen' & Hids & _ & _ & Hcalls & _).
      assert (Hnodup : NoDup (map id evaluated)).
      { rewrite Hids. apply route_ids_distinct. }
      destruct (ranked_facts evaluated Hnodup) as (Hnd & _ & Hsum & Hrl).
      split; [reflexivity |]. right. right.
      exists (rank evaluated).
      split; [reflexivity |]. split; [reflexivity |].
      split; [discriminate |]. split; [discriminate |].
      split; [rewrite Hrl, Hlen'; cbn [List.length] in *; lia |].
      split; [exact Hnd |].
      rewrite Hsum, <- Hcalls, Hrevs.
      cbn [routeProfiles map app filter is_air_quality]. reflexivity.
  - destruct Hcases as [-> ->]. split; [reflexivity |]. left. now auto.
  - destruct Hcases as [-> ->]. split; [reflexivity |]. left. now auto.
Qed.

(** ** X2: the requests a planning request makes *)

(** X2: whatever the services answer, [calculateRoutes] first makes the two
    geocoding requests, origin then destination, and no other geocoding
    request; it asks for routes only when both endpoints are found, then once
    per profile, driving before cycling; and it calls the sampler at most 38
    times. *)
Theorem calculateRoutes_requests
        (env : Env) (Qsqrt : Q -> Q) (startLocation endLocation : string)
        (s : State) :
  let run := calculateRoutes env Qsqrt startLocation endLocation in
  firstn 2 (emitted run s) = [EvGeocode startLocation; EvGeocode endLocation]
  /\ filter is_geocode (emitted run s)
     = [EvGeocode startLocation; EvGeocode endLocation]
  /\ filter is_route (emitted run s)
     = match fst (geocodeLocation env startLocation s),
             fst (geocodeLocation env endLocation
                                  (snd (geocodeLocation env startLocation s))) with
       | Some start, Some end_ =>
           [EvRoute "driving-car" start end_; EvRoute "cycling-regular" start end_]
       | _, _ => []
       end
  /\ (samplerCalls run s <= 38)%nat.
Proof.
  cbv zeta.
  destruct (calculateRoutes_structure env Qsqrt startLocation endLocation s)
    as (hook & evs & s' & Hrun & Hcases).
  unfold samplerCalls. rewrite (runs_emitted _ _ _ _ _ Hrun).
  destruct (fst (geocodeLocation env startLocation s)) as [start |];
    [destruct (fst (geocodeLocation env endLocation
                      (snd (geocodeLocation env startLocation s)))) as [end_ |] |].
  - destruct Hcases as (results & revs & Hm & Hcases).
    destruct (route_events env Qsqrt start end_ _ _ _ _ Hm) as [Hrevs Hlen].
    pose proof (nonNull_length results) as Hvalid. rewrite Hlen in Hvalid.
    cbn [routeProfiles List.length] in Hvalid.
    destruct (nonNull results) as [| route validRoutes].
    + destruct Hcases as [_ ->]. rewrite Hrevs.
      cbn. repeat split; lia.
    + destruct Hcases as (evaluated & eevs & Hm' & _ & ->).
      destruct (evaluation_facts env _ _ _ _ Hm')
        as (Hlen' & _ & Hgeo & Hroute & Hcalls & Hbound).
      rewrite Hrevs. cbn [routeProfiles map app firstn].
      cbn [filter is_geocode is_route is_air_quality].
      rewrite Hgeo, Hroute, Hcalls.
      split; [reflexivity |]. split; [reflexivity |]. split; [reflexivity |].
      pose proof (list_sum_bound 19 _
                    (proj2 (Forall_map _ _ _) Hbound)) as Hsum.
      rewrite length_map, Hlen' in Hsum. cbn [List.length] in *. lia.
  - destruct Hcases as [_ ->]. cbn. repeat split; lia.
  - destruct Hcases as [_ ->]. cbn. repeat split; lia.
Qed.

(** ** X3: when a plan is produced *)

(** X3: if both endpoints are found and some profile never gets an answer
    without features, [calculateRoutes] ends with no error and a non-empty
    list of routes whose identifiers are [route-0], [route-1], ... in some
    order; when their means are numbers the list is in ascending order of
    mean. *)
Theorem calculateRoutes_success
        (env : Env) (Qsqrt : Q -> Q) (startLocation endLocation : string)
        (s : State) (start end_ : LatLon) (profile : string)
        (Hstart : fst (geocodeLocation env startLocation s) = Some start)
        (Hend : fst (geocodeLocation env endLocation
                                     (snd (geocodeLocation env startLocation s)))
                = Some end_)
        (Hprofile : In profile routeProfiles)
        (Hroute : forall t,
            ors_no_feature (openrouteservice env profile start end_ t) = false) :
  exists l,
    fst (calculateRoutes env Qsqrt startLocation endLocation s)
    = mkHook (Some l) false None
    /\ l <> []
    /\ Permutation (map id l) (map route_id (seq 0 (List.length l)))
    /\ (Forall numeric l ->
        forall i j a b, (i < j)%nat ->
          nth_error l i = Some a -> nth_error l j = Some b ->
          le (avgAqi a) (avgAqi b)).
Proof.
  destruct (calculateRoutes_structure env Qsqrt startLocation endLocation s)
    as (hook & evs & s' & Hrun & Hcases).
  rewrite (runs_result _ _ _ _ _ Hrun). rewrite Hstart, Hend in Hcases.
  destruct Hcases as (results & revs & Hm & Hcases).
  destruct (mapped_In _ _ _ _ _ profile Hm Hprofile) as (j & r & e & Hr & Hcalled).
  apply getRouteFromORS_called in Hcalled.
  destruct Hcalled as (_ & t & Hnull & _).
  destruct r as [route |];
    [| rewrite Hroute in Hnull; destruct Hnull as [Hnull _];
       discriminate (Hnull eq_refl)].
  apply nonNull_In in Hr.
  destruct (nonNull results) as [| first validRoutes]; [destruct Hr |].
  destruct Hcases as (evaluated & eevs & Hm' & -> & _).
  destruct (evaluation_facts env _ _ _ _ Hm') as (Hlen & Hids & _).
  pose proof (sort_permutation byAvgAqi evaluated) as Hperm.
  fold (rank evaluated) in Hperm.
  exists (rank evaluated). split; [reflexivity |]. split; [| split].
  - intros Hnil. apply Permutation_length in Hperm.
    rewrite Hnil, Hlen in Hperm. discriminate Hperm.
  - rewrite <- (Permutation_length Hperm), Hlen, <- Hids.
    apply Permutation_sym, Permutation_map. exact Hperm.
  - intros Hnumeric. apply sorted_by_index, rank_strongly_sorted.
    eapply Permutation_Forall; [apply Permutation_sym; exact Hperm | exact Hnumeric].
Qed.

Lemma calculateRoutes_success_witness :
  fst (geocodeLocation env_polluted "Bangalore, India" initial) = Some bangalore
  /\ In "driving-car"%string routeProfiles
  /\ exists l,
       fst (calculateRoutes env_polluted Qsqrt_up "Bangalore, India" "Mysore, India"
                            initial)
       = mkHook (Some l) false None
       /\ l <> [].
Proof.
  split; [reflexivity |]. split; [now left |].
  destruct (calculateRoutes_success env_polluted Qsqrt_up "Bangalore, India"%string
              "Mysore, India"%string initial bangalore mysore "driving-car"%string
              eq_refl eq_refl (or_introl eq_refl) (fun _ => eq_refl))
    as (l & Hhook & Hne & _).
  exists l. split; [exact Hhook | exact Hne].
Defined.

(** ** X4: planning while the route source is down *)

Lemma fallback_samples (Qsqrt : Q -> Q) (start end_ : LatLon) :
  r_coordinates (fallbackRoute Qsqrt start end_) = straight_line start end_
  /\ ceil_div (List.length (r_coordinates (fallbackRoute Qsqrt start end_)))
              (sampleInterval_of (r_coordinates (fallbackRoute Qsqrt start end_)))
     = 3%nat.
Proof. split; reflexivity. Qed.

(** X4: if both endpoints are found and every routing call raises,
    [calculateRoutes] still ends with a plan: exactly two routes, each the
    straight line origin, midpoint, destination with duration 3600 and three
    samples, one per point; the sampler is called six times. *)
Theorem calculateRoutes_routing_down
        (env : Env) (Qsqrt : Q -> Q) (startLocation endLocation : string)
        (s : State) (start end_ : LatLon)
        (Hstart : fst (geocodeLocation env startLocation s) = Some start)
        (Hend : fst (geocodeLocation env endLocation
                                     (snd (geocodeLocation env startLocation s)))
                = Some end_)
        (Hdown : forall profile t,
            ors_raises (openrouteservice env profile start end_ t) = true) :
  let run := calculateRoutes env Qsqrt startLocation endLocation in
  exists l,
    fst (run s) = mkHook (Some l) false None
    /\ List.length l = 2%nat
    /\ Forall (fun r => coordinates r = straight_line start end_
                        /\ duration r = Num 3600
                        /\ map (fun p => (lat p, lon p)) (aqiPoints r)
                           = straight_line start end_) l
    /\ samplerCalls run s = 6%nat.
Proof.
  cbv zeta.
  destruct (calculateRoutes_structure env Qsqrt startLocation endLocation s)
    as (hook & evs & s' & Hrun & Hcases).
  unfold samplerCalls.
  rewrite (runs_emitted _ _ _ _ _ Hrun), (runs_result _ _ _ _ _ Hrun).
  rewrite Hstart, Hend in Hcases.
  destruct Hcases as (results & revs & Hm & Hcases).
  destruct (route_events env Qsqrt start end_ _ _ _ _ Hm) as [Hrevs Hlen].
  assert (Hall : Forall (fun r => r = Some (fallbackRoute Qsqrt start end_)) results).
  { eapply mapped_Forall; [| exact Hm].
    intros a j b e _ HR. apply getRouteFromORS_called in HR.
    destruct HR as (_ & t & _ & Hraise). apply Hraise, Hdown. }
  destruct results as [| r1 [| r2 [| r3 results]]]; try discriminate Hlen.
  apply Forall_cons_iff in Hall. destruct Hall as [-> Hall].
  apply Forall_cons_iff in Hall. destruct Hall as [-> _].
  cbn [nonNull] in Hcases.
  destruct Hcases as (evaluated & eevs & Hm' & -> & ->).
  destruct (evaluation_facts env _ _ _ _ Hm') as (Hlen' & _ & _ & _ & Hcalls & _).
  assert (Hroutes :
            Forall (fun r => coordinates r = straight_line start end_
                             /\ duration r = Num 3600
                             /\ map (fun p => (lat p, lon p)) (aqiPoints r)
                                = straight_line start end_) evaluated).
  { eapply mapped_Forall; [| exact Hm'].
    intros a j b e Hin (st & -> & _).
    assert (a = fallbackRoute Qsqrt start end_) as ->.
    { destruct Hin as [<- | [<- | []]]; reflexivity. }
    destruct (evaluateRoute_runs env (fallbackRoute Qsqrt start end_) j st)
      as (pts & evs & s'' & Hrun' & Hpts & _ & _ & _ & Hnth).
    rewrite (runs_result _ _ _ _ _ Hrun'). cbn [coordinates duration aqiPoints].
    split; [reflexivity |]. split; [reflexivity |].
    rewrite (proj2 (fallback_samples Qsqrt start end_)) in Hpts.
    destruct pts as [| p0 [| p1 [| p2 [| p3 pts]]]]; try discriminate Hpts.
    pose proof (Hnth 0%nat p0 eq_refl) as H0.
    pose proof (Hnth 1%nat p1 eq_refl) as H1.
    pose proof (Hnth 2%nat p2 eq_refl) as H2.
    cbn in H0, H1, H2. cbn [map].
    injection H0 as <- <-. injection H1 as <- <-. injection H2 as <- <-.
    reflexivity. }
  assert (Hthree : Forall (fun r => List.length (aqiPoints r) = 3%nat) evaluated).
  { eapply Forall_impl; [| exact Hroutes].
    intros r (_ & _ & Hmap). rewrite <- (length_map (fun p => (lat p, lon p))), Hmap.
    reflexivity. }
  pose proof (sort_permutation byAvgAqi evaluated) as Hperm.
  fold (rank evaluated) in Hperm.
  exists (rank evaluated). split; [reflexivity |].
  split; [rewrite <- (Permutation_length Hperm); exact Hlen' |].
  split; [eapply Permutation_Forall; [exact Hperm | exact Hroutes] |].
  rewrite Hrevs. cbn [routeProfiles map app filter is_air_quality].
  rewrite Hcalls.
  destruct evaluated as [| e1 [| e2 [| e3 evaluated]]]; try discriminate Hlen'.
  apply Forall_cons_iff in Hthree. destruct Hthree as [H1 Hthree].
  apply Forall_cons_iff in Hthree. destruct Hthree as [H2 _].
  cbn [map list_sum fold_right]. rewrite H1, H2. reflexivity.
Qed.

Lemma calculateRoutes_routing_down_witness :
  fst (geocodeLocation env_polluted "Bangalore, India" initial) = Some bangalore
  /\ (forall profile t,
         ors_raises (openrouteservice env_polluted profile bangalore mysore t) = true)
  /\ samplerCalls (calculateRoutes env_polluted Qsqrt_up "Bangalore, India"
                                   "Mysore, India") initial = 6%nat.
Proof.
  split; [reflexivity |]. split; [reflexivity |].
  destruct (calculateRoutes_routing_down env_polluted Qsqrt_up
              "Bangalore, India"%string "Mysore, India"%string initial
              bangalore mysore eq_refl eq_refl (fun _ _ => eq_refl))
    as (l & _ & _ & _ & Hcalls).
  exact Hcalls.
Defined.

(** ** X5: how the samples cover the path *)

Lemma sample_count_lower (L : nat) :
  (Nat.min L 10 <= ceil_div L (Nat.max 1 (L / 10)))%nat.
Proof.
  pose proof (Nat.div_mod_eq L 10) as E.
  pose proof (Nat.mod_upper_bound L 10) as U.
  pose proof (ceil_div_spec L (Nat.max 1 (L / 10))) as Hspec.
  destruct (Nat.eq_dec (L / 10) 0) as [Hq | Hq].
  - rewrite Hq in *. cbn [Nat.max] in *. lia.
  - replace (Nat.max 1 (L / 10)) with (L / 10)%nat in * by lia. nia.
Qed.

(** X5: for every path, of length [L], [calculateAQIAlongRoute] keeps at
    least [min L 10] samples; when [L < 20] it samples every coordinate of the
    path, in order; and in general every index of the path lies less than one
    stride after a sampled index. *)
Theorem sampling_coverage
        (env : Env) (coordinates : list (number * number)) (s : State) :
  let pts := fst (calculateAQIAlongRoute env coordinates s) in
  let stride := sampleInterval_of coordinates in
  (Nat.min (List.length coordinates) 10 <= List.length pts)%nat
  /\ ((List.length coordinates < 20)%nat ->
      map (fun p => (lat p, lon p)) pts = coordinates)
  /\ forall j, (j < List.length coordinates)%nat ->
       exists k p, nth_error pts k = Some p
                   /\ (k * stride <= j < k * stride + stride)%nat.
Proof.
  cbv zeta.
  destruct (calculateAQIAlongRoute_runs env coordinates s)
    as (pts & evs & s' & Hrun & Hlen & _ & _ & _ & Hnth).
  rewrite (runs_result _ _ _ _ _ Hrun).
  pose proof (stride_positive coordinates) as Hpos.
  pose proof (ceil_div_spec (List.length coordinates)
                            (sampleInterval_of coordinates) Hpos) as Hspec.
  rewrite <- Hlen in Hspec.
  split; [| split].
  - rewrite Hlen. apply sample_count_lower.
  - intros Hshort.
    assert (Hone : sampleInterval_of coordinates = 1%nat).
    { unfold sampleInterval_of.
      assert (List.length coordinates / 10 < 2)%nat
        by (apply Nat.Div0.div_lt_upper_bound; lia).
      lia. }
    rewrite Hone in *. apply nth_error_ext. intros n.
    rewrite nth_error_map.
    destruct (nth_error pts n) as [p |] eqn:Hp; cbn [option_map].
    + apply Hnth in Hp. rewrite Nat.mul_1_r in Hp. now rewrite Hp.
    + apply nth_error_None in Hp. symmetry. apply nth_error_None. lia.
  - intros j Hj.
    set (stride := sampleInterval_of coordinates) in *.
    assert (Hk : (j / stride < List.length pts)%nat).
    { apply Nat.Div0.div_lt_upper_bound. lia. }
    destruct (nth_error pts (j / stride)) as [p |] eqn:Hp;
      [| apply nth_error_None in Hp; lia].
    exists (j / stride)%nat, p. split; [exact Hp |].
    pose proof (Nat.div_mod_eq j stride) as E.
    pose proof (Nat.mod_upper_bound j stride) as U. lia.
Qed.

(** ** X6: what the route source returns *)

(** X6: whatever the routing service answers, [getRouteFromORS] makes exactly
    one routing request and nothing else; it returns [null] exactly when the
    answer carries no feature; and from a readable first feature it returns
    the service's distance and duration and the service's path, point for
    point, with every [lon, lat] pair turned into [lat, lon]. *)
Theorem getRouteFromORS_answer
        (env : Env) (Qsqrt : Q -> Q) (start end_ : LatLon) (profile : string)
        (s : State) :
  let answer := openrouteservice env profile start end_ (clock s) in
  let run := getRouteFromORS env Qsqrt start end_ profile in
  emitted run s = [EvRoute profile start end_]
  /\ (fst (run s) = None <-> ors_no_feature answer = true)
  /\ forall feature rest coords dist dur segs,
       answer = ORSJson (Some (feature :: rest)) ->
       geometry_coordinates feature = Some coords ->
       segments feature = Some ((dist, dur) :: segs) ->
       exists r,
         fst (run s) = Some r
         /\ r_distance r = dist /\ r_duration r = dur
         /\ List.length (r_coordinates r) = List.length coords
         /\ forall i lon lat,
              nth_error coords i = Some (lon, lat) ->
              nth_error (r_coordinates r) i = Some (lat, lon).
Proof.
  cbv zeta.
  destruct (getRouteFromORS_runs env Qsqrt start end_ profile s)
    as (r & Hrun & Hnull & _).
  rewrite (runs_emitted _ _ _ _ _ Hrun), (runs_result _ _ _ _ _ Hrun).
  split; [reflexivity |]. split; [exact Hnull |].
  intros feature rest coords dist dur segs Hanswer Hgeo Hseg.
  destruct Hrun as [Hrun _]. revert Hrun.
  unfold getRouteFromORS, bind, call. rewrite Hanswer, Hgeo, Hseg.
  unfold ret. intros [= <-].
  eexists. split; [reflexivity |]. cbn [r_distance r_duration r_coordinates].
  split; [reflexivity |]. split; [reflexivity |].
  split; [apply length_map |].
  intros i lon lat Hi. rewrite nth_error_map, Hi. reflexivity.
Qed.

(** ** X7: the requests of one sampler call *)

Lemma skipn_log (l evs : list Event) : skipn (List.length l) (l ++ evs) = evs.
Proof. now rewrite skipn_app, Nat.sub_diag, skipn_all. Qed.

(** X7: every call of [fetchAQIData] makes exactly one request to the
    air-quality service, for the coordinate it is given; it draws
    [Math.random] once after it when the answer arrives without a pm25
    reading, and not at all when the lookup fails or a reading is found. *)
Theorem sampler_requests (env : Env) (lat lon : number) (s : State) :
  emitted (fetchAQIData env lat lon) s
  = match openaq env lat lon (clock s) with
    | AQRaises => [EvAirQuality lat lon]
    | answer =>
        match pm25_reading answer with
        | Some _ => [EvAirQuality lat lon]
        | None => [EvAirQuality lat lon; EvRandom]
        end
    end.
Proof.
  unfold emitted, fetchAQIData, simulatedAQI, bind, call, ret.
  destruct (openaq env lat lon (clock s)) as [| [[| [[| m ms] |] stations] |]];
    cbn [snd log pm25_reading option_map];
    try (rewrite <- app_assoc; apply skipn_log); try apply skipn_log.
  destruct (find is_pm25 (m :: ms)) as [pm25 |]; cbn [snd log option_map].
  - apply skipn_log.
  - rewrite <- app_assoc. apply skipn_log.
Qed.

(** ** X8: the mean of a route no station reports for *)

Lemma fetchAQIData_simulated (env : Env) (lat lon : number) (s : State) :
  random_in_range env ->
  pm25_reading (openaq env lat lon (clock s)) = None ->
  exists q, fst (fetchAQIData env lat lon s) = Num q /\ 50 <= q /\ q <= 150.
Proof.
  intros Hrandom.
  assert (Hsim : forall s1, exists q,
             fst (simulatedAQI env s1) = Num q /\ 50 <= q /\ q <= 150).
  { intros s1. exists (50 + random env (clock s1) * 100). split; [reflexivity |].
    destruct (Hrandom (clock s1)). split; lra. }
  unfold fetchAQIData, bind, call. cbn [fst snd clock].
  destruct (openaq env lat lon (clock s)) as [| [[| [[| m ms] |] stations] |]];
    cbn [pm25_reading option_map]; intros Hnone; try apply Hsim.
  - exists 75. split; [reflexivity | split; lra].
  - destruct (find is_pm25 (m :: ms)); [discriminate Hnone | apply Hsim].
Qed.

Lemma sampleFrom_step (env : Env) fuel coordinates stride i coord (s : State) :
  nth_error coordinates i = Some coord ->
  fst (sampleFrom env (S fuel) coordinates stride i s)
  = mkAQIData (fst coord) (snd coord)
              (fst (fetchAQIData env (fst coord) (snd coord) s))
    :: fst (sampleFrom env fuel coordinates stride (i + stride)
                       (snd (fetchAQIData env (fst coord) (snd coord) s))).
Proof.
  intros Hi. cbn [sampleFrom]. rewrite Hi. unfold bind, ret.
  destruct (fetchAQIData env (fst coord) (snd coord) s) as [v s1].
  cbn [fst snd].
  now destruct (sampleFrom env fuel coordinates stride (i + stride) s1).
Qed.

Lemma sampleFrom_simulated (env : Env) coordinates stride :
  random_in_range env ->
  (forall lat lon t, pm25_reading (openaq env lat lon t) = None) ->
  forall fuel i s,
    Forall (fun p => exists q, aqi p = Num q /\ 50 <= q /\ q <= 150)
           (fst (sampleFrom env fuel coordinates stride i s)).
Proof.
  intros Hrandom Hnone. induction fuel as [| fuel IH]; intros i s.
  - constructor.
  - destruct (nth_error coordinates i) as [coord |] eqn:Hi.
    + rewrite (sampleFrom_step _ _ _ _ _ _ _ Hi). constructor; [| apply IH].
      cbn [aqi]. apply fetchAQIData_simulated; [exact Hrandom | apply Hnone].
    + cbn [sampleFrom]. rewrite Hi. constructor.
Qed.

Lemma finite_samples (P : Q -> Prop) (pts : list AQIData) :
  Forall (fun p => exists q, aqi p = Num q /\ P q) pts ->
  exists qs, map aqi pts = map Num qs /\ Forall P qs.
Proof.
  induction 1 as [| p pts (q & Hq & HP) _ (qs & Hqs & HPs)].
  - exists []. split; [reflexivity | constructor].
  - exists (q :: qs). split; [cbn [map]; now rewrite Hq, Hqs | now constructor].
Qed.

Lemma Qsum_bounds (lo hi : Q) (qs : list Q) (acc : Q) :
  Forall (fun q => lo <= q /\ q <= hi) qs ->
  acc + lo * inject_Z (Z.of_nat (List.length qs)) <= fold_left Qplus qs acc
  /\ fold_left Qplus qs acc <= acc + hi * inject_Z (Z.of_nat (List.length qs)).
Proof.
  intros H. revert acc. induction H as [| q qs [Hlo Hhi] _ IH]; intros acc.
  - cbn [fold_left List.length Z.of_nat]. change (inject_Z 0) with 0.
    split; lra.
  - cbn [fold_left List.length]. rewrite Nat2Z.inj_succ, <- Z.add_1_r, inject_Z_plus.
    destruct (IH (acc + q)) as [IHlo IHhi]. change (inject_Z 1) with 1.
    split; lra.
Qed.

(** X8: if [Math.random] answers in [0, 1) and the air-quality service never
    reports a pm25 reading, the evaluation of every route with a non-empty
    path gives a mean that is a number from 50 to 150, both included. *)
Theorem mean_without_readings
        (env : Env) (route : Route) (index : nat) (s : State)
        (Hrandom : random_in_range env)
        (Hnone : forall lat lon t, pm25_reading (openaq env lat lon t) = None)
        (Hpath : r_coordinates route <> []) :
  exists m, avgAqi (fst (evaluateRoute env route index s)) = Num m
            /\ 50 <= m /\ m <= 150.
Proof.
  destruct (evaluateRoute_runs env route index s)
    as (pts & evs & s' & Hrun & Hlen & _).
  pose proof (sampleFrom_simulated env (r_coordinates route)
                (sampleInterval_of (r_coordinates route)) Hrandom Hnone
                (List.length (r_coordinates route)) 0%nat s) as Hvalues.
  fold (calculateAQIAlongRoute env (r_coordinates route)) in Hvalues.
  assert (Hpts : pts = fst (calculateAQIAlongRoute env (r_coordinates route) s)).
  { destruct Hrun as [Hrun _]. unfold evaluateRoute, bind, ret in Hrun.
    destruct (calculateAQIAlongRoute env (r_coordinates route) s) as [pts' s1].
    now injection Hrun as _ <- _. }
  rewrite <- Hpts in Hvalues.
  rewrite (runs_result _ _ _ _ _ Hrun). cbn [avgAqi].
  destruct (finite_samples _ _ Hvalues) as (qs & Hqs & Hrange).
  assert (Hcount : List.length qs = List.length pts).
  { rewrite <- (length_map Num qs), <- Hqs. apply length_map. }
  assert (Hone : (1 <= List.length pts)%nat).
  { rewrite Hlen. rewrite ceil_div_step; [lia | apply stride_positive |].
    destruct (r_coordinates route); [contradiction | cbn; lia]. }
  rewrite (sumAqi_finite pts qs Hqs), div_by_length by exact Hone.
  eexists. split; [reflexivity |].
  destruct (Qsum_bounds 50 150 qs 0 Hrange) as [Hlo Hhi].
  rewrite Hcount in Hlo, Hhi.
  assert (Hn : 0 < inject_Z (Z.of_nat (List.length pts))).
  { change 0 with (inject_Z 0). rewrite <- Zlt_Qlt. lia. }
  split.
  - apply Qle_shift_div_l; [exact Hn | lra].
  - apply Qle_shift_div_r; [exact Hn | lra].
Qed.

Lemma mean_without_readings_witness :
  random_in_range env_no_station
  /\ meridian 25 <> []
  /\ exists m,
       avgAqi (fst (evaluateRoute env_no_station
                                  (mkRoute (meridian 25) (Num 1) (Num 1)) 0 initial))
       = Num m
       /\ 50 <= m /\ m <= 150.
Proof.
  assert (H : random_in_range env_no_station).
  { apply random_half_in_range. reflexivity. }
  assert (Hpath : meridian 25 <> []) by discriminate.
  split; [exact H |]. split; [exact Hpath |].
  exact (mean_without_readings env_no_station
           (mkRoute (meridian 25) (Num 1) (Num 1)) 0 initial H
           (fun _ _ _ => eq_refl) Hpath).
Defined.

(** ** X9: ranking a ranked list *)

Lemma le_not_after (x y : number) : le x y -> gtb (sub x y) (Num 0) = false.
Proof.
  unfold le, gtb, sub. destruct x, y; cbn; try congruence.
  rewrite Qle_bool_iff, Qltb_false_iff. intros H. lra.
Qed.

Lemma sort_sorted (l : list RouteData) :
  StronglySorted cleaner_or_equal l -> sort byAvgAqi l = l.
Proof.
  induction 1 as [| a l Hs IH Ha]; [reflexivity |].
  cbn [sort]. rewrite IH. destruct l as [| b l]; [reflexivity |].
  cbn [insert]. unfold goes_after, byAvgAqi.
  apply Forall_inv in Ha. now rewrite (le_not_after _ _ Ha).
Qed.

(** X9: the sort of [calculateRoutes] leaves a list that is already in
    ascending order of mean as it is; so, for routes with numeric means,
    ranking twice is ranking once. *)
Theorem rank_idempotent (routesWithAQI : list RouteData)
        (Hnumeric : Forall numeric routesWithAQI) :
  rank (rank routesWithAQI) = rank routesWithAQI
  /\ (StronglySorted cleaner_or_equal routesWithAQI ->
      rank routesWithAQI = routesWithAQI).
Proof.
  split.
  - apply sort_sorted, rank_strongly_sorted. exact Hnumeric.
  - apply sort_sorted.
Qed.

Lemma rank_idempotent_witness :
  Forall numeric example_routes
  /\ rank (rank example_routes) = rank example_routes.
Proof.
  assert (H : Forall numeric example_routes) by repeat constructor.
  split; [exact H |].
  exact (proj1 (rank_idempotent example_routes H)).
Defined.

(** ** X10: the route [getCleanestRoute] picks *)

Lemma ltb_le_trans (x y z : number) : ltb x y = true -> le y z -> ltb x z = true.
Proof.
  unfold le. destruct x, y, z; cbn; try congruence.
  rewrite !Qltb_true_iff, Qle_bool_iff. intros. lra.
Qed.

Lemma ltb_trans (x y z : number) :
  ltb x y = true -> ltb y z = true -> ltb x z = true.
Proof. intros Hxy Hyz. eapply ltb_le_trans; [exact Hxy | now apply ltb_le]. Qed.

Lemma fold_left_snoc {A B : Type} (f : A -> B -> A) (l : list B) (b : B) (a : A) :
  fold_left f (l ++ [b]) a = f (fold_left f l a) b.
Proof. now rewrite fold_left_app. Qed.

Lemma fold_cleaner_first_minimum (l : list RouteData) (a : RouteData) :
  Forall numeric (a :: l) ->
  exists before after,
    a :: l = before ++ fold_left cleaner l a :: after
    /\ Forall (strictly_cleaner (fold_left cleaner l a)) before
    /\ Forall (cleaner_or_equal (fold_left cleaner l a)) after.
Proof.
  induction l as [| b l IH] using rev_ind; intros Hnum.
  - exists [], []. repeat split; constructor.
  - rewrite app_comm_cons in Hnum. apply Forall_app in Hnum.
    destruct Hnum as [Hnum Hb]. apply Forall_inv in Hb.
    destruct (IH Hnum) as (before & after & Hsplit & Hbefore & Hafter).
    rewrite fold_left_snoc. set (c := fold_left cleaner l a) in *.
    assert (Hc : numeric c).
    { destruct (fold_cleaner_minimum l a) as [Hin _].
      - now apply Forall_inv in Hnum.
      - now apply Forall_inv_tail in Hnum.
      - rewrite Forall_forall in Hnum. now apply Hnum. }
    unfold cleaner. destruct (ltb (avgAqi b) (avgAqi c)) eqn:Hlt.
    + exists (a :: l), []. split; [now rewrite app_comm_cons |].
      split; [| constructor]. rewrite Hsplit. apply Forall_app. split.
      * eapply Forall_impl; [| exact Hbefore].
        intros r Hr. unfold strictly_cleaner in *. eapply ltb_trans; eassumption.
      * constructor; [exact Hlt |].
        eapply Forall_impl; [| exact Hafter].
        intros r Hr. unfold strictly_cleaner. eapply ltb_le_trans; eassumption.
    + exists before, (after ++ [b]). split; [| split].
      * rewrite app_comm_cons, Hsplit, <- app_assoc. reflexivity.
      * exact Hbefore.
      * apply Forall_app. split; [exact Hafter |].
        constructor; [| constructor]. now apply not_ltb_le.
Qed.

(** X10: [getCleanestRoute] returns nothing exactly when there are no routes
    (none computed yet, or an empty list); among routes with numeric means it
    returns the first route of minimum mean: every route before it in the list
    has a strictly higher mean, every route after it a mean at least as
    high. *)
Theorem getCleanestRoute_first_minimum (plan : list RouteData)
        (Hnumeric : Forall numeric plan) :
  getCleanestRoute None = None
  /\ (getCleanestRoute (Some plan) = None <-> plan = [])
  /\ forall cleanest, getCleanestRoute (Some plan) = Some cleanest ->
       exists before after,
         plan = before ++ cleanest :: after
         /\ Forall (strictly_cleaner cleanest) before
         /\ Forall (cleaner_or_equal cleanest) after.
Proof.
  split; [reflexivity |]. destruct plan as [| a l].
  - split; [now split | discriminate].
  - rewrite getCleanestRoute_cons. split; [split; discriminate |].
    intros cleanest [= <-]. now apply fold_cleaner_first_minimum.
Qed.

Lemma getCleanestRoute_first_minimum_witness :
  Forall numeric example_routes
  /\ exists before after,
       example_routes = before ++ routeWithMean 1 60 :: after
       /\ Forall (strictly_cleaner (routeWithMean 1 60)) before
       /\ Forall (cleaner_or_equal (routeWithMean 1 60)) after.
Proof.
  assert (H : Forall numeric example_routes) by repeat constructor.
  split; [exact H |].
  exact (proj2 (proj2 (getCleanestRoute_first_minimum example_routes H))
               (routeWithMean 1 60) eq_refl).
Defined.

(** ** X11: one recommended route *)

Lemma fold_cleaner_In (l : list RouteData) (a : RouteData) :
  In (fold_left cleaner l a) (a :: l).
Proof.
  revert a. induction l as [| b l IH]; intros a; [now left |].
  cbn [fold_left]. destruct (IH (cleaner a b)) as [H | H].
  - rewrite <- H. unfold cleaner.
    destruct (ltb (avgAqi b) (avgAqi a)); [right; now left | now left].
  - right. now right.
Qed.

Lemma filter_absent_id (c : RouteData) (l : list RouteData) :
  ~ In (id c) (map id l) ->
  filter (fun r => String.eqb (id r) (id c)) l = [].
Proof.
  induction l as [| a l IH]; intros Hnotin; [reflexivity |].
  cbn [filter]. destruct (String.eqb (id a) (id c)) eqn:E.
  - apply String.eqb_eq in E. exfalso. apply Hnotin. left. exact E.
  - apply IH. intros Hin. apply Hnotin. now right.
Qed.

Lemma filter_same_id (c : RouteData) (l : list RouteData) :
  NoDup (map id l) -> In c l ->
  filter (fun r => String.eqb (id r) (id c)) l = [c].
Proof.
  induction l as [| a l IH]; intros Hnodup Hin; [destruct Hin |].
  cbn [map] in Hnodup. apply NoDup_cons_iff in Hnodup.
  destruct Hnodup as [Hnotin Hnodup]. cbn [filter].
  destruct Hin as [-> | Hin].
  - rewrite String.eqb_refl. f_equal. now apply filter_absent_id.
  - destruct (String.eqb (id a) (id c)) eqn:E.
    + apply String.eqb_eq in E. exfalso. apply Hnotin. rewrite E.
      now apply in_map.
    + now apply IH.
Qed.

(** X11: in a list of routes with distinct identifiers, as [calculateRoutes]
    produces them, the page flags exactly one route as recommended: the route
    [getCleanestRoute] picks, which belongs to the list; and that route never
    shows a premium. *)
Theorem one_recommended_route (plan : list RouteData) (cleanest : RouteData)
        (Hids : NoDup (map id plan))
        (Hcleanest : getCleanestRoute (Some plan) = Some cleanest) :
  In cleanest plan
  /\ filter (isCleanest (Some cleanest)) plan = [cleanest]
  /\ shownPremium (Some cleanest) cleanest = None.
Proof.
  assert (Hin : In cleanest plan).
  { destruct plan as [| a l]; [discriminate Hcleanest |].
    rewrite getCleanestRoute_cons in Hcleanest. injection Hcleanest as <-.
    apply fold_cleaner_In. }
  split; [exact Hin |]. split.
  - now apply filter_same_id.
  - unfold shownPremium, isCleanest. now rewrite String.eqb_refl.
Qed.

Lemma one_recommended_route_witness :
  NoDup (map id example_routes)
  /\ filter (isCleanest (Some (routeWithMean 1 60))) example_routes
     = [routeWithMean 1 60].
Proof.
  assert (H : NoDup (map id example_routes)).
  { apply (route_ids_distinct 0 4). }
  split; [exact H |].
  exact (proj1 (proj2 (one_recommended_route example_routes (routeWithMean 1 60)
                                             H eq_refl))).
Defined.

(** ** X12: the button of the page *)

(** X12: when the origin text or the destination text is empty,
    [handleFindRoutes] does nothing: no request at all is made, not even a
    geocoding one, and what the hook exposes is unchanged. *)
Theorem handleFindRoutes_empty_text
        (env : Env) (Qsqrt : Q -> Q) (hook : Hook)
        (startLocation endLocation : string) (s : State)
        (Hempty : startLocation = ""%string \/ endLocation = ""%string) :
  let run := handleFindRoutes env Qsqrt hook startLocation endLocation in
  run s = (hook, s) /\ emitted run s = [].
Proof.
  cbv zeta.
  assert (Hguard : truthy startLocation && truthy endLocation = false).
  { destruct Hempty as [-> | ->]; [reflexivity | apply andb_false_r]. }
  unfold handleFindRoutes, emitted. rewrite Hguard. unfold ret. cbn [snd].
  split; [reflexivity |]. rewrite <- (app_nil_r (log s)) at 2. apply skipn_log.
Qed.

Lemma handleFindRoutes_empty_text_witness :
  (""%string = ""%string \/ "Mysore, India"%string = ""%string)
  /\ emitted (handleFindRoutes env_polluted Qsqrt_up (mkHook None false None)
                               "" "Mysore, India") initial = [].
Proof.
  assert (H : ""%string = ""%string \/ "Mysore, India"%string = ""%string)
    by (left; reflexivity).
  split; [exact H |].
  exact (proj2 (handleFindRoutes_empty_text env_polluted Qsqrt_up
                  (mkHook None false None) ""%string "Mysore, India"%string
                  initial H)).
Defined.

(** ** X13: the colours of a mean *)

Lemma leb_le_trans (x y z : number) : le x y -> leb y z = true -> leb x z = true.
Proof. intros Hxy Hyz. exact (le_trans x y z Hxy Hyz). Qed.

(** X13: the badge of the list and the line of the map classify a mean with
    the same bounds, 50, 100 and 150: green goes with [health-good], yellow
    with [health-moderate], orange with [health-unhealthy], red with
    [health-hazardous]; a mean that is [NaN] is classified hazardous; and the
    classes follow the order of the means: below a good mean every mean is
    good, above a hazardous one every mean is hazardous. *)
Theorem colours_agree (aqi : number) :
  (getAqiColor aqi = "health-good"%string <-> RouteMap.color aqi = "#22c55e"%string)
  /\ (getAqiColor aqi = "health-moderate"%string
      <-> RouteMap.color aqi = "#eab308"%string)
  /\ (getAqiColor aqi = "health-unhealthy"%string
      <-> RouteMap.color aqi = "#f97316"%string)
  /\ (getAqiColor aqi = "health-hazardous"%string
      <-> RouteMap.color aqi = "#ef4444"%string)
  /\ getAqiColor NaN = "health-hazardous"%string
  /\ (forall lower, le lower aqi -> getAqiColor aqi = "health-good"%string ->
        getAqiColor lower = "health-good"%string)
  /\ (forall higher, le aqi higher ->
        getAqiColor aqi = "health-hazardous"%string ->
        getAqiColor higher = "health-hazardous"%string).
Proof.
  unfold getAqiColor, RouteMap.color.
  split; [| split; [| split; [| split; [| split; [reflexivity | split]]]]].
  1-4: destruct (leb aqi (Num 50)), (leb aqi (Num 100)), (leb aqi (Num 150));
    split; intros H; try discriminate H; reflexivity.
  - intros lower Hle.
    destruct (leb aqi (Num 50)) eqn:H50.
    + now rewrite (leb_le_trans _ _ _ Hle H50).
    + destruct (leb aqi (Num 100)); [discriminate |].
      destruct (leb aqi (Num 150)); discriminate.
  - intros higher Hle.
    destruct (leb aqi (Num 50)) eqn:H50; [discriminate |].
    destruct (leb aqi (Num 100)) eqn:H100; [discriminate |].
    destruct (leb aqi (Num 150)) eqn:H150; [discriminate |]. intros _.
    destruct (leb higher (Num 50)) eqn:G50;
      [rewrite (leb_le_trans _ _ _ Hle G50) in H50; discriminate |].
    destruct (leb higher (Num 100)) eqn:G100;
      [rewrite (leb_le_trans _ _ _ Hle G100) in H100; discriminate |].
    destruct (leb higher (Num 150)) eqn:G150;
      [rewrite (leb_le_trans _ _ _ Hle G150) in H150; discriminate |].
    reflexivity.
Qed.

(** ** X14: what the map draws *)

Lemma some_injective {A : Type} (x y : A) : Some x = Some y -> x = y.
Proof. congruence. Qed.

Lemma last_In {A : Type} (l : list A) (d : A) : l <> [] -> In (last l d) l.
Proof.
  induction l as [| a [| b l] IH]; intros Hne; [contradiction | now left |].
  right. apply IH. discriminate.
Qed.

(** X14: the map redraws nothing for an empty list of routes; for any other
    list it draws one line per route, in order, with the route's identifier,
    path and colour; with distinct identifiers exactly one line is marked
    recommended, the one of the route the page recommends; and every route
    with a non-empty path gets its start marker on its first coordinate and
    its end marker on its last. *)
Theorem map_layers (routes : list RouteData) (selectedRouteId : option string) :
  (RouteMap.layers routes selectedRouteId = None <-> routes = [])
  /\ forall drawn, RouteMap.layers routes selectedRouteId = Some drawn ->
       map RouteMap.layer_id drawn = map id routes
       /\ map RouteMap.path drawn = map coordinates routes
       /\ map RouteMap.line_color drawn
          = map (fun r => RouteMap.color (avgAqi r)) routes
       /\ map RouteMap.recommended drawn
          = map (isCleanest (getCleanestRoute (Some routes))) routes
       /\ (NoDup (map id routes) ->
           List.length (filter RouteMap.recommended drawn) = 1%nat)
       /\ Forall (fun layer =>
                    match RouteMap.path layer, RouteMap.markers layer with
                    | [], None => True
                    | first :: rest, Some (startCoord, endCoord) =>
                        startCoord = first
                        /\ endCoord = last (first :: rest) first
                        /\ In endCoord (RouteMap.path layer)
                    | _, _ => False
                    end) drawn.
Proof.
  destruct routes as [| a l].
  - split; [now split | discriminate].
  - split; [split; discriminate |].
    unfold RouteMap.layers, reduce1.
    rewrite getCleanestRoute_cons.
    change (fold_left (fun prev current =>
                         if ltb (avgAqi current) (avgAqi prev)
                         then current else prev) l a)
      with (fold_left cleaner l a).
    set (c := fold_left cleaner l a). intros drawn Hdrawn.
    apply some_injective in Hdrawn. subst drawn.
    rewrite !map_map. cbn [RouteMap.layer_id RouteMap.path RouteMap.line_color
                           RouteMap.recommended isCleanest].
    split; [reflexivity |]. split; [reflexivity |]. split; [reflexivity |].
    split; [reflexivity |]. split.
    + intros Hnodup.
      rewrite <- (length_map RouteMap.recommended).
      assert (Hfilter : forall rs,
                 map RouteMap.recommended
                     (filter RouteMap.recommended
                        (map (fun route =>
                                RouteMap.mkLayer (id route) (coordinates route)
                                  (RouteMap.color (avgAqi route))
                                  (if match selectedRouteId with
                                      | Some selected => String.eqb (id route) selected
                                      | None => false
                                      end then Num 6 else Num 4)
                                  (if match selectedRouteId with
                                      | Some selected => String.eqb (id route) selected
                                      | None => false
                                      end then Num 1 else Num (6 # 10))
                                  (String.eqb (id route) (id c))
                                  (RouteMap.routeMarkers (coordinates route))) rs))
                 = map (fun _ => true)
                       (filter (fun r => String.eqb (id r) (id c)) rs)).
      { induction rs as [| r rs IH]; [reflexivity |].
        cbn [map filter RouteMap.recommended].
        destruct (String.eqb (id r) (id c)); cbn [map RouteMap.recommended];
          now rewrite IH. }
      rewrite Hfilter, length_map.
      rewrite (filter_same_id c (a :: l) Hnodup (fold_cleaner_In l a)).
      reflexivity.
    + apply Forall_map, Forall_forall. intros r _.
      cbn [RouteMap.path RouteMap.markers]. unfold RouteMap.routeMarkers.
      destruct (coordinates r) as [| first rest]; [exact I |].
      split; [reflexivity |]. split; [reflexivity |].
      apply last_In. discriminate.
Qed.

(** ** X15, X16: the clamped sampler of the second hook *)

Lemma clamp_range (a : number) :
  is_nan a = false ->
  exists q,
    Enhanced.Math_min (Num 500) (Enhanced.Math_max (Num 0) a) = Num q
    /\ 0 <= q /\ q <= 500
    /\ forall r, a = Num r ->
         (r <= 0 -> q == 0) /\ (0 <= r -> r <= 500 -> q == r)
         /\ (500 <= r -> q == 500).
Proof.
  unfold Enhanced.Math_min, Enhanced.Math_max.
  destruct a as [| | r |]; cbn [is_nan orb ltb]; intros Hnan;
    try discriminate Hnan.
  - exists 0. cbn. split; [reflexivity |]. split; [lra |]. split; [lra |].
    intros r [=].
  - destruct (Qltb 0 r) eqn:H0; cbn [is_nan orb ltb].
    + apply Qltb_true_iff in H0. destruct (Qltb r 500) eqn:H5.
      * apply Qltb_true_iff in H5. exists r.
        split; [reflexivity |]. split; [lra |]. split; [lra |].
        intros r' [= <-]. repeat split; intros; lra.
      * apply Qltb_false_iff in H5. exists 500.
        split; [reflexivity |]. split; [lra |]. split; [lra |].
        intros r' [= <-]. repeat split; intros; lra.
    + apply Qltb_false_iff in H0. exists 0. cbn.
      split; [reflexivity |]. split; [lra |]. split; [lra |].
      intros r' [= <-]. repeat split; intros; lra.
  - exists 500. cbn. split; [reflexivity |]. split; [lra |]. split; [lra |].
    intros r [=].
Qed.

Lemma mul_not_nan (x : number) (c : Q) :
  0 < c -> is_nan x = false -> is_nan (mul x (Num c)) = false.
Proof.
  intros Hc. destruct x; cbn; try congruence; intros _; unfold signed_inf;
    rewrite (proj1 (Qgt_alt c 0) Hc); reflexivity.
Qed.

(** X15: the sampler of the second hook always returns a number within 0 to
    500 unless the pm25 reading it finds is [NaN]: about 75 when it finds no
    reading, and otherwise 4.17 times the reading clamped to the range, or 75
    when the NASA function's body cannot be read. *)
Theorem clamped_sampler (services : Enhanced.Services) (lat lon : number) :
  let v := Enhanced.fetchAQIData services lat lon in
  match Enhanced.reading (Enhanced.openaq_latest services lat lon) with
  | None => exists q, v = Num q /\ q == 75
  | Some x =>
      is_nan x = false ->
      exists q,
        v = Num q /\ 0 <= q /\ q <= 500
        /\ forall r,
             x = Num r ->
             Enhanced.nasa_function services lat lon <> Enhanced.Fulfilled None ->
             (r * (417 # 100) <= 0 -> q == 0)
             /\ (0 <= r * (417 # 100) -> r * (417 # 100) <= 500 ->
                 q == r * (417 # 100))
             /\ (500 <= r * (417 # 100) -> q == 500)
  end.
Proof.
  cbv zeta. unfold Enhanced.fetchAQIData, Enhanced.estimate, Enhanced.reading.
  assert (Hdefault :
            forall nasaData,
            exists q,
              match
                match
                  match nasaData with
                  | Enhanced.Rejected => Some (Num 75)
                  | Enhanced.Fulfilled None => None
                  | Enhanced.Fulfilled (Some body) =>
                      match Enhanced.power body with
                      | Some params =>
                          if Enhanced.has_parameters params
                          then Some (mul (Num 75) (Num 1)) else Some (Num 75)
                      | None => Some (Num 75)
                      end
                  end
                with
                | Some aqi =>
                    Some (Enhanced.Math_min (Num 500) (Enhanced.Math_max (Num 0) aqi))
                | None => None
                end
              with
              | Some aqi => aqi
              | None => Num 75
              end = Num q /\ q == 75).
  { intros [| [[[[[|]] |]] |]]; eexists; (split; [reflexivity | reflexivity]). }
  destruct (Enhanced.openaq_latest services lat lon)
    as [| [[[| [[| m ms] |] stations] |] |]]; cbn [option_map];
    try apply Hdefault; try (exists 75; split; reflexivity).
  destruct (find is_pm25 (m :: ms)) as [pm25 |]; cbn [option_map];
    [| apply Hdefault].
  intros Hnan.
  pose proof (mul_not_nan (value pm25) (417 # 100) ltac:(reflexivity) Hnan) as Hx.
  destruct (Enhanced.nasa_function services lat lon) as [| [[[[[|]] |]] |]].
  - destruct (clamp_range _ Hx) as (q & Hq & H0 & H5 & Hcases).
    exists q. repeat (split; [assumption |]).
    intros r Hr _. apply Hcases. now rewrite Hr.
  - pose proof (mul_not_nan _ 1 ltac:(reflexivity) Hx) as Hx1.
    destruct (clamp_range _ Hx1) as (q & Hq & H0 & H5 & Hcases).
    exists q. repeat (split; [assumption |]).
    intros r Hr _. rewrite Hr in Hcases. cbn [mul] in Hcases.
    destruct (Hcases _ eq_refl) as (Ha & Hb & Hc).
    split; [intros; rewrite Ha; lra |].
    split; [intros; rewrite Hb; lra | intros; rewrite Hc; lra].
  - destruct (clamp_range _ Hx) as (q & Hq & H0 & H5 & Hcases).
    exists q. repeat (split; [assumption |]).
    intros r Hr _. apply Hcases. now rewrite Hr.
  - destruct (clamp_range _ Hx) as (q & Hq & H0 & H5 & Hcases).
    exists q. repeat (split; [assumption |]).
    intros r Hr _. apply Hcases. now rewrite Hr.
  - exists 75. split; [reflexivity |]. split; [lra |]. split; [lra |].
    intros r _ Hnull. now contradiction Hnull.
Qed.

Example clamped_sampler_polluted :
  Enhanced.fetchAQIData
    (Enhanced.mkServices
       (fun _ _ => Enhanced.Fulfilled
                     (Some (Some [Some [mkMeasurement "pm25" (Num 200)]])))
       (fun _ _ => Enhanced.Rejected))
    (Num 0) (Num 0)
  = Num 500.
Proof. reflexivity. Qed.

(** ** C3: the sampler that does not clamp, and its sibling that does *)

(** C3: the sampler of [useRouteCalculation.ts] breaks the claim where its
    sibling keeps it.  Whenever the air-quality answer carries a pm25 reading
    [r] with [r * 4.17] above 500, [fetchAQIData] returns [r * 4.17], which is
    not within 0 to 500; the copy of [fetchAQIData] in [usePermissions.tsx],
    given the same answer, returns a value within 0 to 500: it is 500, unless
    the body of the NASA function cannot be read. *)
Theorem sampler_not_clamped
        (env : Env) (lat lon : number) (s : State)
        (results : option (list (option (list Measurement)))) (r : Q)
        (Hanswer : openaq env lat lon (clock s) = AQJson results)
        (Hreading : pm25_reading (AQJson results) = Some (Num r))
        (Habove : 500 < r * (417 # 100)) :
  fst (fetchAQIData env lat lon s) = Num (r * (417 # 100))
  /\ leb (fst (fetchAQIData env lat lon s)) (Num 500) = false
  /\ forall services : Enhanced.Services,
       Enhanced.openaq_latest services lat lon = Enhanced.Fulfilled (Some results) ->
       exists q,
         Enhanced.fetchAQIData services lat lon = Num q
         /\ 0 <= q /\ q <= 500
         /\ (Enhanced.nasa_function services lat lon <> Enhanced.Fulfilled None ->
             q == 500).
Proof.
  assert (Hfound : exists m ms stations pm25,
             results = Some (Some (m :: ms) :: stations)
             /\ find is_pm25 (m :: ms) = Some pm25
             /\ value pm25 = Num r).
  { destruct results as [[| [[| m ms] |] stations] |];
      try (cbn in Hreading; discriminate Hreading); cbn [pm25_reading] in Hreading.
    destruct (find is_pm25 (m :: ms)) as [pm25 |] eqn:Hf;
      cbn [option_map] in Hreading; [| discriminate Hreading].
    exists m, ms, stations, pm25. split; [reflexivity |]. split; [exact Hf |].
    now apply some_injective in Hreading. }
  destruct Hfound as (m & ms & stations & pm25 & -> & Hf & Hvalue).
  assert (Hhook : fst (fetchAQIData env lat lon s) = Num (r * (417 # 100))).
  { unfold fetchAQIData, bind, call. cbn [fst snd clock]. rewrite Hanswer.
    cbv beta iota. rewrite Hf, Hvalue. reflexivity. }
  split; [exact Hhook |]. split.
  - rewrite Hhook. cbn [leb].
    destruct (Qle_bool (r * (417 # 100)) 500) eqn:E; [| reflexivity].
    apply Qle_bool_iff in E. lra.
  - intros services Hservices.
    unfold Enhanced.fetchAQIData, Enhanced.estimate.
    rewrite Hservices, Hf, Hvalue. cbn [mul].
    destruct (clamp_range (Num (r * (417 # 100))) eq_refl)
      as (q & Hq & H0 & H5 & Hcases).
    destruct (Hcases _ eq_refl) as (_ & _ & Htop).
    destruct (clamp_range (Num (r * (417 # 100) * 1)) eq_refl)
      as (q1 & Hq1 & H01 & H51 & Hcases1).
    destruct (Hcases1 _ eq_refl) as (_ & _ & Htop1).
    destruct (Enhanced.nasa_function services lat lon) as [| [[[[[|]] |]] |]];
      cbn [Enhanced.power Enhanced.has_parameters mul].
    + exists q. rewrite Hq. repeat (split; [first [reflexivity | assumption] |]).
      intros _. apply Htop. lra.
    + exists q1. rewrite Hq1. repeat (split; [first [reflexivity | assumption] |]).
      intros _. apply Htop1. lra.
    + exists q. rewrite Hq. repeat (split; [first [reflexivity | assumption] |]).
      intros _. apply Htop. lra.
    + exists q. rewrite Hq. repeat (split; [first [reflexivity | assumption] |]).
      intros _. apply Htop. lra.
    + exists 75. split; [reflexivity |]. split; [lra |]. split; [lra |].
      intros Hnull. now contradiction Hnull.
Qed.

Lemma sampler_not_clamped_witness :
  500 < 200 * (417 # 100)
  /\ fst (fetchAQIData env_polluted (Num 0) (Num 0) initial)
     = Num (200 * (417 # 100))
  /\ leb (fst (fetchAQIData env_polluted (Num 0) (Num 0) initial)) (Num 500) = false.
Proof.
  assert (Habove : 500 < 200 * (417 # 100)) by reflexivity.
  split; [exact Habove |].
  destruct (sampler_not_clamped env_polluted (Num 0) (Num 0) initial
              (Some [Some [mkMeasurement "pm25" (Num 200)]]) 200
              eq_refl eq_refl Habove) as (Hvalue & Hout & _).
  split; [exact Hvalue | exact Hout].
Defined.

Lemma clamp_same (a : number) :
  let clamp x := Enhanced.Math_min (Num 500) (Enhanced.Math_max (Num 0) x) in
  eqb (clamp a) (clamp a) = true
  \/ (is_nan (clamp a) = true /\ is_nan (clamp a) = true).
Proof.
  cbv zeta. destruct (is_nan a) eqn:Hnan.
  - right. destruct a; try discriminate Hnan. now split.
  - left. destruct (clamp_range a Hnan) as (q & -> & _).
    cbn [eqb]. apply Qeq_bool_iff. reflexivity.
Qed.

Lemma clamp_mul_one (a : number) :
  let clamp x := Enhanced.Math_min (Num 500) (Enhanced.Math_max (Num 0) x) in
  (eqb (clamp a) (clamp (mul a (Num 1))) = true
   \/ (is_nan (clamp a) = true /\ is_nan (clamp (mul a (Num 1))) = true))
  /\ (eqb (clamp (mul a (Num 1))) (clamp a) = true
      \/ (is_nan (clamp (mul a (Num 1))) = true /\ is_nan (clamp a) = true)).
Proof.
  cbv zeta. destruct a as [| | r |].
  - split; right; now split.
  - split; left; reflexivity.
  - cbn [mul].
    destruct (clamp_range (Num r) eq_refl) as (q1 & -> & _ & _ & H1).
    destruct (clamp_range (Num (r * 1)) eq_refl) as (q2 & -> & _ & _ & H2).
    destruct (H1 r eq_refl) as (Ha1 & Hb1 & Hc1).
    destruct (H2 (r * 1) eq_refl) as (Ha2 & Hb2 & Hc2).
    assert (Heq : q1 == q2).
    { destruct (Qlt_le_dec r 0) as [Hneg | Hpos].
      - rewrite Ha1, Ha2 by lra. reflexivity.
      - destruct (Qlt_le_dec 500 r) as [Hbig | Hsmall].
        + rewrite Hc1, Hc2 by lra. reflexivity.
        + rewrite Hb1, Hb2 by lra. lra. }
    cbn [eqb]. split; left; apply Qeq_bool_iff; [exact Heq | now symmetry].
  - split; left; reflexivity.
Qed.

(** X16: the answer of the NASA function never changes what the second
    hook's sampler computes: as long as the function's body can be read, two
    different answers lead to the same index for the same air-quality answer,
    and to the same failure when the air-quality body cannot be read. *)
Theorem nasa_answer_ignored
        (openaqData : Enhanced.Settled (option (list (option (list Measurement)))))
        (nasa1 nasa2 : Enhanced.Settled Enhanced.NasaBody)
        (Hreadable1 : nasa1 <> Enhanced.Fulfilled None)
        (Hreadable2 : nasa2 <> Enhanced.Fulfilled None) :
  match Enhanced.estimate openaqData nasa1, Enhanced.estimate openaqData nasa2 with
  | Some v1, Some v2 =>
      eqb v1 v2 = true \/ (is_nan v1 = true /\ is_nan v2 = true)
  | None, None => True
  | _, _ => False
  end.
Proof.
  unfold Enhanced.estimate.
  destruct openaqData as [| [[[| [[| m ms] |] stations] |] |]];
    try exact I;
    try destruct (find is_pm25 (m :: ms)) as [pm25 |];
    destruct nasa1 as [| [[[[[|]] |]] |]]; try contradiction;
    destruct nasa2 as [| [[[[[|]] |]] |]]; try contradiction;
    cbv beta iota zeta; cbn [Enhanced.power Enhanced.has_parameters];
    first [ apply clamp_same
          | apply (proj1 (clamp_mul_one _))
          | apply (proj2 (clamp_mul_one _)) ].
Qed.

Lemma nasa_answer_ignored_witness :
  (@Enhanced.Rejected Enhanced.NasaBody <> Enhanced.Fulfilled None)
  /\ (Enhanced.Fulfilled (Some (Enhanced.mkNasaBody
                                  (Some (Enhanced.mkPowerData true))))
      <> Enhanced.Fulfilled None)
  /\ match Enhanced.estimate
             (Enhanced.Fulfilled (Some (Some [Some [mkMeasurement "pm25" (Num 20)]])))
             Enhanced.Rejected,
           Enhanced.estimate
             (Enhanced.Fulfilled (Some (Some [Some [mkMeasurement "pm25" (Num 20)]])))
             (Enhanced.Fulfilled (Some (Enhanced.mkNasaBody
                                          (Some (Enhanced.mkPowerData true)))))
     with
     | Some v1, Some v2 => eqb v1 v2 = true \/ (is_nan v1 = true /\ is_nan v2 = true)
     | None, None => True
     | _, _ => False
     end.
Proof.
  assert (H1 : @Enhanced.Rejected Enhanced.NasaBody <> Enhanced.Fulfilled None)
    by discriminate.
  assert (H2 : Enhanced.Fulfilled (Some (Enhanced.mkNasaBody
                                           (Some (Enhanced.mkPowerData true))))
               <> Enhanced.Fulfilled None) by discriminate.
  split; [exact H1 |]. split; [exact H2 |].
  exact (nasa_answer_ignored
           (Enhanced.Fulfilled (Some (Some [Some [mkMeasurement "pm25" (Num 20)]])))
           _ _ H1 H2).
Defined.

(** ** X17, X18: the NASA function *)

(** X17: a request whose latitude or longitude is missing, [NaN] or zero is
    refused by the function with status 400 and the error "Latitude and
    longitude are required", before any request to NASA is made; so a point
    on the equator or on the prime meridian gets no data. *)
Theorem nasa_function_refuses_zero
        (world : NasaFunction.World) (method : string) (lat lon : option number)
        (Hmethod : method <> "OPTIONS"%string)
        (Hfalsy : NasaFunction.truthy_number lat = None
                  \/ NasaFunction.truthy_number lon = None) :
  NasaFunction.handler world (NasaFunction.mkRequest method (inr (lat, lon)))
  = (NasaFunction.mkResponse
       400 (NasaFunction.Failure "Latitude and longitude are required"), [])
  /\ NasaFunction.truthy_number (Some (Num 0)) = None.
Proof.
  split; [| reflexivity].
  unfold NasaFunction.handler. cbn [NasaFunction.method NasaFunction.json].
  apply String.eqb_neq in Hmethod. rewrite Hmethod.
  destruct Hfalsy as [-> | Hlon]; [reflexivity |].
  rewrite Hlon. now destruct (NasaFunction.truthy_number lat).
Qed.

Lemma nasa_function_refuses_zero_witness :
  "POST"%string <> "OPTIONS"%string
  /\ NasaFunction.handler
       (NasaFunction.mkWorld None (fun _ _ => NasaFunction.PowerJson true "{}")
                             (fun _ _ _ => NasaFunction.EarthRaises) "2024")
       (NasaFunction.mkRequest "POST" (inr (Some (Num 0), Some (Num (7759 # 100)))))
     = (NasaFunction.mkResponse
          400 (NasaFunction.Failure "Latitude and longitude are required"), []).
Proof.
  assert (H : "POST"%string <> "OPTIONS"%string) by discriminate.
  split; [exact H |].
  exact (proj1 (nasa_function_refuses_zero
                  (NasaFunction.mkWorld None
                     (fun _ _ => NasaFunction.PowerJson true "{}")
                     (fun _ _ _ => NasaFunction.EarthRaises) "2024")
                  "POST"%string (Some (Num 0)) (Some (Num (7759 # 100)))
                  H (or_introl eq_refl))).
Defined.

(** X18: the function never raises: it answers 200 or 400 after at most two
    requests.  It asks EarthData only after POWER has answered and only with
    a non-empty key, and whatever EarthData answers the status is then 200:
    a failing EarthData only leaves [earthData] null; the [earthData] passed
    on is the body of an EarthData answer with an ok status.  The status of
    the POWER answer itself is not looked at. *)
Theorem nasa_function_outcome (world : NasaFunction.World) (req : NasaFunction.Request) :
  let response := fst (NasaFunction.handler world req) in
  let requests := snd (NasaFunction.handler world req) in
  (NasaFunction.status response = 200%nat \/ NasaFunction.status response = 400%nat)
  /\ (List.length requests <= 2)%nat
  /\ (forall lat lon key,
        In (NasaFunction.ToEarthData lat lon key) requests ->
        NasaFunction.status response = 200%nat
        /\ requests = [NasaFunction.ToPower lat lon;
                       NasaFunction.ToEarthData lat lon key]
        /\ NasaFunction.NASA_API_KEY world = Some key /\ key <> ""%string
        /\ exists ok data, NasaFunction.power_api world lat lon
                           = NasaFunction.PowerJson ok data)
  /\ (forall location power data timestamp,
        NasaFunction.content response
        = NasaFunction.Result location power (Some data) timestamp ->
        exists key,
          NasaFunction.earthdata_api world (fst location) (snd location) key
          = NasaFunction.EarthResponse true (Some data))
  /\ (forall lat lon data,
        NasaFunction.method req <> "OPTIONS"%string ->
        NasaFunction.json req = inr (Some lat, Some lon) ->
        NasaFunction.truthy_number (Some lat) = Some lat ->
        NasaFunction.truthy_number (Some lon) = Some lon ->
        NasaFunction.power_api world lat lon = NasaFunction.PowerJson false data ->
        NasaFunction.status response = 200%nat).
Proof.
  cbv zeta. unfold NasaFunction.handler.
  destruct (String.eqb (NasaFunction.method req) "OPTIONS") eqn:Hm.
  - cbn [fst snd NasaFunction.status NasaFunction.content List.length In].
    apply String.eqb_eq in Hm.
    repeat split; try tauto; try discriminate; try lia; auto.
  - destruct (NasaFunction.json req) as [message | [lat lon]].
    + cbn [fst snd NasaFunction.status NasaFunction.content List.length In].
      repeat split; try tauto; try discriminate; try lia; auto.
    + destruct (NasaFunction.truthy_number lat) as [la |] eqn:Hla;
        [destruct (NasaFunction.truthy_number lon) as [lo |] eqn:Hlo |].
      * destruct (NasaFunction.power_api world la lo) as [message | ok data] eqn:Hp.
        -- cbn [fst snd NasaFunction.status NasaFunction.content List.length In].
           split; [now right |]. split; [lia |].
           split; [intros ? ? ? [H | []]; discriminate H |].
           split; [discriminate |].
           intros lat' lon' data' _ [= -> ->] Hla' Hlo'.
           rewrite Hla in Hla'. rewrite Hlo in Hlo'.
           injection Hla' as ->. injection Hlo' as ->. rewrite Hp. discriminate.
        -- destruct (NasaFunction.NASA_API_KEY world) as [key |] eqn:Hkey;
             [destruct (String.eqb key "") eqn:Hempty |];
             cbn [fst snd NasaFunction.status NasaFunction.content List.length In].
           ++ split; [now left |]. split; [lia |].
              split; [intros ? ? ? [H | []]; discriminate H |].
              split; [discriminate | reflexivity].
           ++ apply String.eqb_neq in Hempty.
              split; [now left |]. split; [lia |]. split; [| split].
              ** intros lat' lon' key' [H | [H | []]]; [discriminate H |].
                 injection H as <- <- <-.
                 split; [reflexivity |]. split; [reflexivity |].
                 split; [reflexivity |]. split; [exact Hempty |].
                 now exists ok, data.
              ** intros location power data' timestamp [= <- _ Hearth _].
                 exists key. cbn [fst snd].
                 destruct (NasaFunction.earthdata_api world la lo key)
                   as [| [|] [d |]]; try discriminate Hearth.
                 now injection Hearth as ->.
              ** reflexivity.
           ++ split; [now left |]. split; [lia |].
              split; [intros ? ? ? [H | []]; discriminate H |].
              split; [discriminate | reflexivity].
      * cbn [fst snd NasaFunction.status NasaFunction.content List.length In].
        split; [now right |]. split; [lia |].
        split; [intros ? ? ? [] |]. split; [discriminate |].
        intros lat' lon' data' _ [= -> ->] _ Hlo'. rewrite Hlo in Hlo'.
        discriminate Hlo'.
      * cbn [fst snd NasaFunction.status NasaFunction.content List.length In].
        split; [now right |]. split; [lia |].
        split; [intros ? ? ? [] |]. split; [discriminate |].
        intros lat' lon' data' _ [= -> ->] Hla' _. rewrite Hla in Hla'.
        discriminate Hla'.
Qed.

(** ** X19, X20, X21: saved locations *)

Section SavedLocations.

Import Index.

Lemma find_id_none (location : LocationData) (l : list LocationData) :
  find (fun loc => String.eqb (id loc) (id location)) l = None <->
  ~ In (id location) (map id l).
Proof.
  induction l as [| a l IH]; cbn [find map In]; [tauto |].
  destruct (String.eqb (id a) (id location)) eqn:E.
  - apply String.eqb_eq in E. split; [discriminate | intros H; exfalso; auto].
  - apply String.eqb_neq in E. rewrite IH. tauto.
Qed.

Lemma filter_ids_NoDup (p : LocationData -> bool) (l : list LocationData) :
  NoDup (map id l) -> NoDup (map id (filter p l)).
Proof.
  induction l as [| a l IH]; intros H; [constructor |].
  cbn [map] in H. apply NoDup_cons_iff in H. destruct H as [Ha Hl].
  cbn [filter]. destruct (p a); [| now apply IH].
  cbn [map]. constructor; [| now apply IH].
  intros Hin. apply Ha. apply in_map_iff in Hin.
  destruct Hin as (b & Hb & Hin). apply filter_In in Hin.
  rewrite <- Hb. apply in_map. tauto.
Qed.

Lemma handleSaveLocation_distinct (location : LocationData) (page : Page) :
  distinct_ids page -> distinct_ids (handleSaveLocation location page).
Proof.
  intros [Hsaved Hstored]. unfold handleSaveLocation.
  destruct (find _ (savedLocations page)) eqn:Hfind; [now split |].
  apply find_id_none in Hfind.
  assert (H : NoDup (map id (savedLocations page ++ [location]))).
  { rewrite map_app. cbn [map]. apply NoDup_app; [exact Hsaved | | ].
    - constructor; [intros [] | constructor].
    - intros x Hx [<- | []]. contradiction. }
  split; exact H.
Qed.

Lemma handleRemoveLocation_distinct (locationId : string) (page : Page) :
  distinct_ids page -> distinct_ids (handleRemoveLocation locationId page).
Proof.
  intros [Hsaved _]. unfold handleRemoveLocation, distinct_ids.
  cbn [savedLocations storage]. split; now apply filter_ids_NoDup.
Qed.

(** X19: whatever the user does on the page, saving, removing, selecting
    locations or reloading the page, no two saved locations ever share an
    identifier, neither on the page nor in the stored list, provided none did
    to begin with. *)
Theorem saved_locations_distinct (actions : list Action) (page : Page)
        (Hdistinct : distinct_ids page) :
  distinct_ids (fold_left step actions page).
Proof.
  revert page Hdistinct. induction actions as [| action actions IH];
    intros page Hdistinct; [exact Hdistinct |].
  cbn [fold_left]. apply IH.
  destruct action as [location | locationId | location |]; cbn [step].
  - now apply handleSaveLocation_distinct.
  - now apply handleRemoveLocation_distinct.
  - exact Hdistinct.
  - destruct Hdistinct as [_ Hstored]. unfold mount, load, distinct_ids in *.
    cbn [storage].
    destruct (storage page) as [[| locations] |];
      cbn [savedLocations storage]; split; try exact I; try constructor;
      exact Hstored.
Qed.

(** X20: saving a location whose identifier is not saved yet appends it to
    the list, stores the new list and raises one toast; saving a location
    whose identifier is already saved changes nothing at all, whatever its
    other fields; so saving twice is saving once, and after a save the
    identifier is always found. *)
Theorem handleSaveLocation_laws (location : LocationData) (page : Page) :
  let saved := handleSaveLocation location page in
  (~ In (id location) (map id (savedLocations page)) ->
   savedLocations saved = savedLocations page ++ [location]
   /\ storage saved = Some (Stored (savedLocations saved))
   /\ List.length (toasts saved) = S (List.length (toasts page)))
  /\ (In (id location) (map id (savedLocations page)) -> saved = page)
  /\ handleSaveLocation location saved = saved
  /\ In (id location) (map id (savedLocations saved)).
Proof.
  cbv zeta.
  assert (Hnew : ~ In (id location) (map id (savedLocations page)) ->
                 handleSaveLocation location page
                 = mkPage (selectedLocation page) (savedLocations page ++ [location])
                          (Some (Stored (savedLocations page ++ [location])))
                          (toasts page
                           ++ [mkToast "Location Saved"
                                 (name location
                                  ++ " has been added to your saved locations.")])).
  { intros H. apply find_id_none in H. unfold handleSaveLocation. now rewrite H. }
  assert (Hold : In (id location) (map id (savedLocations page)) ->
                 handleSaveLocation location page = page).
  { intros H. unfold handleSaveLocation.
    destruct (find _ (savedLocations page)) eqn:Hfind; [reflexivity |].
    apply find_id_none in Hfind. contradiction. }
  assert (Hin : In (id location)
                   (map id (savedLocations (handleSaveLocation location page)))).
  { destruct (in_dec string_dec (id location) (map id (savedLocations page)))
      as [H | H].
    - now rewrite (Hold H).
    - rewrite (Hnew H). cbn [savedLocations]. rewrite map_app. apply in_or_app.
      right. now left. }
  split; [| split; [exact Hold | split; [| exact Hin]]].
  - intros H. rewrite (Hnew H). cbn [savedLocations storage toasts].
    split; [reflexivity |]. split; [reflexivity |].
    rewrite length_app. cbn. lia.
  - unfold handleSaveLocation at 1.
    destruct (find _ (savedLocations (handleSaveLocation location page))) eqn:Hfind;
      [reflexivity |].
    apply find_id_none in Hfind. contradiction.
Qed.


End SavedLocations.

Lemma saved_locations_distinct_witness :
  Index.distinct_ids (Index.mkPage None [] None [])
  /\ Index.distinct_ids
       (fold_left Index.step
          [Index.Save (Index.mkLocationData "1" "Mysore" (Num 12) (Num 76) (Num 0));
           Index.Save (Index.mkLocationData "1" "Mysuru" (Num 12) (Num 76) (Num 1));
           Index.Reload; Index.Remove "2"]
          (Index.mkPage None [] None [])).
Proof.
  assert (H : Index.distinct_ids (Index.mkPage None [] None [])).
  { split; [constructor | exact I]. }
  split; [exact H |].
  exact (saved_locations_distinct _ _ H).
Defined.

(** ** X22 - X25: the feedback form *)

Section FeedbackForm.

Import Feedback.

Lemma removeAt_spec {A : Type} (index : nat) (l : list A) :
  removeAt index l = firstn index l ++ skipn (S index) l.
Proof.
  revert index. induction l as [| a l IH]; intros [| index]; cbn; try reflexivity.
  now rewrite IH.
Qed.

Lemma removeAt_In {A : Type} (index : nat) (l : list A) (a : A) :
  In a (removeAt index l) -> In a l.
Proof.
  revert index. induction l as [| b l IH]; intros [| index] H; cbn in *;
    try tauto.
  destruct H as [H | H]; [now left | right; eauto].
Qed.

Lemma valid_files_small (selected : list File) :
  Forall (fun file => (size file <= maxSize)%N)
         (filter (fun file => negb (tooLarge file)) selected).
Proof.
  apply Forall_forall. intros file Hin. apply filter_In in Hin.
  destruct Hin as [_ H]. unfold tooLarge in H.
  apply negb_true_iff, N.ltb_ge in H. exact H.
Qed.

(** X22: the list of files of the form never holds more than five files nor
    a file above 10 MB (10485760 bytes), whatever files the user chooses and
    discards, in whatever order. *)
Theorem files_within_limits (actions : list Action) (form : Form)
        (Hlimits : within_limits form) :
  within_limits (fold_left step actions form)
  /\ maxSize = 10485760%N.
Proof.
  split; [| reflexivity].
  revert form Hlimits. induction actions as [| action actions IH];
    intros form Hlimits; [exact Hlimits |].
  cbn [fold_left]. apply IH. destruct Hlimits as [Hcount Hsizes].
  destruct action as [selected | index]; cbn [step].
  - unfold handleFileUpload, within_limits.
    destruct (Nat.ltb maxFiles _) eqn:Htotal; cbn [formData files with_files].
    + now split.
    + apply Nat.ltb_ge in Htotal. rewrite length_app. split; [exact Htotal |].
      apply Forall_app. split; [exact Hsizes | apply valid_files_small].
  - unfold removeFile, within_limits. cbn [formData files with_files]. split.
    + rewrite removeAt_spec, length_app, length_firstn, length_skipn. lia.
    + apply Forall_forall. intros file Hin. apply removeAt_In in Hin.
      rewrite Forall_forall in Hsizes. now apply Hsizes.
Qed.

Lemma files_within_limits_witness :
  within_limits (mkForm emptyForm false false [])
  /\ within_limits
       (fold_left step
          [Choose [mkFile "a.png" 100; mkFile "b.mp4" 99999999];
           Choose [mkFile "c.png" 1; mkFile "d.png" 2; mkFile "e.png" 3;
                   mkFile "f.png" 4; mkFile "g.png" 5];
           Discard 0]
          (mkForm emptyForm false false [])).
Proof.
  assert (H : within_limits (mkForm emptyForm false false [])).
  { split; [cbn; unfold maxFiles; lia | constructor]. }
  split; [exact H |].
  exact (proj1 (files_within_limits _ _ H)).
Defined.


(** X24: discarding the file of an index within the list removes exactly
    that file and keeps the others in order; an index beyond the list changes
    nothing. *)
Theorem removeFile_laws (index : nat) (form : Form) :
  let before := files (formData form) in
  let after := files (formData (removeFile index form)) in
  after = firstn index before ++ skipn (S index) before
  /\ ((index < List.length before)%nat ->
      S (List.length after) = List.length before
      /\ (forall i, (i < index)%nat -> nth_error after i = nth_error before i)
      /\ (forall i, (index <= i)%nat -> nth_error after i = nth_error before (S i)))
  /\ ((List.length before <= index)%nat -> after = before).
Proof.
  cbv zeta. unfold removeFile. cbn [formData files with_files].
  rewrite removeAt_spec. split; [reflexivity |]. split.
  - intros Hin. split; [| split].
    + rewrite length_app, length_firstn, length_skipn. lia.
    + intros i Hi. rewrite nth_error_app1 by (rewrite length_firstn; lia).
      rewrite nth_error_firstn.
      now rewrite (proj2 (Nat.ltb_lt i index) Hi).
    + intros i Hi. rewrite nth_error_app2 by (rewrite length_firstn; lia).
      rewrite length_firstn, nth_error_skipn. f_equal. lia.
  - intros Hout. rewrite firstn_all2 by exact Hout.
    rewrite skipn_all2 by lia. apply app_nil_r.
Qed.

Lemma allPaths_length (results : list (option string)) (paths : list string) :
  allPaths results = Some paths -> List.length paths = List.length results.
Proof.
  revert paths. induction results as [| [path |] results IH]; intros paths H;
    cbn [allPaths] in H.
  - now injection H as <-.
  - destruct (allPaths results) as [ps |]; [| discriminate H].
    injection H as <-. cbn [List.length]. f_equal. now apply IH.
  - discriminate H.
Qed.

Lemma indexed_length (l : list File) : List.length (indexed l) = List.length l.
Proof. unfold indexed. rewrite length_combine, length_seq. lia. Qed.

(** X25: a submission with an empty name, email or description makes no
    request and leaves the form as it is.  Otherwise every file is uploaded,
    in order; the feedback row is inserted only when all uploads have
    succeeded, after them, with one stored path per file; the form is emptied
    and marked submitted only when that insertion succeeds, and in every other
    case it keeps what the user typed; the form is never left submitting. *)
Theorem handleSubmit_laws (backend : Backend) (form : Form) :
  let data := formData form in
  let result := fst (handleSubmit backend form) in
  let requests := snd (handleSubmit backend form) in
  let uploads :=
    map (fun entry => Upload (storedName backend (fst entry) (snd entry)) (snd entry))
        (indexed (files data)) in
  let stored :=
    allPaths (map (fun entry =>
                     upload backend (storedName backend (fst entry) (snd entry))
                            (snd entry))
                  (indexed (files data))) in
  ((name data = ""%string \/ email data = ""%string
    \/ description data = ""%string) ->
   requests = [] /\ formData result = data
   /\ submitted result = submitted form
   /\ isSubmitting result = isSubmitting form)
  /\ (name data <> ""%string -> email data <> ""%string ->
      description data <> ""%string ->
      isSubmitting result = false
      /\ match stored with
         | None =>
             requests = uploads /\ formData result = data
             /\ submitted result = submitted form
         | Some paths =>
             let row := mkRow (name data) (email data) (location data)
                              (category data) (description data) paths in
             List.length paths = List.length (files data)
             /\ requests = uploads ++ [Insert row]
             /\ if insert backend row
                then formData result = emptyForm /\ submitted result = true
                else formData result = data /\ submitted result = submitted form
         end).
Proof.
  cbv zeta. unfold handleSubmit. split.
  - intros Hmissing.
    assert (Hguard : String.eqb (name (formData form)) ""
                     || String.eqb (email (formData form)) ""
                     || String.eqb (description (formData form)) "" = true).
    { destruct Hmissing as [H | [H | H]]; rewrite H, String.eqb_refl;
        rewrite ?orb_true_r; reflexivity. }
    rewrite Hguard. now repeat split.
  - intros Hname Hemail Hdescription.
    apply String.eqb_neq in Hname, Hemail, Hdescription.
    rewrite Hname, Hemail, Hdescription. cbn [orb].
    destruct (files (formData form)) as [| file rest] eqn:Hfiles.
    + cbn [indexed List.length seq combine map allPaths app].
      destruct (insert backend _); cbn [fst snd formData isSubmitting submitted];
        now repeat split.
    + unfold uploadFiles.
      destruct (allPaths _) as [paths |] eqn:Hpaths.
      * apply allPaths_length in Hpaths.
        rewrite length_map, indexed_length in Hpaths.
        destruct (insert backend _); cbn [fst snd formData isSubmitting submitted];
          now repeat split.
      * cbn [fst snd formData isSubmitting submitted]. now repeat split.
Qed.

End FeedbackForm.

(** ** X26: the tips carousel *)

Lemma carousel_step_range (c : Tips.Carousel) (action : Tips.Action) :
  (0 <= Tips.currentTipIndex c < 7)%Z ->
  (0 <= Tips.currentTipIndex (Tips.step c action) < 7)%Z.
Proof.
  intros Hrange.
  assert (Hrem : forall a, (0 <= a)%Z -> (0 <= Z.rem a Tips.tips_length < 7)%Z).
  { intros a Ha. apply Z.rem_bound_pos; [exact Ha | reflexivity]. }
  destruct action; cbn [Tips.step]; unfold Tips.nextTip, Tips.prevTip, Tips.tick.
  - cbn [Tips.currentTipIndex]. apply Hrem. lia.
  - cbn [Tips.currentTipIndex]. apply Hrem. unfold Tips.tips_length. lia.
  - destruct (Tips.isAutoPlaying c); cbn [Tips.currentTipIndex];
      [apply Hrem; lia | exact Hrange].
Qed.

(** X26: the index of the tip shown stays within the seven tips whatever
    sequence of next, previous and timer events occurs; previous undoes next
    and next undoes previous, wrapping around at both ends; seven nexts come
    back to the same tip; and once the user has navigated by hand the timer
    no longer moves the carousel. *)
Theorem carousel_laws (c : Tips.Carousel)
        (Hrange : (0 <= Tips.currentTipIndex c < 7)%Z) :
  (forall actions,
      (0 <= Tips.currentTipIndex (fold_left Tips.step actions c) < 7)%Z)
  /\ Tips.currentTipIndex (Tips.prevTip (Tips.nextTip c)) = Tips.currentTipIndex c
  /\ Tips.currentTipIndex (Tips.nextTip (Tips.prevTip c)) = Tips.currentTipIndex c
  /\ Tips.currentTipIndex (Nat.iter 7 Tips.nextTip c) = Tips.currentTipIndex c
  /\ Tips.tick (Tips.nextTip c) = Tips.nextTip c
  /\ Tips.tick (Tips.prevTip c) = Tips.prevTip c
  /\ (forall actions,
        Tips.isAutoPlaying c = false ->
        Tips.isAutoPlaying (fold_left Tips.step actions c) = false).
Proof.
  split.
  { intros actions. revert c Hrange.
    induction actions as [| action actions IH]; intros c Hrange; [exact Hrange |].
    cbn [fold_left]. apply IH. now apply carousel_step_range. }
  assert (Hcases : exists i, Tips.currentTipIndex c = i
                             /\ (i = 0 \/ i = 1 \/ i = 2 \/ i = 3 \/ i = 4
                                 \/ i = 5 \/ i = 6)%Z).
  { exists (Tips.currentTipIndex c). split; [reflexivity | lia]. }
  destruct Hcases as (i & Hi & Hcases).
  destruct c as [index playing]. cbn [Tips.currentTipIndex] in *. subst index.
  split; [| split; [| split; [| split; [reflexivity | split; [reflexivity |]]]]].
  - destruct Hcases as [-> | [-> | [-> | [-> | [-> | [-> | ->]]]]]]; reflexivity.
  - destruct Hcases as [-> | [-> | [-> | [-> | [-> | [-> | ->]]]]]]; reflexivity.
  - destruct Hcases as [-> | [-> | [-> | [-> | [-> | [-> | ->]]]]]]; reflexivity.
  - intros actions. generalize (Tips.mkCarousel i playing). clear.
    induction actions as [| action actions IH]; intros c Hstopped;
      [exact Hstopped |].
    cbn [fold_left]. apply IH.
    destruct action; cbn [Tips.step]; [reflexivity | reflexivity |].
    unfold Tips.tick. now rewrite Hstopped.
Qed.

Lemma carousel_laws_witness :
  (0 <= 6 < 7)%Z
  /\ Tips.currentTipIndex (Tips.nextTip (Tips.mkCarousel 6 true)) = 0%Z
  /\ Tips.currentTipIndex (Tips.prevTip (Tips.nextTip (Tips.mkCarousel 6 true)))
     = 6%Z.
Proof.
  assert (H : (0 <= 6 < 7)%Z) by lia.
  split; [exact H |]. split; [reflexivity |].
  exact (proj1 (proj2 (carousel_laws (Tips.mkCarousel 6 true) H))).
Defined.

(** ** X27: the simulated health alerts *)

(** The three thresholds are doubles, with 52 fractional bits at most, and
    the nearest ones to the decimals written: 0.7 and 0.6 lie below their
    decimal, 0.8 lies above it. *)
Example literals_are_doubles :
  Alerts.literal_0_7 * inject_Z (2 ^ 52) == inject_Z 3152519739159347
  /\ Alerts.literal_0_6 * inject_Z (2 ^ 53) == inject_Z 5404319552844595
  /\ Alerts.literal_0_8 * inject_Z (2 ^ 52) == inject_Z 3602879701896397
  /\ (7 # 10) - (1 # 2 ^ 54) < Alerts.literal_0_7 /\ Alerts.literal_0_7 < 7 # 10
  /\ (6 # 10) - (1 # 2 ^ 54) < Alerts.literal_0_6 /\ Alerts.literal_0_6 < 6 # 10
  /\ 8 # 10 < Alerts.literal_0_8 /\ Alerts.literal_0_8 < (8 # 10) + (1 # 2 ^ 54).
Proof. vm_compute. repeat split; reflexivity. Qed.

(** X27: [generateAlerts] always returns between one and three alerts, with
    distinct titles; the "Good Environmental Conditions" alert is returned
    exactly when none of the three draws is above its threshold, the double
    written 0.7, 0.6 and 0.8 in turn, and then alone; the air-quality alert is
    returned exactly when its draw is above the double 0.6, and it is the only
    alert shown with the destructive variant. *)
Theorem generateAlerts_laws (pollen aqi uv : Q) (clock : nat -> nat) :
  let alerts := Alerts.generateAlerts pollen aqi uv clock in
  (1 <= List.length alerts <= 3)%nat
  /\ NoDup (map Alerts.title alerts)
  /\ (map Alerts.title alerts = ["Good Environmental Conditions"%string]
      <-> pollen <= Alerts.literal_0_7 /\ aqi <= Alerts.literal_0_6
          /\ uv <= Alerts.literal_0_8)
  /\ (In "Good Environmental Conditions"%string (map Alerts.title alerts) ->
      List.length alerts = 1%nat)
  /\ (In "Poor Air Quality"%string (map Alerts.title alerts)
      <-> Alerts.literal_0_6 < aqi)
  /\ Forall (fun alert =>
               Alerts.getAlertVariant (Alerts.type alert) (Alerts.severity alert)
               = "destructive"%string
               <-> Alerts.title alert = "Poor Air Quality"%string) alerts.
Proof.
  cbv zeta. unfold Alerts.generateAlerts.
  generalize Alerts.literal_0_7, Alerts.literal_0_6, Alerts.literal_0_8.
  intros t7 t6 t8.
  destruct (Qltb t7 pollen) eqn:Hp, (Qltb t6 aqi) eqn:Ha, (Qltb t8 uv) eqn:Hu;
    first [apply Qltb_true_iff in Hp | apply Qltb_false_iff in Hp];
    first [apply Qltb_true_iff in Ha | apply Qltb_false_iff in Ha];
    first [apply Qltb_true_iff in Hu | apply Qltb_false_iff in Hu];
    cbn [Alerts.push fst snd app map Alerts.title Alerts.type Alerts.severity
         List.length In];
    (split; [lia |]);
    (split; [repeat (apply NoDup_cons; [cbn [In]; intuition discriminate |]);
             apply NoDup_nil |]);
    (split; [split; [intros H; try discriminate H; repeat split; lra
                    | intros (H1 & H2 & H3); try reflexivity; lra] |]);
    (split; [intros H; try reflexivity; intuition discriminate |]);
    (split; [split; [intros H; try exact Ha; intuition discriminate
                    | intros H; try lra; intuition auto] |]);
    repeat (apply Forall_cons;
            [cbn; split; intros H; try reflexivity; discriminate H |]);
    apply Forall_nil.
Qed.

(** ** X28: the bands of the dashboard and of the route list *)

Lemma leb_threshold (x : number) (a b : Q) :
  a <= b -> leb x (Num a) = true -> leb x (Num b) = true.
Proof.
  intros Hab Ha. eapply leb_le_trans; [exact Ha |].
  cbn [leb]. now apply Qle_bool_iff.
Qed.

(** X28: [getAQIInfo] classifies an index into five bands with bounds 50,
    100, 150 and 200, each with three recommendations and with class names
    built on one colour name; its colour class is the class [getAqiColor]
    gives the same index on the route page exactly when the index is at most
    100 or is not at most 200: between 100 and 200 the two disagree, and
    [health-unhealthy] names (100, 150] on the route page but (150, 200] on
    the dashboard. *)
Theorem aqi_bands (aqi : number) :
  let info := AirQuality.getAQIInfo aqi in
  (AirQuality.color info = getAqiColor aqi
   <-> leb aqi (Num 100) = true \/ leb aqi (Num 200) = false)
  /\ List.length (AirQuality.recommendations info) = 3%nat
  /\ AirQuality.bgColor info = ("bg-" ++ AirQuality.color info)%string
  /\ AirQuality.textColor info
     = ("text-" ++ AirQuality.color info ++ "-foreground")%string
  /\ (AirQuality.category info = "Good"%string <-> leb aqi (Num 50) = true)
  /\ (AirQuality.category info = "Hazardous"%string <-> leb aqi (Num 200) = false)
  /\ (getAqiColor aqi = "health-unhealthy"%string
      <-> leb aqi (Num 100) = false /\ leb aqi (Num 150) = true)
  /\ (AirQuality.color info = "health-unhealthy"%string
      <-> leb aqi (Num 150) = false /\ leb aqi (Num 200) = true).
Proof.
  cbv zeta. unfold AirQuality.getAQIInfo, getAqiColor.
  pose proof (leb_threshold aqi 50 100 ltac:(lra)) as H1.
  pose proof (leb_threshold aqi 100 150 ltac:(lra)) as H2.
  pose proof (leb_threshold aqi 150 200 ltac:(lra)) as H3.
  destruct (leb aqi (Num 50)) eqn:E50, (leb aqi (Num 100)) eqn:E100,
           (leb aqi (Num 150)) eqn:E150, (leb aqi (Num 200)) eqn:E200;
    try discriminate (H1 eq_refl); try discriminate (H2 eq_refl);
    try discriminate (H3 eq_refl);
    cbn; repeat split; intros; auto; try discriminate; try tauto;
    intuition discriminate.
Qed.

(** ** X29: the simulated air quality *)

Lemma round_between (x : Q) (lo hi : Z) :
  inject_Z lo <= x -> x <= inject_Z hi ->
  (lo <= Qfloor (x + (1 # 2)) <= hi)%Z.
Proof.
  intros Hlo Hhi. split.
  - rewrite <- (Qfloor_Z lo). apply Qfloor_resp_le. lra.
  - assert (H : inject_Z (Qfloor (x + (1 # 2))) < inject_Z (hi + 1)).
    { eapply Qle_lt_trans; [apply Qfloor_le |].
      rewrite inject_Z_plus. change (inject_Z 1) with 1. lra. }
    rewrite <- Zlt_Qlt in H. lia.
Qed.

Lemma Math_round_between (x : Q) (lo hi : Z) :
  inject_Z lo <= x -> x <= inject_Z hi ->
  exists z, Math_round (Num x) = Num (inject_Z z) /\ (lo <= z <= hi)%Z.
Proof.
  intros Hlo Hhi. exists (Qfloor (x + (1 # 2))). split; [reflexivity |].
  now apply round_between.
Qed.

Lemma round1_between (y : Q) (lo hi : Z) :
  inject_Z lo <= y * 10 -> y * 10 <= inject_Z hi ->
  exists z, AirQuality.round1 (Num y) = Num (inject_Z z / 10) /\ (lo <= z <= hi)%Z.
Proof.
  intros Hlo Hhi. exists (Qfloor (y * 10 + (1 # 2))). split; [reflexivity |].
  now apply round_between.
Qed.

Lemma round2_between (y : Q) (lo hi : Z) :
  inject_Z lo <= y * 100 -> y * 100 <= inject_Z hi ->
  exists z, AirQuality.round2 (Num y) = Num (inject_Z z / 100) /\ (lo <= z <= hi)%Z.
Proof.
  intros Hlo Hhi. exists (Qfloor (y * 100 + (1 # 2))). split; [reflexivity |].
  now apply round_between.
Qed.

(** X29: for draws of [Math.random] in [0, 1), the simulated index of the
    dashboard is an integer from 30 to 150, so its category is never
    "Unhealthy" nor "Hazardous"; the toast is destructive exactly when the
    index is above 100, that is in the category "Unhealthy for Sensitive
    Groups"; and the simulated pollutants are multiples of 0.1 (of 0.01 for
    co) within 10 to 50 (pm25), 15 to 65 (pm10), 20 to 80 (no2), 80 to 120
    (o3), 5 to 25 (so2) and 0.5 to 2.5 (co). *)
Theorem simulated_air_quality (r0 r1 r2 r3 r4 r5 r6 : Q)
        (Hdraws : Forall (fun r => 0 <= r /\ r < 1) [r0; r1; r2; r3; r4; r5; r6]) :
  let data := fst (AirQuality.fetchAirQualityData r0 r1 r2 r3 r4 r5 r6) in
  let toast := snd (AirQuality.fetchAirQualityData r0 r1 r2 r3 r4 r5 r6) in
  (exists z,
      AirQuality.aqi data = Num (inject_Z z) /\ (30 <= z <= 150)%Z
      /\ (AirQuality.variant toast = "destructive"%string <-> (100 < z)%Z))
  /\ In (AirQuality.info_category data)
        ["Good"; "Moderate"; "Unhealthy for Sensitive Groups"]%string
  /\ (AirQuality.variant toast = "destructive"%string
      <-> AirQuality.info_category data = "Unhealthy for Sensitive Groups"%string)
  /\ (exists z, AirQuality.pm25 (AirQuality.pollutants data) = Num (inject_Z z / 10)
                /\ (100 <= z <= 500)%Z)
  /\ (exists z, AirQuality.pm10 (AirQuality.pollutants data) = Num (inject_Z z / 10)
                /\ (150 <= z <= 650)%Z)
  /\ (exists z, AirQuality.no2 (AirQuality.pollutants data) = Num (inject_Z z / 10)
                /\ (200 <= z <= 800)%Z)
  /\ (exists z, AirQuality.o3 (AirQuality.pollutants data) = Num (inject_Z z / 10)
                /\ (800 <= z <= 1200)%Z)
  /\ (exists z, AirQuality.so2 (AirQuality.pollutants data) = Num (inject_Z z / 10)
                /\ (50 <= z <= 250)%Z)
  /\ (exists z, AirQuality.co (AirQuality.pollutants data) = Num (inject_Z z / 100)
                /\ (50 <= z <= 250)%Z).
Proof.
  cbv zeta.
  repeat match goal with
         | H : Forall _ (_ :: _) |- _ =>
             apply Forall_cons_iff in H; destruct H as [[? ?] H]
         end.
  unfold AirQuality.fetchAirQualityData.
  cbn [fst snd AirQuality.aqi AirQuality.info_category AirQuality.variant
       AirQuality.pollutants AirQuality.pm25 AirQuality.pm10 AirQuality.no2
       AirQuality.o3 AirQuality.so2 AirQuality.co add mul].
  destruct (Math_round_between (30 + r0 * 120) 30 150) as (z & Hz & Hrange).
  { change (inject_Z 30) with 30. lra. }
  { change (inject_Z 150) with 150. lra. }
  rewrite Hz.
  assert (Hgt : gtb (Num (inject_Z z)) (Num 100) = true <-> (100 < z)%Z).
  { unfold gtb. cbn [ltb]. rewrite Qltb_true_iff.
    change 100 with (inject_Z 100). rewrite <- Zlt_Qlt. reflexivity. }
  assert (H150 : leb (Num (inject_Z z)) (Num 150) = true).
  { cbn [leb]. apply Qle_bool_iff. change 150 with (inject_Z 150).
    rewrite <- Zle_Qle. lia. }
  assert (H100 : leb (Num (inject_Z z)) (Num 100) = true <-> (z <= 100)%Z).
  { cbn [leb]. rewrite Qle_bool_iff. change 100 with (inject_Z 100).
    rewrite <- Zle_Qle. reflexivity. }
  pose proof (leb_threshold (Num (inject_Z z)) 50 100 ltac:(lra)) as H50.
  split; [| split; [| split]].
  - exists z. split; [reflexivity |]. split; [exact Hrange |].
    rewrite <- Hgt. destruct (gtb (Num (inject_Z z)) (Num 100));
      split; intros Hd; try reflexivity; discriminate Hd.
  - unfold AirQuality.getAQIInfo. rewrite H150.
    destruct (leb (Num (inject_Z z)) (Num 50));
      [| destruct (leb (Num (inject_Z z)) (Num 100))];
      cbn [AirQuality.category In]; auto.
  - unfold AirQuality.getAQIInfo. rewrite H150.
    destruct (gtb (Num (inject_Z z)) (Num 100)).
    + assert (G : (100 < z)%Z) by now apply Hgt.
      destruct (leb (Num (inject_Z z)) (Num 100));
        [assert (z <= 100)%Z by (now apply H100); lia |].
      destruct (leb (Num (inject_Z z)) (Num 50));
        [discriminate (H50 eq_refl) |].
      cbn [AirQuality.category]. now split.
    + assert (G : (z <= 100)%Z).
      { destruct (Z_le_gt_dec z 100) as [Hle | Hgt']; [exact Hle |].
        assert (Hc : false = true) by (apply Hgt; lia). discriminate Hc. }
      apply H100 in G. rewrite G.
      destruct (leb (Num (inject_Z z)) (Num 50)); cbn [AirQuality.category];
        split; intros Hd; discriminate Hd.
  - repeat split;
      first [apply round1_between | apply round2_between];
      match goal with
      | |- inject_Z ?n <= _ => change (inject_Z n) with (n # 1)
      | |- _ <= inject_Z ?n => change (inject_Z n) with (n # 1)
      end; lra.
Qed.

Lemma simulated_air_quality_witness :
  Forall (fun r => 0 <= r /\ r < 1)
         [1 # 2; 1 # 2; 1 # 2; 1 # 2; 1 # 2; 1 # 2; 1 # 2]
  /\ In (AirQuality.info_category
           (fst (AirQuality.fetchAirQualityData (1 # 2) (1 # 2) (1 # 2) (1 # 2)
                                                (1 # 2) (1 # 2) (1 # 2))))
        ["Good"; "Moderate"; "Unhealthy for Sensitive Groups"]%string.
Proof.
  assert (H : Forall (fun r => 0 <= r /\ r < 1)
                     [1 # 2; 1 # 2; 1 # 2; 1 # 2; 1 # 2; 1 # 2; 1 # 2]).
  { repeat constructor; lra. }
  split; [exact H |].
  exact (proj1 (proj2 (simulated_air_quality _ _ _ _ _ _ _ H))).
Defined.

(** ** X30: the simulated weather and the display of a temperature *)

Lemma round_half_between (x : Q) (lo hi : Z) :
  inject_Z lo <= x + (1 # 2) -> x + (1 # 2) < inject_Z hi + 1 ->
  exists z, Math_round (Num x) = Num (inject_Z z) /\ (lo <= z <= hi)%Z.
Proof.
  intros Hlo Hhi. exists (Qfloor (x + (1 # 2))). split; [reflexivity |]. split.
  - rewrite <- (Qfloor_Z lo). now apply Qfloor_resp_le.
  - assert (H : inject_Z (Qfloor (x + (1 # 2))) < inject_Z (hi + 1)).
    { eapply Qle_lt_trans; [apply Qfloor_le |].
      rewrite inject_Z_plus. change (inject_Z 1) with 1. exact Hhi. }
    rewrite <- Zlt_Qlt in H. lia.
Qed.

Lemma ltb_threshold (x : number) (a b : Q) :
  a <= b -> ltb x (Num a) = true -> ltb x (Num b) = true.
Proof.
  intros Hab Ha. eapply ltb_le_trans; [exact Ha |].
  unfold le. cbn [leb]. now apply Qle_bool_iff.
Qed.

Lemma ltb_integer (z : Z) (c : Z) :
  ltb (Num (inject_Z z)) (Num (inject_Z c)) = true <-> (z < c)%Z.
Proof.
  cbn [ltb]. rewrite Qltb_true_iff, <- Zlt_Qlt. reflexivity.
Qed.

Lemma at_index_descriptions (r : Q) :
  0 <= r -> r < 1 ->
  exists d, Weather.at_index Weather.descriptions (Math_floor (Num (r * 4))) = Some d
            /\ In d Weather.descriptions.
Proof.
  intros H0 H1. cbn [Math_floor]. unfold Weather.at_index.
  remember (Qfloor (r * 4)) as k eqn:Hk.
  assert (Hrange : (0 <= k <= 3)%Z).
  { subst k. split.
    - change 0%Z with (Qfloor 0). apply Qfloor_resp_le. lra.
    - assert (H : inject_Z (Qfloor (r * 4)) < inject_Z 4).
      { eapply Qle_lt_trans; [apply Qfloor_le |]. change (inject_Z 4) with 4. lra. }
      rewrite <- Zlt_Qlt in H. lia. }
  rewrite Qfloor_Z.
  assert (Hcases : k = 0%Z \/ k = 1%Z \/ k = 2%Z \/ k = 3%Z) by lia.
  clear Hk Hrange.
  destruct Hcases as [-> | [-> | [-> | ->]]]; cbn;
    eexists; (split; [reflexivity |]); cbn; tauto.
Qed.

Lemma nonnegative_not_very_cold (t : number) :
  (exists z, t = Num (inject_Z z) /\ (0 <= z <= 40)%Z) ->
  fst (Weather.getTemperatureStatus t) <> "Very Cold"%string
  /\ Weather.getTemperatureColor t <> "text-blue-600"%string.
Proof.
  intros (z & -> & Hz).
  assert (Hcold : ltb (Num (inject_Z z)) (Num 0) = false).
  { destruct (ltb (Num (inject_Z z)) (Num 0)) eqn:E; [| reflexivity].
    change 0 with (inject_Z 0) in E. apply ltb_integer in E. lia. }
  unfold Weather.getTemperatureStatus, Weather.getTemperatureColor.
  rewrite Hcold.
  split.
  - destruct (ltb (Num (inject_Z z)) (Num 10)); [cbn; discriminate |].
    destruct (ltb (Num (inject_Z z)) (Num 20)); [cbn; discriminate |].
    destruct (ltb (Num (inject_Z z)) (Num 25)); [cbn; discriminate |].
    destruct (ltb (Num (inject_Z z)) (Num 30)); cbn; discriminate.
  - destruct (ltb (Num (inject_Z z)) (Num 10)); [discriminate |].
    destruct (ltb (Num (inject_Z z)) (Num 20)); [discriminate |].
    destruct (ltb (Num (inject_Z z)) (Num 30)); discriminate.
Qed.

(** X30: for a finite latitude from -90 to 90 and draws of [Math.random] in
    [0, 1), the simulated weather has an integer temperature from 0 to 40, an
    integer humidity from 40 to 80, an integer pressure from 1000 to 1040, an
    integer felt temperature from -2 to 43, a wind speed and a visibility
    that are multiples of 0.1 within 2 to 17 and 8 to 15, and one of the four
    descriptions (the index read is never out of the array); so the
    temperature is never shown as "Very Cold" nor in [text-blue-600]. *)
Theorem simulated_weather (lat r0 r1 r2 r3 r4 r5 r6 : Q)
        (Hlat : - (90) <= lat /\ lat <= 90)
        (Hdraws : Forall (fun r => 0 <= r /\ r < 1) [r0; r1; r2; r3; r4; r5; r6]) :
  let w := Weather.fetchWeatherData (Num lat) r0 r1 r2 r3 r4 r5 r6 in
  (exists z, Weather.temperature w = Num (inject_Z z) /\ (0 <= z <= 40)%Z)
  /\ (exists z, Weather.humidity w = Num (inject_Z z) /\ (40 <= z <= 80)%Z)
  /\ (exists z, Weather.pressure w = Num (inject_Z z) /\ (1000 <= z <= 1040)%Z)
  /\ (exists z, Weather.feelsLike w = Num (inject_Z z) /\ (-2 <= z <= 43)%Z)
  /\ (exists z, Weather.windSpeed w = Num (inject_Z z / 10) /\ (20 <= z <= 170)%Z)
  /\ (exists z, Weather.visibility w = Num (inject_Z z / 10) /\ (80 <= z <= 150)%Z)
  /\ (exists d, Weather.description w = Some d /\ In d Weather.descriptions)
  /\ fst (Weather.getTemperatureStatus (Weather.temperature w)) <> "Very Cold"%string
  /\ Weather.getTemperatureColor (Weather.temperature w) <> "text-blue-600"%string.
Proof.
  cbv zeta. destruct Hlat as [Hlo Hhi].
  repeat match goal with
         | H : Forall _ (_ :: _) |- _ =>
             apply Forall_cons_iff in H; destruct H as [[? ?] H]
         end.
  unfold Weather.fetchWeatherData.
  cbn [Weather.temperature Weather.humidity Weather.pressure Weather.feelsLike
       Weather.windSpeed Weather.visibility Weather.description
       add sub mul div].
  change (Qeq_bool 90 0) with false. cbv iota. cbn [add sub mul].
  assert (Hratio : - (1) <= lat / 90 /\ lat / 90 <= 1).
  { split; [apply Qle_shift_div_l | apply Qle_shift_div_r]; lra. }
  destruct Hratio as [Hratio_lo Hratio_hi].
  generalize dependent (lat / 90). intros ratio Hratio_lo Hratio_hi.
  assert (Htemp : exists z,
             Math_round (Num (20 + ratio * 15 + (r0 - (5 # 10)) * 10))
             = Num (inject_Z z) /\ (0 <= z <= 40)%Z).
  { apply round_half_between.
    - change (inject_Z 0) with 0. lra.
    - change (inject_Z 40) with 40. lra. }
  split; [exact Htemp |].
  split.
  { apply Math_round_between.
    - change (inject_Z 40) with 40. lra.
    - change (inject_Z 80) with 80. lra. }
  split.
  { apply Math_round_between.
    - change (inject_Z 1000) with 1000. lra.
    - change (inject_Z 1040) with 1040. lra. }
  split.
  { apply round_half_between.
    - change (inject_Z (-2)) with (- (2)). lra.
    - change (inject_Z 43) with 43. lra. }
  split.
  { apply round1_between.
    - change (inject_Z 20) with 20. lra.
    - change (inject_Z 170) with 170. lra. }
  split.
  { apply round1_between.
    - change (inject_Z 80) with 80. lra.
    - change (inject_Z 150) with 150. lra. }
  split; [now apply at_index_descriptions |].
  now apply nonnegative_not_very_cold.
Qed.

Lemma simulated_weather_witness :
  (- (90) <= 45 /\ 45 <= 90)
  /\ Forall (fun r => 0 <= r /\ r < 1)
            [1 # 2; 1 # 2; 1 # 2; 1 # 2; 1 # 2; 1 # 2; 1 # 2]
  /\ exists z,
      Weather.temperature
        (Weather.fetchWeatherData (Num 45) (1 # 2) (1 # 2) (1 # 2) (1 # 2)
                                  (1 # 2) (1 # 2) (1 # 2))
      = Num (inject_Z z) /\ (0 <= z <= 40)%Z.
Proof.
  assert (Hlat : - (90) <= 45 /\ 45 <= 90) by (split; lra).
  assert (H : Forall (fun r => 0 <= r /\ r < 1)
                     [1 # 2; 1 # 2; 1 # 2; 1 # 2; 1 # 2; 1 # 2; 1 # 2]).
  { repeat constructor; lra. }
  split; [exact Hlat |]. split; [exact H |].
  exact (proj1 (simulated_weather _ _ _ _ _ _ _ _ Hlat H)).
Defined.

(** The colour and the label [WeatherData] shows for a temperature agree
    on every band but one: [text-blue-600] goes with "Very Cold",
    [text-blue-500] with "Cold", [text-green-500] with "Cool" and
    [text-red-500] with "Hot", while [text-yellow-500] covers the two labels
    "Comfortable" and "Warm"; the badge is destructive exactly for "Hot",
    which is also what a temperature that is not a number gets. *)
Lemma temperature_display (temp : number) :
  let c := Weather.getTemperatureColor temp in
  let l := fst (Weather.getTemperatureStatus temp) in
  let v := snd (Weather.getTemperatureStatus temp) in
  (c = "text-blue-600"%string <-> l = "Very Cold"%string)
  /\ (c = "text-blue-500"%string <-> l = "Cold"%string)
  /\ (c = "text-green-500"%string <-> l = "Cool"%string)
  /\ (c = "text-yellow-500"%string
      <-> l = "Comfortable"%string \/ l = "Warm"%string)
  /\ (c = "text-red-500"%string <-> l = "Hot"%string)
  /\ (v = "destructive"%string <-> l = "Hot"%string)
  /\ (temp = NaN -> l = "Hot"%string).
Proof.
  cbv zeta. unfold Weather.getTemperatureColor, Weather.getTemperatureStatus.
  pose proof (ltb_threshold temp 20 25 ltac:(lra)) as H1.
  pose proof (ltb_threshold temp 25 30 ltac:(lra)) as H2.
  split; [| split; [| split; [| split; [| split; [| split]]]]];
    try (intros ->; reflexivity);
    destruct (ltb temp (Num 0)), (ltb temp (Num 10)), (ltb temp (Num 20)),
             (ltb temp (Num 25)), (ltb temp (Num 30));
    try discriminate (H1 eq_refl); try discriminate (H2 eq_refl);
    cbn; split; intros Hd; auto; try discriminate Hd;
    try (destruct Hd as [Hd | Hd]; discriminate Hd).
Qed.
